(** * msh/lib/config: bootstrap of the default and runtime configuration

    A shallow embedding of [lib/config/config.go] (LoadConfig, Save,
    loadDefault, loadRuntime) together with the parts of the Go standard
    library the file calls ([strings], [encoding/hex], [crypto/sha1]), and
    the properties of the bootstrap stated in the specification.

    Go strings are byte sequences: they are embedded as [string] (a list of
    8-bit [ascii]); [[]byte] is [list byte]; Go's [int] and [int64] are [Z]
    (no arithmetic is performed on them in this file). *)

From Stdlib Require Import ZArith Lia List Bool.
From Stdlib.Strings Require Import Ascii String Byte.
From stdpp Require Import gmap strings.

Import ListNotations.
Local Open Scope string_scope.
Local Open Scope list_scope.

(** ** Package [strings] *)

(** [strings.ToLower] on one byte.  Go lower-cases by rune; on the ASCII
    range that is the map A-Z to a-z used here.  Bytes of 0x80 and above are
    kept as they are: the runes they encode never lower-case to a letter of
    the word [eula=true], so the acceptance test below is not affected. *)
Definition toLowerByte (a : ascii) : ascii :=
  let n := nat_of_ascii a in
  if (65 <=? n)%nat && (n <=? 90)%nat then ascii_of_nat (n + 32) else a.

Fixpoint strings_ToLower (s : string) : string :=
  match s with
  | EmptyString => EmptyString
  | String a s' => String (toLowerByte a) (strings_ToLower s')
  end.

(** [strings.HasPrefix s prefix]. *)
Fixpoint strings_HasPrefix (s prefix : string) : bool :=
  match prefix, s with
  | EmptyString, _ => true
  | String _ _, EmptyString => false
  | String p prefix', String a s' =>
      if Ascii.eqb a p then strings_HasPrefix s' prefix' else false
  end.

(** [strings.Contains s substr]: [substr] occurs at some offset of [s]. *)
Fixpoint strings_Contains (s substr : string) : bool :=
  strings_HasPrefix s substr ||
  match s with
  | EmptyString => false
  | String _ s' => strings_Contains s' substr
  end.

(** [strings.ReplaceAll s old new] for a non-empty [old] (the source only
    passes constant, non-empty patterns): the occurrences of [old] are
    found from the left and do not overlap.  [skip] counts the bytes of a
    match that are still to be dropped. *)
Fixpoint replaceFrom (skip : nat) (old new s : string) : string :=
  match s with
  | EmptyString => EmptyString
  | String a s' =>
      match skip with
      | S k => replaceFrom k old new s'
      | O =>
          if strings_HasPrefix s old
          then new ++ replaceFrom (String.length old - 1) old new s'
          else String a (replaceFrom 0 old new s')
      end
  end.

Definition strings_ReplaceAll (s old new : string) : string :=
  match old with
  | EmptyString => s
  | _ => replaceFrom 0 old new s
  end.

(** [strings.Split s sep] for a non-empty [sep]: the pieces of [s] between
    the occurrences of [sep]; always at least one piece. *)
Fixpoint splitFrom (skip : nat) (sep s : string) : list string :=
  match s with
  | EmptyString => [EmptyString]
  | String a s' =>
      match skip with
      | S k => splitFrom k sep s'
      | O =>
          if strings_HasPrefix s sep
          then EmptyString :: splitFrom (String.length sep - 1) sep s'
          else match splitFrom 0 sep s' with
               | p :: ps => String a p :: ps
               | [] => [String a EmptyString]
               end
      end
  end.

Definition strings_Split (s sep : string) : list string :=
  match sep with
  | EmptyString => [s]
  | _ => splitFrom 0 sep s
  end.

(** [strings.Join elems sep]. *)
Fixpoint strings_Join (elems : list string) (sep : string) : string :=
  match elems with
  | [] => EmptyString
  | [e] => e
  | e :: rest => e ++ sep ++ strings_Join rest sep
  end.

(** ** Package [encoding/hex] *)

Definition hextable : string := "0123456789abcdef".

Definition hexDigit (n : N) : ascii :=
  match String.get (N.to_nat n) hextable with
  | Some a => a
  | None => "0"%char
  end.

(** [hex.EncodeToString]: two digits of [hextable] per byte, high nibble
    first. *)
Fixpoint hex_EncodeToString (src : list byte) : string :=
  match src with
  | [] => EmptyString
  | v :: rest =>
      String (hexDigit (N.shiftr (Byte.to_N v) 4))
        (String (hexDigit (N.land (Byte.to_N v) 15))
           (hex_EncodeToString rest))
  end.

(** ** Package [crypto/sha1]

    The digest of FIPS 180-4 on 32-bit words, written with [Z] and the
    wrap-around made explicit. *)

Definition byteZ (b : byte) : Z := Z.of_N (Byte.to_N b).

Definition byte_of_Z (z : Z) : byte :=
  match Byte.of_N (Z.to_N (z mod 256)) with
  | Some b => b
  | None => x00
  end.

Definition add32 (x y : Z) : Z := ((x + y) mod 2 ^ 32)%Z.

Definition rotl32 (x n : Z) : Z :=
  (Z.lor (Z.shiftl x n mod 2 ^ 32) (Z.shiftr x (32 - n)))%Z.

Definition not32 (x : Z) : Z := Z.lxor x 0xFFFFFFFF.

(** big-endian encodings *)
Definition be32 (h : Z) : list Z :=
  [ (h / 2 ^ 24) mod 256; (h / 2 ^ 16) mod 256; (h / 2 ^ 8) mod 256; h mod 256 ]%Z.

Definition be64 (h : Z) : list Z := be32 (h / 2 ^ 32)%Z ++ be32 (h mod 2 ^ 32)%Z.

Fixpoint words_of_bytes (bs : list Z) : list Z :=
  match bs with
  | b0 :: b1 :: b2 :: b3 :: rest =>
      (b0 * 2 ^ 24 + b1 * 2 ^ 16 + b2 * 2 ^ 8 + b3)%Z :: words_of_bytes rest
  | _ => []
  end.

(** the message followed by 0x80, zero bytes up to 56 modulo 64, and the
    bit length on 64 bits *)
Definition sha1_pad (msg : list byte) : list Z :=
  let n := List.length msg in
  List.map byteZ msg ++ [128%Z]
    ++ List.repeat 0%Z ((119 - n mod 64) mod 64)
    ++ be64 (8 * Z.of_nat n).

Fixpoint sha1_blocks (n : nat) (bs : list Z) : list (list Z) :=
  match n with
  | O => []
  | S n' => firstn 64 bs :: sha1_blocks n' (skipn 64 bs)
  end.

(** message schedule; [rev_w] holds W[t-1], W[t-2], ... *)
Fixpoint sha1_schedule (n : nat) (rev_w : list Z) : list Z :=
  match n with
  | O => rev_w
  | S n' =>
      let w := rotl32 (Z.lxor (Z.lxor (Z.lxor (nth 2 rev_w 0%Z) (nth 7 rev_w 0%Z))
                                 (nth 13 rev_w 0%Z)) (nth 15 rev_w 0%Z)) 1 in
      sha1_schedule n' (w :: rev_w)
  end.

Definition sha1_f (t : nat) (b c d : Z) : Z :=
  if (t <? 20)%nat then Z.lor (Z.land b c) (Z.land (not32 b) d)
  else if (t <? 40)%nat then Z.lxor (Z.lxor b c) d
  else if (t <? 60)%nat then Z.lor (Z.lor (Z.land b c) (Z.land b d)) (Z.land c d)
  else Z.lxor (Z.lxor b c) d.

Definition sha1_K (t : nat) : Z :=
  if (t <? 20)%nat then 0x5A827999%Z
  else if (t <? 40)%nat then 0x6ED9EBA1%Z
  else if (t <? 60)%nat then 0x8F1BBCDC%Z
  else 0xCA62C1D6%Z.

Definition sha1_digest : Type := (Z * Z * Z * Z * Z)%type.

Definition sha1_round (s : sha1_digest) (tw : nat * Z) : sha1_digest :=
  let '(a, b, c, d, e) := s in
  let '(t, w) := tw in
  let tmp := add32 (add32 (add32 (add32 (rotl32 a 5) (sha1_f t b c d)) e) w) (sha1_K t) in
  (tmp, a, rotl32 b 30, c, d).

Definition sha1_block (h : sha1_digest) (blk : list Z) : sha1_digest :=
  let ws := rev (sha1_schedule 64 (rev (words_of_bytes blk))) in
  let '(a, b, c, d, e) := fold_left sha1_round (combine (seq 0 80) ws) h in
  let '(h0, h1, h2, h3, h4) := h in
  (add32 h0 a, add32 h1 b, add32 h2 c, add32 h3 d, add32 h4 e).

Definition sha1_init : sha1_digest :=
  (0x67452301, 0xEFCDAB89, 0x98BADCFE, 0x10325476, 0xC3D2E1F0)%Z.

(** [h := sha1.New(); h.Write(msg); h.Sum(nil)] *)
Definition sha1_Sum (msg : list byte) : list byte :=
  let padded := sha1_pad msg in
  let '(h0, h1, h2, h3, h4) :=
    fold_left sha1_block (sha1_blocks (List.length padded / 64) padded) sha1_init in
  List.map byte_of_Z (be32 h0 ++ be32 h1 ++ be32 h2 ++ be32 h3 ++ be32 h4).

(** the identity the source derives: [hex(sha1(id + dir))] *)
Definition sha1_hex (s : string) : string :=
  hex_EncodeToString (sha1_Sum (list_byte_of_string s)).

(** ** Package [errco]: error values and log levels

    Modelled from the spec: package [errco] is outside [config.go]; an
    error value carries a code, a severity level, a source-operation trace
    tag and a message, and [AddTrace] puts the caller in front of the
    trace.  The codes and levels are the ones [config.go] names. *)

Inductive ErrCode : Type :=
| ERROR_CONFIG_SAVE
| ERROR_CONFIG_LOAD
| ERROR_CONFIG_CHECK
| ERROR_MINECRAFT_SERVER
| ERROR_TERMINAL_START
| ERROR_EXTERNAL (code : Z).   (* a code raised by another package *)

Inductive LogLvl : Type := LVL_A | LVL_B | LVL_D.

Inductive Color : Type := COLOR_CYAN | COLOR_RESET.

Record Error : Type := NewErr {
  Cod : ErrCode;
  Lvl : LogLvl;
  Ori : string;     (* trace of the operations the error went through *)
  Str : string
}.

Definition AddTrace (pn : string) (e : Error) : Error :=
  NewErr (Cod e) (Lvl e) (pn ++ ": " ++ Ori e) (Str e).

(** A Go call returning [(value, err)]; [Err] holds [err.Error()]. *)
Inductive Result (A : Type) : Type :=
| Ok (a : A)
| Err (msg : string).
Arguments Ok {A} a.
Arguments Err {A} msg.

(** ** Package [model]: the configuration record

    [model.Configuration] is declared outside [config.go]; the fields are
    the ones [config.go] reads and writes.  The three groups are struct
    values, so assigning a [Configuration] copies all of it. *)

Record ServerCfg : Type := {
  Folder : string;
  FileName : string;
  Version : string;
  Protocol : Z
}.

Record CommandsCfg : Type := {
  StartServer : string;
  StartServerParam : string;
  StopServerAllowKill : Z
}.

Record MshCfg : Type := {
  ID : string;
  Debug : Z;
  AllowSuspend : bool;
  InfoHibernation : string;
  InfoStarting : string;
  NotifyUpdate : bool;
  NotifyMessage : bool;
  ListenPort : Z;
  TimeBeforeStoppingEmptyServer : Z
}.

Record Configuration : Type := {
  Server : ServerCfg;
  Commands : CommandsCfg;
  Msh : MshCfg
}.

Definition set_MshID (id : string) (c : Configuration) : Configuration :=
  {| Server := Server c;
     Commands := Commands c;
     Msh := {| ID := id;
               Debug := Debug (Msh c);
               AllowSuspend := AllowSuspend (Msh c);
               InfoHibernation := InfoHibernation (Msh c);
               InfoStarting := InfoStarting (Msh c);
               NotifyUpdate := NotifyUpdate (Msh c);
               NotifyMessage := NotifyMessage (Msh c);
               ListenPort := ListenPort (Msh c);
               TimeBeforeStoppingEmptyServer := TimeBeforeStoppingEmptyServer (Msh c) |} |}.

Definition set_VersionProtocol (v : string) (p : Z) (c : Configuration) : Configuration :=
  {| Server := {| Folder := Folder (Server c);
                  FileName := FileName (Server c);
                  Version := v;
                  Protocol := p |};
     Commands := Commands c;
     Msh := Msh c |}.

Definition set_StartServer (s : string) (c : Configuration) : Configuration :=
  {| Server := Server c;
     Commands := {| StartServer := s;
                    StartServerParam := StartServerParam (Commands c);
                    StopServerAllowKill := StopServerAllowKill (Commands c) |};
     Msh := Msh c |}.

(** ** The command line

    The value of each flag [loadRuntime] registers, [None] when the flag is
    not given.  [flag.Parse] leaves the process (usage message, non-zero
    status) on an unknown or malformed flag; the embedding starts from a
    command line that parses. *)

Record Flags : Type := {
  flag_folder : option string;
  flag_file : option string;
  flag_version : option string;
  flag_protocol : option Z;
  flag_msparam : option string;
  flag_allowkill : option Z;
  flag_id : option string;
  flag_d : option Z;
  flag_allowsuspend : option bool;
  flag_infohibe : option string;
  flag_infostar : option string;
  flag_notifyupd : option bool;
  flag_notifymes : option bool;
  flag_port : option Z;
  flag_timeout : option Z
}.

(** ** Observable effects, in the order they happen *)

Inductive Event : Type :=
| EvLogln (lvl : LogLvl) (format : string)      (* errco.Logln *)
| EvLogMshErr (e : Error)                       (* errco.LogMshErr *)
| EvPrint (c : Color)                           (* fmt.Print of a color code *)
| EvStat (path : string)                        (* os.Stat *)
| EvReadFile (path : string)                    (* ioutil.ReadFile *)
| EvWriteFile (path data : string)              (* ioutil.WriteFile *)
| EvRun (name : string) (args : list string) (dir : string)   (* cmd.Run *)
| EvLookPath (file : string)                    (* exec.LookPath *)
| EvOutput (name : string) (args : list string) (* cmd.Output *).

(** ** The world outside the process

    What the operating system, the command line and the functions of the
    package that live in other files answer during one bootstrap. *)

(** What [json.Unmarshal(configData, &c)] leaves in the pointer [c] it is
    given the address of: [c] still points to its struct, which now holds
    [c'] ([Decoded c']), or the JSON literal null has set [c] itself to nil
    ([Nil]; the struct it pointed to is not written). *)
Inductive Receiver : Type :=
| Decoded (c' : Configuration)
| Nil.

(** How a call ends: it returns, or a nil pointer is dereferenced and the
    process dies in a panic. *)
Inductive Outcome : Type :=
| Returns (errMsh : option Error)
| Panics.

Record World : Type := {
  (* path/filepath and the resolution of a path to the file it names *)
  filepath_Dir : string -> string;
  filepath_Join : string -> string -> string;
  os_resolve : string -> string;
  (* encoding/json on [Configuration]; [json_Unmarshal data c] is what
     decoding [data] leaves in the receiver whose struct held [c], and the
     error if any *)
  json_MarshalIndent : Configuration -> string -> string -> Result string;
  json_Unmarshal : string -> Configuration -> Receiver * option string;
  (* opsys.OsSupported *)
  opsys_OsSupported : option Error;
  (* os.Executable, at line 109 and at line 137 *)
  os_Executable_config : Result string;
  os_Executable_mshid : Result string;
  (* machineid.ProtectedID "msh" *)
  machineid_ProtectedID : string -> Result string;
  (* the command line, parsed *)
  flag_Parse : Flags;
  (* os.IsNotExist of the error of os.Stat *)
  os_Stat_IsNotExist : string -> bool;
  (* text of the error of a failed read; error of a write, [None] when
     the write succeeds.  ioutil.WriteFile opens the file with O_TRUNC and
     then writes: a failed write comes with [None] when the file could not
     be opened (the disk is untouched), and with [Some n] when it was
     opened, which empties it, and [n] bytes of the data reached it *)
  ioutil_ReadFile_err : string -> string;
  ioutil_WriteFile_err : string -> option (string * option nat);
  (* cmd.Run of a command in a directory: what it leaves on disk, and its
     error *)
  cmd_Run : string -> list string -> string ->
            gmap string string -> gmap string string * option string;
  exec_LookPath : string -> bool;
  cmd_Output : string -> list string -> Result string;
  (* methods of [Configuration] in other files of the package, taken by
     what they answer: the version/protocol probe, the address and port
     resolution, the icon loading *)
  getVersionInfo : Configuration -> Error + (string * Z);
  loadIpPorts : Configuration -> option Error;
  loadIcon : Configuration -> option Error;
  (* [assignMshID] and [getVersionInfo], methods in other files, called on
     a nil receiver, which only happens after the config file held the JSON
     literal null: whether [assignMshID] returns, and the error
     [getVersionInfo] returns; [false] and [None] when the call panics
     ([None] also when [getVersionInfo] returns no error: line 156 then
     reads a field of the nil receiver) *)
  nil_assignMshID : bool;
  nil_getVersionInfo : option Error
}.

(** ** The package variables and the disk

    [ConfigDefault], [ConfigRuntime], [ConfigDefaultSave] and [Javav] of
    lines 23-39, [errco.DebugLvl], [servstats.Stats.Error], the readable
    files by resolved path, and the events so far.  [ServerIcon] and the
    listen and target hosts and ports are only written by [loadIcon] and
    [loadIpPorts], in other files, and are left out. *)

Record Globals : Type := {
  ConfigDefault : Configuration;
  ConfigRuntime : Configuration;
  ConfigDefaultSave : bool;
  Javav : string;
  errco_DebugLvl : Z;
  servstats_Stats_Error : option Error;
  files : gmap string string;
  trace : list Event
}.

Definition set_ConfigDefault (c : Configuration) (g : Globals) : Globals :=
  {| ConfigDefault := c; ConfigRuntime := ConfigRuntime g;
     ConfigDefaultSave := ConfigDefaultSave g; Javav := Javav g;
     errco_DebugLvl := errco_DebugLvl g;
     servstats_Stats_Error := servstats_Stats_Error g;
     files := files g; trace := trace g |}.

Definition set_ConfigRuntime (c : Configuration) (g : Globals) : Globals :=
  {| ConfigDefault := ConfigDefault g; ConfigRuntime := c;
     ConfigDefaultSave := ConfigDefaultSave g; Javav := Javav g;
     errco_DebugLvl := errco_DebugLvl g;
     servstats_Stats_Error := servstats_Stats_Error g;
     files := files g; trace := trace g |}.

Definition set_ConfigDefaultSave (b : bool) (g : Globals) : Globals :=
  {| ConfigDefault := ConfigDefault g; ConfigRuntime := ConfigRuntime g;
     ConfigDefaultSave := b; Javav := Javav g;
     errco_DebugLvl := errco_DebugLvl g;
     servstats_Stats_Error := servstats_Stats_Error g;
     files := files g; trace := trace g |}.

Definition set_Javav (s : string) (g : Globals) : Globals :=
  {| ConfigDefault := ConfigDefault g; ConfigRuntime := ConfigRuntime g;
     ConfigDefaultSave := ConfigDefaultSave g; Javav := s;
     errco_DebugLvl := errco_DebugLvl g;
     servstats_Stats_Error := servstats_Stats_Error g;
     files := files g; trace := trace g |}.

Definition set_DebugLvl (d : Z) (g : Globals) : Globals :=
  {| ConfigDefault := ConfigDefault g; ConfigRuntime := ConfigRuntime g;
     ConfigDefaultSave := ConfigDefaultSave g; Javav := Javav g;
     errco_DebugLvl := d;
     servstats_Stats_Error := servstats_Stats_Error g;
     files := files g; trace := trace g |}.

Definition set_Stats_Error (e : Error) (g : Globals) : Globals :=
  {| ConfigDefault := ConfigDefault g; ConfigRuntime := ConfigRuntime g;
     ConfigDefaultSave := ConfigDefaultSave g; Javav := Javav g;
     errco_DebugLvl := errco_DebugLvl g;
     servstats_Stats_Error := Some e;
     files := files g; trace := trace g |}.

Definition set_files (fs : gmap string string) (g : Globals) : Globals :=
  {| ConfigDefault := ConfigDefault g; ConfigRuntime := ConfigRuntime g;
     ConfigDefaultSave := ConfigDefaultSave g; Javav := Javav g;
     errco_DebugLvl := errco_DebugLvl g;
     servstats_Stats_Error := servstats_Stats_Error g;
     files := fs; trace := trace g |}.

Definition add_event (e : Event) (g : Globals) : Globals :=
  {| ConfigDefault := ConfigDefault g; ConfigRuntime := ConfigRuntime g;
     ConfigDefaultSave := ConfigDefaultSave g; Javav := Javav g;
     errco_DebugLvl := errco_DebugLvl g;
     servstats_Stats_Error := servstats_Stats_Error g;
     files := files g; trace := trace g ++ [e] |}.

(** ** A state monad over the package variables *)

Definition M (A : Type) : Type := Globals -> A * Globals.

#[global] Instance M_ret : MRet M := fun A (a : A) (g : Globals) => (a, g).

#[global] Instance M_bind : MBind M :=
  fun A B (k : A -> M B) (m : M A) (g : Globals) =>
    match m g with (a, g') => k a g' end.

Definition gets {A : Type} (f : Globals -> A) : M A := fun g => (f g, g).

Definition modify (f : Globals -> Globals) : M unit := fun g => (tt, f g).

Definition emit (e : Event) : M unit := modify (add_event e).

Definition errco_Logln (lvl : LogLvl) (format : string) : M unit :=
  emit (EvLogln lvl format).

Definition errco_LogMshErr (e : Error) : M unit := emit (EvLogMshErr e).

Definition fmt_Print (c : Color) : M unit := emit (EvPrint c).

(** ** [config.go] *)

Definition configFileName : string := "msh-config.json".

(** the package variables before [LoadConfig] runs (lines 23-39) *)
Definition Configuration_zero : Configuration :=
  {| Server := {| Folder := ""; FileName := ""; Version := ""; Protocol := 0 |};
     Commands := {| StartServer := ""; StartServerParam := ""; StopServerAllowKill := 0 |};
     Msh := {| ID := ""; Debug := 0; AllowSuspend := false;
               InfoHibernation := ""; InfoStarting := "";
               NotifyUpdate := false; NotifyMessage := false;
               ListenPort := 0; TimeBeforeStoppingEmptyServer := 0 |} |}.

Definition Globals_init (disk : gmap string string) : Globals :=
  {| ConfigDefault := Configuration_zero;
     ConfigRuntime := Configuration_zero;
     ConfigDefaultSave := false;
     Javav := "";
     errco_DebugLvl := 0;
     servstats_Stats_Error := None;
     files := disk;
     trace := [] |}.

(** the flags of lines 172-188 laid over a configuration: a flag that is
    not given keeps the value it was registered with *)
Definition overlay (f : Flags) (c : Configuration) : Configuration :=
  {| Server := {| Folder := default (Folder (Server c)) (flag_folder f);
                  FileName := default (FileName (Server c)) (flag_file f);
                  Version := default (Version (Server c)) (flag_version f);
                  Protocol := default (Protocol (Server c)) (flag_protocol f) |};
     Commands := {| StartServer := StartServer (Commands c);
                    StartServerParam := default (StartServerParam (Commands c)) (flag_msparam f);
                    StopServerAllowKill := default (StopServerAllowKill (Commands c)) (flag_allowkill f) |};
     Msh := {| ID := default (ID (Msh c)) (flag_id f);
               Debug := default (Debug (Msh c)) (flag_d f);
               AllowSuspend := default (AllowSuspend (Msh c)) (flag_allowsuspend f);
               InfoHibernation := default (InfoHibernation (Msh c)) (flag_infohibe f);
               InfoStarting := default (InfoStarting (Msh c)) (flag_infostar f);
               NotifyUpdate := default (NotifyUpdate (Msh c)) (flag_notifyupd f);
               NotifyMessage := default (NotifyMessage (Msh c)) (flag_notifymes f);
               ListenPort := default (ListenPort (Msh c)) (flag_port f);
               TimeBeforeStoppingEmptyServer :=
                 default (TimeBeforeStoppingEmptyServer (Msh c)) (flag_timeout f) |} |}.

(** lines 201-202 *)
Definition replacePlaceholders (c : Configuration) : Configuration :=
  let c1 := set_StartServer
              (strings_ReplaceAll (StartServer (Commands c)) "<Server.FileName>"
                 (FileName (Server c))) c in
  set_StartServer
    (strings_ReplaceAll (StartServer (Commands c1)) "<Commands.StartServerParam>"
       (StartServerParam (Commands c1))) c1.

(** the condition of the second [case] of line 262, negated: the text of
    eula.txt holds [eula=true] once lower-cased and without spaces *)
Definition eulaAccepted (eulaData : string) : bool :=
  strings_Contains
    (strings_ReplaceAll (strings_ToLower eulaData) " " "") "eula=true".

Definition LF : string := String "010"%char EmptyString.
Definition CR : string := String "013"%char EmptyString.

Section Bootstrap.

Variable w : World.

Definition ioutil_ReadFile (path : string) : M (Result string) :=
  emit (EvReadFile path) ;;
  fs ← gets files ;
  match fs !! os_resolve w path with
  | Some data => mret (Ok data)
  | None => mret (Err (ioutil_ReadFile_err w path))
  end.

Definition ioutil_WriteFile (path data : string) : M (option string) :=
  emit (EvWriteFile path data) ;;
  match ioutil_WriteFile_err w path with
  | Some (e, None) => mret (Some e)
  | Some (e, Some n) =>
      modify (fun g => set_files
                         (<[os_resolve w path := substring 0 n data]> (files g)) g) ;;
      mret (Some e)
  | None =>
      modify (fun g => set_files (<[os_resolve w path := data]> (files g)) g) ;;
      mret None
  end.

Definition exec_Run (name : string) (args : list string) (dir : string)
  : M (option string) :=
  emit (EvRun name args dir) ;;
  fs ← gets files ;
  match cmd_Run w name args dir fs with
  | (fs', err) => modify (set_files fs') ;; mret err
  end.

(** [Save] (lines 88-104), on the configuration [c] it is called on *)
Definition Save (c : Configuration) : M (option Error) :=
  match json_MarshalIndent w c "" "  " with
  | Err _ =>
      mret (Some (NewErr ERROR_CONFIG_SAVE LVL_D "Save" "could not marshal from config file"))
  | Ok configData =>
      err ← ioutil_WriteFile configFileName configData ;
      match err with
      | Some _ =>
          mret (Some (NewErr ERROR_CONFIG_SAVE LVL_D "Save" "could not write to config file"))
      | None =>
          errco_Logln LVL_D "saved default config to config file" ;;
          mret None
      end
  end.

(** Modelled from the spec: [assignMshID] is a method declared in another
    file of the package; [loadDefault] calls it when the machine id or the
    executable path cannot be obtained.  The specification says that in
    this case the stored identity is left untouched and no derivation is
    performed. *)
Definition assignMshID : M unit := mret tt.

(** lines 134-148 of [loadDefault], on the default configuration *)
Definition loadMshID : M unit :=
  match machineid_ProtectedID w "msh" with
  | Err _ =>
      errco_LogMshErr (NewErr ERROR_CONFIG_CHECK LVL_D "loadDefault"
                         "error while generating machine id, assigning mshid") ;;
      assignMshID
  | Ok id =>
      match os_Executable_mshid w with
      | Err _ =>
          errco_LogMshErr (NewErr ERROR_CONFIG_CHECK LVL_D "loadDefault"
                             "error while generating machine id, assigning mshid") ;;
          assignMshID
      | Ok ex =>
          let id' := sha1_hex (id ++ filepath_Dir w ex) in
          c ← gets ConfigDefault ;
          if negb (String.eqb (ID (Msh c)) id') then
            errco_LogMshErr (NewErr ERROR_CONFIG_CHECK LVL_D "loadDefault"
                               "mshid was generated from machine id") ;;
            modify (fun g => set_ConfigDefault (set_MshID id' (ConfigDefault g)) g) ;;
            modify (set_ConfigDefaultSave true)
          else mret tt
      end
  end.

(** lines 152-160 of [loadDefault] *)
Definition loadVersionProtocol : M unit :=
  c ← gets ConfigDefault ;
  match getVersionInfo w c with
  | inl errMsh => errco_LogMshErr (AddTrace "loadDefault" errMsh)
  | inr (version, protocol) =>
      if negb (String.eqb (Version (Server c)) version)
         || negb (Z.eqb (Protocol (Server c)) protocol)
      then
        modify (fun g => set_ConfigDefault
                           (set_VersionProtocol version protocol (ConfigDefault g)) g) ;;
        modify (set_ConfigDefaultSave true)
      else mret tt
  end.

(** lines 134-162 of [loadDefault] when line 121 has left the receiver
    nil.  With the machine id and the executable path at hand, line 143
    reads [c.Msh.ID] and panics.  Otherwise the warning is logged and
    [assignMshID] and [getVersionInfo] are called on the nil receiver; if
    both return and the probe reports an error, the error is logged and
    [loadDefault] returns nil, with the default configuration as it was
    ([assignMshID], when it returns, is taken to change nothing, as
    above). *)
Definition loadDefault_nil : M Outcome :=
  match machineid_ProtectedID w "msh", os_Executable_mshid w with
  | Ok _, Ok _ => mret Panics
  | _, _ =>
      errco_LogMshErr (NewErr ERROR_CONFIG_CHECK LVL_D "loadDefault"
                         "error while generating machine id, assigning mshid") ;;
      if nil_assignMshID w then
        match nil_getVersionInfo w with
        | Some errMsh =>
            errco_LogMshErr (AddTrace "loadDefault" errMsh) ;;
            mret (Returns None)
        | None => mret Panics
        end
      else mret Panics
  end.

(** [loadDefault] (lines 107-163); its receiver is the default
    configuration *)
Definition loadDefault : M Outcome :=
  match os_Executable_config w with
  | Err e => mret (Returns (Some (NewErr ERROR_CONFIG_LOAD LVL_B "loadDefault" e)))
  | Ok mshPath =>
      r ← ioutil_ReadFile (filepath_Join w (filepath_Dir w mshPath) configFileName) ;
      match r with
      | Err e => mret (Returns (Some (NewErr ERROR_CONFIG_LOAD LVL_B "loadDefault" e)))
      | Ok configData =>
          c ← gets ConfigDefault ;
          match json_Unmarshal w configData c with
          | (Decoded c', Some e) =>
              modify (set_ConfigDefault c') ;;
              mret (Returns (Some (NewErr ERROR_CONFIG_LOAD LVL_B "loadDefault" e)))
          | (Nil, Some e) =>
              mret (Returns (Some (NewErr ERROR_CONFIG_LOAD LVL_B "loadDefault" e)))
          | (Decoded c', None) =>
              modify (set_ConfigDefault c') ;;
              loadMshID ;;
              loadVersionProtocol ;;
              mret (Returns None)
          | (Nil, None) => loadDefault_nil
          end
      end
  end.

(** lines 216-224 of [loadRuntime]: the identity of the runtime
    configuration against the one of the default configuration *)
Definition reconcileMshID : M unit :=
  confdef ← gets ConfigDefault ;
  c ← gets ConfigRuntime ;
  if negb (String.eqb (ID (Msh confdef)) (ID (Msh c))) then
    if Nat.eqb (String.length (ID (Msh c))) 40 then
      errco_LogMshErr (NewErr ERROR_CONFIG_CHECK LVL_D "loadRuntime"
                         "setting user specified mshid in default config") ;;
      modify (fun g => set_ConfigDefault (set_MshID (ID (Msh c)) (ConfigDefault g)) g) ;;
      modify (set_ConfigDefaultSave true)
    else
      errco_LogMshErr (NewErr ERROR_CONFIG_CHECK LVL_D "loadRuntime"
                         "user specified mshid is not healthy, using default mshid")
  else mret tt.

(** the body of the second [case] of the switch (lines 265-266) *)
Definition eulaNotAccepted (eulaFilePath : string) : M unit :=
  modify (set_Stats_Error (NewErr ERROR_MINECRAFT_SERVER LVL_D "loadRuntime"
                             "please accept minecraft server eula.txt")) ;;
  errco_LogMshErr (NewErr ERROR_CONFIG_CHECK LVL_B "loadRuntime"
                     ("please accept minecraft server eula.txt: " ++ eulaFilePath)).

(** lines 238-272 of [loadRuntime]: the switch on eula.txt.  The first
    [case] ends in [fallthrough], which enters the body of the second
    [case] without evaluating its condition. *)
Definition checkEula : M unit :=
  c ← gets ConfigRuntime ;
  let eulaFilePath := filepath_Join w (Folder (Server c)) "eula.txt" in
  r ← ioutil_ReadFile eulaFilePath ;
  match r with
  | Err _ =>
      errco_LogMshErr (NewErr ERROR_CONFIG_CHECK LVL_B "loadRuntime"
                         ("could not read eula.txt file: " ++ eulaFilePath)) ;;
      errco_Logln LVL_D "starting minecraft server to generate eula.txt file..." ;;
      let cSplit := strings_Split (StartServer (Commands c)) " " in
      fmt_Print COLOR_CYAN ;;
      err ← exec_Run (hd EmptyString cSplit) (tl cSplit) (Folder (Server c)) ;
      fmt_Print COLOR_RESET ;;
      match err with
      | Some e =>
          modify (set_Stats_Error
                    (NewErr ERROR_MINECRAFT_SERVER LVL_D "loadRuntime"
                       ("couldn't start minecraft server to generate eula.txt" ++ LF
                        ++ "(are you using the correct java version?)"))) ;;
          errco_LogMshErr (NewErr ERROR_TERMINAL_START LVL_B "loadRuntime"
                             ("couldn't start minecraft server to generate eula.txt: ["
                              ++ e ++ "]"))
      | None => mret tt
      end ;;
      eulaNotAccepted eulaFilePath
  | Ok eulaData =>
      if negb (eulaAccepted eulaData)
      then eulaNotAccepted eulaFilePath
      else errco_Logln LVL_B "eula.txt exist and is set to true..."
  end.

(** lines 226-273 of [loadRuntime] *)
Definition checkServer : M unit :=
  c ← gets ConfigRuntime ;
  let serverFileFolderPath := filepath_Join w (Folder (Server c)) (FileName (Server c)) in
  emit (EvStat serverFileFolderPath) ;;
  if os_Stat_IsNotExist w serverFileFolderPath then
    modify (set_Stats_Error (NewErr ERROR_MINECRAFT_SERVER LVL_D "loadRuntime"
                               "specified minecraft server folder/file does not exist")) ;;
    errco_LogMshErr (NewErr ERROR_CONFIG_CHECK LVL_B "loadRuntime"
                       ("specified server file/folder does not exist: "
                        ++ serverFileFolderPath))
  else checkEula.

(** lines 275-286 of [loadRuntime] *)
Definition checkJava : M unit :=
  emit (EvLookPath "java") ;;
  if exec_LookPath w "java" then
    emit (EvOutput "java" ["--version"]) ;;
    match cmd_Output w "java" ["--version"] with
    | Err _ =>
        errco_LogMshErr (NewErr ERROR_CONFIG_CHECK LVL_B "loadRuntime"
                           "could not execute 'java -version' command") ;;
        modify (set_Javav "unknown")
    | Ok out =>
        modify (set_Javav
                  (strings_ReplaceAll (hd EmptyString (strings_Split out LF)) CR ""))
    end
  else
    modify (set_Stats_Error (NewErr ERROR_MINECRAFT_SERVER LVL_D "loadRuntime"
                               "java not installed")) ;;
    errco_LogMshErr (NewErr ERROR_CONFIG_CHECK LVL_B "loadRuntime" "java not installed").

(** lines 288-301 of [loadRuntime] *)
Definition setupProxyIcon : M unit :=
  c ← gets ConfigRuntime ;
  match loadIpPorts w c with
  | Some errMsh =>
      modify (set_Stats_Error (NewErr ERROR_MINECRAFT_SERVER LVL_D "loadRuntime"
                                 "proxy setup failed, check msh logs")) ;;
      errco_LogMshErr (AddTrace "loadRuntime" errMsh)
  | None => mret tt
  end ;;
  errco_Logln LVL_D "msh proxy setup: %s:%d --> %s:%d" ;;
  match loadIcon w c with
  | Some errMsh => errco_LogMshErr (AddTrace "loadRuntime" errMsh)
  | None => mret tt
  end.

(** [loadRuntime] (lines 167-304); receiver: the runtime configuration,
    [confdef]: the default configuration *)
Definition loadRuntime : M (option Error) :=
  (* initialize config to base, then the flags *)
  modify (fun g => set_ConfigRuntime (ConfigDefault g) g) ;;
  modify (fun g => set_ConfigRuntime (overlay (flag_Parse w) (ConfigRuntime g)) g) ;;
  (* replace placeholders *)
  modify (fun g => set_ConfigRuntime (replacePlaceholders (ConfigRuntime g)) g) ;;
  (* debug level *)
  errco_Logln LVL_A "setting log level to: %d" ;;
  modify (fun g => set_DebugLvl (Debug (Msh (ConfigRuntime g))) g) ;;
  reconcileMshID ;;
  checkServer ;;
  checkJava ;;
  setupProxyIcon ;;
  mret None.

(** [LoadConfig] (lines 47-84) *)
Definition LoadConfig : M Outcome :=
  errco_Logln LVL_D "checking OS support..." ;;
  match opsys_OsSupported w with
  | Some errMsh => mret (Returns (Some (AddTrace "LoadConfig" errMsh)))
  | None =>
      errco_Logln LVL_D "loading config..." ;;
      out ← loadDefault ;
      match out with
      | Panics => mret Panics
      | Returns (Some e) => mret (Returns (Some (AddTrace "LoadConfig" e)))
      | Returns None =>
          errMsh ← loadRuntime ;
          match errMsh with
          | Some e => mret (Returns (Some (AddTrace "LoadConfig" e)))
          | None =>
              save ← gets ConfigDefaultSave ;
              if save : bool then
                c ← gets ConfigDefault ;
                errMsh ← Save c ;
                match errMsh with
                | Some e => mret (Returns (Some (AddTrace "LoadConfig" e)))
                | None => mret (Returns None)
                end
              else mret (Returns None)
          end
      end
  end.

End Bootstrap.

(** ** Reading a run *)

(** the package variables a computation leaves *)
Definition exec {A : Type} (m : M A) (g : Globals) : Globals := snd (m g).

(** the events a computation added to the trace of [g] *)
Definition new_events (g g' : Globals) : list Event :=
  drop (List.length (trace g)) (trace g').

Definition is_Run (e : Event) : bool :=
  match e with EvRun _ _ _ => true | _ => false end.

Definition is_ReadFile (e : Event) : bool :=
  match e with EvReadFile _ => true | _ => false end.

Definition is_WriteFile (e : Event) : bool :=
  match e with EvWriteFile _ _ => true | _ => false end.

Definition is_JavaCheck (e : Event) : bool :=
  match e with EvLookPath _ | EvOutput _ _ => true | _ => false end.

(** the values [loadRuntime] stores in [servstats.Stats.Error] *)
Definition status_server_missing : Error :=
  NewErr ERROR_MINECRAFT_SERVER LVL_D "loadRuntime"
    "specified minecraft server folder/file does not exist".

Definition status_eula_not_accepted : Error :=
  NewErr ERROR_MINECRAFT_SERVER LVL_D "loadRuntime"
    "please accept minecraft server eula.txt".

Definition status_start_failed : Error :=
  NewErr ERROR_MINECRAFT_SERVER LVL_D "loadRuntime"
    ("couldn't start minecraft server to generate eula.txt" ++ LF
     ++ "(are you using the correct java version?)").

Definition status_java_missing : Error :=
  NewErr ERROR_MINECRAFT_SERVER LVL_D "loadRuntime" "java not installed".

Definition status_proxy_failed : Error :=
  NewErr ERROR_MINECRAFT_SERVER LVL_D "loadRuntime"
    "proxy setup failed, check msh logs".

(** the log entries of the identity steps and of the two eula cases *)
Definition warn_machine_id : Event :=
  EvLogMshErr (NewErr ERROR_CONFIG_CHECK LVL_D "loadDefault"
                 "error while generating machine id, assigning mshid").

Definition log_eula_unreadable (eulaFilePath : string) : Event :=
  EvLogMshErr (NewErr ERROR_CONFIG_CHECK LVL_B "loadRuntime"
                 ("could not read eula.txt file: " ++ eulaFilePath)).

Definition log_eula_not_accepted (eulaFilePath : string) : Event :=
  EvLogMshErr (NewErr ERROR_CONFIG_CHECK LVL_B "loadRuntime"
                 ("please accept minecraft server eula.txt: " ++ eulaFilePath)).

Definition log_start_failed (e : string) : Event :=
  EvLogMshErr (NewErr ERROR_TERMINAL_START LVL_B "loadRuntime"
                 ("couldn't start minecraft server to generate eula.txt: ["
                  ++ e ++ "]")).

Definition log_server_missing (path : string) : Event :=
  EvLogMshErr (NewErr ERROR_CONFIG_CHECK LVL_B "loadRuntime"
                 ("specified server file/folder does not exist: " ++ path)).

(** the runtime configuration [loadRuntime] builds from the default one
    (lines 169-202) *)
Definition runtimeOf (w : World) (confdef : Configuration) : Configuration :=
  replacePlaceholders (overlay (flag_Parse w) confdef).

(** the package variables when [loadRuntime] reaches line 210 *)
Definition afterOverlay (w : World) (g : Globals) : Globals :=
  set_DebugLvl (Debug (Msh (runtimeOf w (ConfigDefault g))))
    (add_event (EvLogln LVL_A "setting log level to: %d")
       (set_ConfigRuntime (runtimeOf w (ConfigDefault g)) g)).

(** the path of eula.txt and the start command, for the runtime
    configuration of [g] *)
Definition eulaPathOf (w : World) (g : Globals) : string :=
  filepath_Join w (Folder (Server (ConfigRuntime g))) "eula.txt".

Definition serverPathOf (w : World) (c : Configuration) : string :=
  filepath_Join w (Folder (Server c)) (FileName (Server c)).

Definition startCommandOf (g : Globals) : Event :=
  let cSplit := strings_Split (StartServer (Commands (ConfigRuntime g))) " " in
  EvRun (hd EmptyString cSplit) (tl cSplit) (Folder (Server (ConfigRuntime g))).

(** the events from [g] to [g'] hold no write to a file *)
Definition adds_no_write (g g' : Globals) : Prop :=
  exists evs, trace g' = trace g ++ evs /\ filter is_WriteFile evs = [].

(** ** Shape of an identity *)

Definition is_lower_hex (a : ascii) : bool :=
  let n := nat_of_ascii a in
  ((48 <=? n)%nat && (n <=? 57)%nat) || ((97 <=? n)%nat && (n <=? 102)%nat).

(** empty, or 40 lower-case hexadecimal digits *)
Definition mshid_wellformed (id : string) : bool :=
  String.eqb id ""
  || (Nat.eqb (String.length id) 40
      && forallb is_lower_hex (list_ascii_of_string id)).

(** empty, or 40 bytes long: what the health test of line 217 looks at *)
Definition mshid_length_ok (id : string) : bool :=
  String.eqb id "" || Nat.eqb (String.length id) 40.

(** ** When the dirty flag is raised *)

(** line 143: both sources are available and the derived identity is not
    the stored one *)
Definition derives_new_id (w : World) (c : Configuration) : bool :=
  match machineid_ProtectedID w "msh", os_Executable_mshid w with
  | Ok id, Ok ex => negb (String.eqb (ID (Msh c)) (sha1_hex (id ++ filepath_Dir w ex)))
  | _, _ => false
  end.

(** line 156: the probe answers and its answer is not the stored one *)
Definition probe_changes (w : World) (c : Configuration) : bool :=
  match getVersionInfo w c with
  | inr (version, protocol) =>
      negb (String.eqb (Version (Server c)) version)
      || negb (Z.eqb (Protocol (Server c)) protocol)
  | inl _ => false
  end.

(** lines 216-217: the runtime identity differs and is 40 bytes long *)
Definition promotes (w : World) (confdef : Configuration) : bool :=
  negb (String.eqb (ID (Msh confdef)) (ID (Msh (runtimeOf w confdef))))
  && Nat.eqb (String.length (ID (Msh (runtimeOf w confdef)))) 40.

(** the default configuration after lines 134-148 and after lines 152-160 *)
Definition withDerivedID (w : World) (c : Configuration) : Configuration :=
  match machineid_ProtectedID w "msh", os_Executable_mshid w with
  | Ok id, Ok ex => set_MshID (sha1_hex (id ++ filepath_Dir w ex)) c
  | _, _ => c
  end.

Definition withProbed (w : World) (c : Configuration) : Configuration :=
  match getVersionInfo w c with
  | inr (version, protocol) => set_VersionProtocol version protocol c
  | inl _ => c
  end.

(** ** Pieces of a template *)

(** a string without its last byte *)
Fixpoint str_init (s : string) : string :=
  match s with
  | EmptyString => EmptyString
  | String a EmptyString => EmptyString
  | String a s' => String a (str_init s')
  end.

(** [old] does not occur in [p ++ old] before the end: the first occurrence
    of [old] in [p ++ old ++ rest] is the one written *)
Definition clean_piece (old p : string) : bool :=
  negb (strings_Contains (p ++ str_init old) old).

(** [ps] are the pieces of a template between its occurrences of [old]:
    each occurrence written between two pieces is the next one a scan from
    the left finds, and there is none in the last piece *)
Fixpoint pieces_ok (old : string) (ps : list string) : bool :=
  match ps with
  | [] => true
  | [p] => negb (strings_Contains p old)
  | p :: rest => clean_piece old p && pieces_ok old rest
  end.

(** ** The statements of the specification that the code does not meet *)

(** C1 as stated: with eula.txt unreadable at first, the status recorded by
    the acceptance-gate check follows the contents of the file after the
    start command ran *)
Definition eula_decided_after_bootstrap (w : World) (g : Globals) : Prop :=
  let g' := exec (checkEula w) g in
  files g !! os_resolve w (eulaPathOf w g) = None ->
  match files g' !! os_resolve w (eulaPathOf w g) with
  | Some data =>
      if eulaAccepted data
      then servstats_Stats_Error g' <> Some status_eula_not_accepted
      else servstats_Stats_Error g' = Some status_eula_not_accepted
  | None => servstats_Stats_Error g' = Some status_eula_not_accepted
  end.

(** C2 as stated: with the server path missing, [loadRuntime] reports it,
    returns [nil], and neither reads eula.txt, nor starts the server, nor
    looks for java *)
Definition server_missing_skips_gate_and_java (w : World) (g : Globals) : Prop :=
  os_Stat_IsNotExist w (serverPathOf w (runtimeOf w (ConfigDefault g))) = true ->
  let g' := exec (loadRuntime w) g in
  fst (loadRuntime w g) = None
  /\ In (log_server_missing (serverPathOf w (runtimeOf w (ConfigDefault g))))
        (new_events g g')
  /\ filter is_ReadFile (new_events g g') = []
  /\ filter is_Run (new_events g g') = []
  /\ filter is_JavaCheck (new_events g g') = [].



(** C8 as stated: the text of a readable eula.txt is matched without its
    white space (space, tab, line feed, vertical tab, form feed, carriage
    return), so that it is accepted whenever its lower-cased text without
    white space holds eula=true *)
Definition is_space (a : ascii) : bool :=
  let n := nat_of_ascii a in
  (n =? 32)%nat || ((9 <=? n)%nat && (n <=? 13)%nat).

Fixpoint strip_whitespace (s : string) : string :=
  match s with
  | EmptyString => EmptyString
  | String a s' =>
      if is_space a then strip_whitespace s' else String a (strip_whitespace s')
  end.

Definition eula_matched_whitespace_stripped (w : World) (g : Globals) : Prop :=
  forall data,
    files g !! os_resolve w (eulaPathOf w g) = Some data ->
    strings_Contains (strip_whitespace (strings_ToLower data)) "eula=true" = true ->
    servstats_Stats_Error (exec (checkEula w) g) <> Some status_eula_not_accepted.

(** C6 as stated: the identity promotion keeps the default identity empty
    or 40 lower-case hexadecimal digits *)
Definition promotion_keeps_wellformed (g : Globals) : Prop :=
  mshid_wellformed (ID (Msh (ConfigDefault g))) = true ->
  mshid_wellformed (ID (Msh (ConfigDefault (exec reconcileMshID g)))) = true.

(** ** Sample worlds

    Concrete inputs on which the definitions above are run. *)

(** [filepath.Join] and [filepath.Dir] as they act on clean slash-separated
    paths *)
Definition sample_Join (a b : string) : string :=
  match a with
  | EmptyString => b
  | _ => (a ++ "/" ++ b)%string
  end.

Fixpoint sample_Dir (p : string) : string :=
  match p with
  | EmptyString => EmptyString
  | String a p' =>
      if strings_Contains p' "/" then String a (sample_Dir p') else EmptyString
  end.

Definition sample_config : Configuration :=
  {| Server := {| Folder := "/srv/mc"; FileName := "server.jar";
                  Version := "1.16.4"; Protocol := 754 |};
     Commands := {| StartServer :=
                      "java <Commands.StartServerParam> -jar <Server.FileName> nogui";
                    StartServerParam := "-Xmx1024M -Xms1024M";
                    StopServerAllowKill := 10 |};
     Msh := {| ID := ""; Debug := 1; AllowSuspend := false;
               InfoHibernation := "server status: hibernating";
               InfoStarting := "server status: warming up";
               NotifyUpdate := true; NotifyMessage := true;
               ListenPort := 25555; TimeBeforeStoppingEmptyServer := 30 |} |}.

Definition Configuration_eqb (a b : Configuration) : bool :=
  String.eqb (Folder (Server a)) (Folder (Server b))
  && String.eqb (FileName (Server a)) (FileName (Server b))
  && String.eqb (Version (Server a)) (Version (Server b))
  && Z.eqb (Protocol (Server a)) (Protocol (Server b))
  && String.eqb (StartServer (Commands a)) (StartServer (Commands b))
  && String.eqb (StartServerParam (Commands a)) (StartServerParam (Commands b))
  && Z.eqb (StopServerAllowKill (Commands a)) (StopServerAllowKill (Commands b))
  && String.eqb (ID (Msh a)) (ID (Msh b))
  && Z.eqb (Debug (Msh a)) (Debug (Msh b))
  && Bool.eqb (AllowSuspend (Msh a)) (AllowSuspend (Msh b))
  && String.eqb (InfoHibernation (Msh a)) (InfoHibernation (Msh b))
  && String.eqb (InfoStarting (Msh a)) (InfoStarting (Msh b))
  && Bool.eqb (NotifyUpdate (Msh a)) (NotifyUpdate (Msh b))
  && Bool.eqb (NotifyMessage (Msh a)) (NotifyMessage (Msh b))
  && Z.eqb (ListenPort (Msh a)) (ListenPort (Msh b))
  && Z.eqb (TimeBeforeStoppingEmptyServer (Msh a)) (TimeBeforeStoppingEmptyServer (Msh b)).

Definition no_flags : Flags :=
  {| flag_folder := None; flag_file := None; flag_version := None;
     flag_protocol := None; flag_msparam := None; flag_allowkill := None;
     flag_id := None; flag_d := None; flag_allowsuspend := None;
     flag_infohibe := None; flag_infostar := None; flag_notifyupd := None;
     flag_notifymes := None; flag_port := None; flag_timeout := None |}.

Definition flags_id (id : string) : Flags :=
  {| flag_folder := None; flag_file := None; flag_version := None;
     flag_protocol := None; flag_msparam := None; flag_allowkill := None;
     flag_id := Some id; flag_d := None; flag_allowsuspend := None;
     flag_infohibe := None; flag_infostar := None; flag_notifyupd := None;
     flag_notifymes := None; flag_port := None; flag_timeout := None |}.

(** the sample encoding: it knows [sample_config] with any identity, and
    writes the identity in the document; the decoder also knows the
    literal null *)
Definition sample_document (id : string) : string :=
  ("{ sample_config " ++ id ++ " }")%string.

Definition sample_json : string := sample_document "".

Definition sample_Marshal (c : Configuration) : Result string :=
  if Configuration_eqb (set_MshID "" c) sample_config
  then Ok (sample_document (ID (Msh c)))
  else Err "json: unsupported value".

Definition sample_Unmarshal (data : string) (c : Configuration)
  : Receiver * option string :=
  if String.eqb data "null" then (Nil, None)
  else if strings_HasPrefix data "{ sample_config "
  then (Decoded
          (set_MshID
             (str_init (str_init (substring 16 (String.length data - 16) data)))
             sample_config), None)
  else (Decoded c, Some "invalid character looking for beginning of value").

(** a relative path is resolved in the working directory [cwd] *)
Definition resolve_in (cwd p : string) : string :=
  if strings_HasPrefix p "/" then p else (cwd ++ p)%string.

(** a machine on which java is installed and the proxy and icon set up,
    with the executable /opt/msh/msh started in the directory [cwd];
    [f] is the command line, [mid] the answer of the machine id library,
    [server_missing] whether the server file is absent, [run] what the
    start command does to the disk *)
Definition sample_world_in (cwd : string) (f : Flags) (mid : Result string)
    (server_missing : bool)
    (run : gmap string string -> gmap string string * option string) : World :=
  {| filepath_Dir := sample_Dir;
     filepath_Join := sample_Join;
     os_resolve := resolve_in cwd;
     json_MarshalIndent := fun c _ _ => sample_Marshal c;
     json_Unmarshal := sample_Unmarshal;
     opsys_OsSupported := None;
     os_Executable_config := Ok "/opt/msh/msh";
     os_Executable_mshid := Ok "/opt/msh/msh";
     machineid_ProtectedID := fun _ => mid;
     flag_Parse := f;
     os_Stat_IsNotExist := fun _ => server_missing;
     ioutil_ReadFile_err := fun p => ("open " ++ p ++ ": no such file or directory")%string;
     ioutil_WriteFile_err := fun _ => None;
     cmd_Run := fun _ _ _ fs => run fs;
     exec_LookPath := fun _ => true;
     cmd_Output := fun _ _ => Ok ("openjdk 16.0.1 2021-04-20" ++ CR ++ LF ++ "OpenJDK Runtime")%string;
     getVersionInfo := fun c => inr (Version (Server c), Protocol (Server c));
     loadIpPorts := fun _ => None;
     loadIcon := fun _ => None;
     nil_assignMshID := false;
     nil_getVersionInfo := None |}.

(** the same machine with msh started in its own directory *)
Definition sample_world (f : Flags) (mid : Result string) (server_missing : bool)
    (run : gmap string string -> gmap string string * option string) : World :=
  sample_world_in "/opt/msh/" f mid server_missing run.

Definition disk_config : gmap string string :=
  {[ "/opt/msh/msh-config.json" := sample_json ]}.

Definition disk_eula (text : string) : gmap string string :=
  {[ "/srv/mc/eula.txt" := text ]}.

(** the start command of a server that accepts its own licence: it writes
    eula.txt with the word set *)
Definition run_writes_eula (text : string) (fs : gmap string string)
  : gmap string string * option string :=
  (<["/srv/mc/eula.txt" := text]> fs, None).

Definition run_fails (fs : gmap string string)
  : gmap string string * option string :=
  (fs, Some "exec: java: executable file not found in $PATH").

(** the package variables once both configurations hold [def] and [run] *)
Definition sample_globals (def run : Configuration) (disk : gmap string string)
  : Globals :=
  {| ConfigDefault := def;
     ConfigRuntime := run;
     ConfigDefaultSave := false;
     Javav := "";
     errco_DebugLvl := 0;
     servstats_Stats_Error := None;
     files := disk;
     trace := [] |}.

Definition forty_Z : string := "ZZZZZZZZZZZZZZZZZZZZZZZZZZZZZZZZZZZZZZZZ".

Definition sample_id : string := "75999bcc73aaa0f644e2783032497b039d3e1391".

Definition plain_world : World :=
  sample_world no_flags (Ok "3b1f5a") false (run_writes_eula "eula=false").

(** worlds and package variables of the examples *)
Definition accepting_world : World :=
  sample_world no_flags (Ok "3b1f5a") false (run_writes_eula "eula=true").

Definition missing_world : World :=
  sample_world no_flags (Ok "3b1f5a") true run_fails.

Definition custom_id_world : World :=
  sample_world (flags_id "my-server") (Ok "3b1f5a") false (run_writes_eula "eula=false").

Definition no_machineid_world : World :=
  sample_world no_flags (Err "machineid: no machine-id found") false
    (run_writes_eula "eula=false").


(** the same machine with a disk that fills up: the config file is opened,
    which empties it, and the write stops after ten bytes *)
Definition disk_full_world : World :=
  {| filepath_Dir := filepath_Dir plain_world;
     filepath_Join := filepath_Join plain_world;
     os_resolve := os_resolve plain_world;
     json_MarshalIndent := json_MarshalIndent plain_world;
     json_Unmarshal := json_Unmarshal plain_world;
     opsys_OsSupported := opsys_OsSupported plain_world;
     os_Executable_config := os_Executable_config plain_world;
     os_Executable_mshid := os_Executable_mshid plain_world;
     machineid_ProtectedID := machineid_ProtectedID plain_world;
     flag_Parse := flag_Parse plain_world;
     os_Stat_IsNotExist := os_Stat_IsNotExist plain_world;
     ioutil_ReadFile_err := ioutil_ReadFile_err plain_world;
     ioutil_WriteFile_err :=
       fun p => Some (("write " ++ p ++ ": no space left on device")%string, Some 10%nat);
     cmd_Run := cmd_Run plain_world;
     exec_LookPath := exec_LookPath plain_world;
     cmd_Output := cmd_Output plain_world;
     getVersionInfo := getVersionInfo plain_world;
     loadIpPorts := loadIpPorts plain_world;
     loadIcon := loadIcon plain_world;
     nil_assignMshID := nil_assignMshID plain_world;
     nil_getVersionInfo := nil_getVersionInfo plain_world |}.

(** a config file that holds the JSON literal null *)
Definition disk_null : gmap string string :=
  {[ "/opt/msh/msh-config.json" := "null" ]}.

(** an eula.txt written with tabs around the equals sign *)
Definition TAB : string := String "009"%char EmptyString.

Definition eula_with_tabs : string := ("eula" ++ TAB ++ "=" ++ TAB ++ "true")%string.

(** both configurations loaded, placeholders replaced *)
Definition ready_globals (disk : gmap string string) : Globals :=
  sample_globals sample_config (replacePlaceholders sample_config) disk.

(** a start command that names each placeholder twice *)
Definition twice_config : Configuration :=
  set_StartServer
    "java <Commands.StartServerParam> -jar <Server.FileName> nogui --log <Server.FileName>.log <Commands.StartServerParam>"
    sample_config.

(** ** Reading a run of [loadRuntime] *)

(** the events from [g] to [g'] that satisfy [P] are [l] *)
Definition adds_filtered (P : Event -> bool) (l : list Event) (g g' : Globals)
  : Prop :=
  exists evs, trace g' = trace g ++ evs /\ filter P evs = l.

(** the condition under which lines 246-259 run: the server file exists
    and eula.txt cannot be read *)
Definition launches (w : World) (g : Globals) : bool :=
  negb (os_Stat_IsNotExist w (serverPathOf w (runtimeOf w (ConfigDefault g))))
  && match files g !! os_resolve w (eulaPathOf w (afterOverlay w g)) with
     | Some _ => false
     | None => true
     end.

(** what the start command of [loadRuntime] answers on the disk of [g] *)
Definition launchOf (w : World) (g : Globals)
  : gmap string string * option string :=
  let c := runtimeOf w (ConfigDefault g) in
  let cSplit := strings_Split (StartServer (Commands c)) " " in
  cmd_Run w (hd EmptyString cSplit) (tl cSplit) (Folder (Server c)) (files g).

(** a config file that holds the identity of the sample machine, and a
    command line that forces another identity of 40 bytes *)
Definition stable_disk : gmap string string :=
  {[ "/opt/msh/msh-config.json" := sample_document sample_id ]}.

Definition forced_id_world : World :=
  sample_world (flags_id forty_Z) (Ok "3b1f5a") false (run_writes_eula "eula=false").

(** * Properties *)

(** ** Running the monad *)

Lemma exec_bind {A B : Type} (m : M A) (k : A -> M B) (g : Globals) :
  exec (m ≫= k) g = exec (k (fst (m g))) (exec m g).
Proof. unfold exec, mbind, M_bind. destruct (m g); reflexivity. Qed.

Lemma fst_bind {A B : Type} (m : M A) (k : A -> M B) (g : Globals) :
  fst ((m ≫= k) g) = fst (k (fst (m g)) (exec m g)).
Proof. unfold exec, mbind, M_bind. destruct (m g); reflexivity. Qed.

Lemma exec_mret {A : Type} (a : A) (g : Globals) : exec (mret a) g = g.
Proof. reflexivity. Qed.

Lemma exec_modify (f : Globals -> Globals) (g : Globals) : exec (modify f) g = f g.
Proof. reflexivity. Qed.

Lemma exec_Logln (lvl : LogLvl) (s : string) (g : Globals) :
  exec (errco_Logln lvl s) g = add_event (EvLogln lvl s) g.
Proof. reflexivity. Qed.

Ltac mrun :=
  cbv [exec mbind M_bind mret M_ret gets modify emit
       errco_Logln errco_LogMshErr fmt_Print assignMshID];
  cbn [fst snd].

Lemma new_events_app (g g' : Globals) (evs : list Event) :
  trace g' = trace g ++ evs -> new_events g g' = evs.
Proof. intros H. unfold new_events. rewrite H. apply drop_app_length. Qed.

(** ** The identity steps *)

Lemma loadMshID_exec (w : World) (g : Globals) :
  exec (loadMshID w) g =
  match machineid_ProtectedID w "msh", os_Executable_mshid w with
  | Ok id, Ok ex =>
      if derives_new_id w (ConfigDefault g)
      then set_ConfigDefaultSave true
             (set_ConfigDefault (withDerivedID w (ConfigDefault g))
                (add_event (EvLogMshErr (NewErr ERROR_CONFIG_CHECK LVL_D "loadDefault"
                                           "mshid was generated from machine id")) g))
      else g
  | _, _ => add_event warn_machine_id g
  end.
Proof.
  unfold loadMshID, derives_new_id, withDerivedID.
  destruct (machineid_ProtectedID w "msh") as [id|e]; [|reflexivity].
  destruct (os_Executable_mshid w) as [ex|e]; [|reflexivity].
  mrun.
  destruct (negb _); reflexivity.
Qed.

Lemma loadVersionProtocol_exec (w : World) (g : Globals) :
  exec (loadVersionProtocol w) g =
  match getVersionInfo w (ConfigDefault g) with
  | inl errMsh => add_event (EvLogMshErr (AddTrace "loadDefault" errMsh)) g
  | inr _ =>
      if probe_changes w (ConfigDefault g)
      then set_ConfigDefaultSave true
             (set_ConfigDefault (withProbed w (ConfigDefault g)) g)
      else g
  end.
Proof.
  unfold loadVersionProtocol, probe_changes, withProbed. mrun.
  destruct (getVersionInfo w (ConfigDefault g)) as [e|[v p]]; [reflexivity|].
  destruct (_ || _); reflexivity.
Qed.

Lemma reconcileMshID_exec (g : Globals) :
  exec reconcileMshID g =
  if negb (String.eqb (ID (Msh (ConfigDefault g))) (ID (Msh (ConfigRuntime g)))) then
    if Nat.eqb (String.length (ID (Msh (ConfigRuntime g)))) 40 then
      set_ConfigDefaultSave true
        (set_ConfigDefault (set_MshID (ID (Msh (ConfigRuntime g))) (ConfigDefault g))
           (add_event (EvLogMshErr (NewErr ERROR_CONFIG_CHECK LVL_D "loadRuntime"
                                      "setting user specified mshid in default config")) g))
    else
      add_event (EvLogMshErr (NewErr ERROR_CONFIG_CHECK LVL_D "loadRuntime"
                                "user specified mshid is not healthy, using default mshid")) g
  else g.
Proof.
  unfold reconcileMshID. mrun.
  destruct (negb _); [|reflexivity].
  destruct (Nat.eqb _ _); reflexivity.
Qed.

(** ** The checks of [loadRuntime] *)

Ltac fields :=
  cbn [trace files servstats_Stats_Error ConfigDefault ConfigRuntime
       ConfigDefaultSave Javav errco_DebugLvl
       add_event set_files set_Stats_Error set_Javav set_DebugLvl
       set_ConfigDefault set_ConfigRuntime set_ConfigDefaultSave fst snd negb].

Ltac trace_norm := fields; rewrite <- ?app_assoc; cbn [app].

(** what the switch on eula.txt leaves when the file cannot be read *)
Lemma checkEula_unreadable (w : World) (g : Globals) :
  files g !! os_resolve w (eulaPathOf w g) = None ->
  let cSplit := strings_Split (StartServer (Commands (ConfigRuntime g))) " " in
  let r := cmd_Run w (hd EmptyString cSplit) (tl cSplit)
             (Folder (Server (ConfigRuntime g))) (files g) in
  let g' := exec (checkEula w) g in
  trace g' = trace g
             ++ [EvReadFile (eulaPathOf w g);
                 log_eula_unreadable (eulaPathOf w g);
                 EvLogln LVL_D "starting minecraft server to generate eula.txt file...";
                 EvPrint COLOR_CYAN;
                 startCommandOf g;
                 EvPrint COLOR_RESET]
             ++ match snd r with
                | Some e => [log_start_failed e]
                | None => []
                end
             ++ [log_eula_not_accepted (eulaPathOf w g)]
  /\ servstats_Stats_Error g' = Some status_eula_not_accepted
  /\ files g' = fst r
  /\ ConfigDefault g' = ConfigDefault g
  /\ ConfigRuntime g' = ConfigRuntime g
  /\ ConfigDefaultSave g' = ConfigDefaultSave g
  /\ Javav g' = Javav g.
Proof.
  unfold eulaPathOf, startCommandOf. intros H.
  unfold checkEula, ioutil_ReadFile, exec_Run, eulaNotAccepted. mrun. fields.
  rewrite H. fields.
  destruct (cmd_Run w _ _ _ (files g)) as [fs' [e|]]; trace_norm;
    repeat split; reflexivity.
Qed.

(** what it leaves when the file can be read *)
Lemma checkEula_readable (w : World) (g : Globals) (data : string) :
  files g !! os_resolve w (eulaPathOf w g) = Some data ->
  let g' := exec (checkEula w) g in
  trace g' = trace g
             ++ [EvReadFile (eulaPathOf w g);
                 if eulaAccepted data
                 then EvLogln LVL_B "eula.txt exist and is set to true..."
                 else log_eula_not_accepted (eulaPathOf w g)]
  /\ servstats_Stats_Error g' =
       (if eulaAccepted data then servstats_Stats_Error g
        else Some status_eula_not_accepted)
  /\ files g' = files g
  /\ ConfigDefault g' = ConfigDefault g
  /\ ConfigRuntime g' = ConfigRuntime g
  /\ ConfigDefaultSave g' = ConfigDefaultSave g
  /\ Javav g' = Javav g.
Proof.
  unfold eulaPathOf. intros H.
  unfold checkEula, ioutil_ReadFile, eulaNotAccepted. mrun. fields.
  rewrite H. fields.
  destruct (eulaAccepted data); trace_norm; repeat split; reflexivity.
Qed.

Lemma checkEula_frame (w : World) (g : Globals) :
  let g' := exec (checkEula w) g in
  ConfigDefault g' = ConfigDefault g
  /\ ConfigRuntime g' = ConfigRuntime g
  /\ ConfigDefaultSave g' = ConfigDefaultSave g.
Proof.
  cbv zeta.
  destruct (files g !! os_resolve w (eulaPathOf w g)) as [data|] eqn:H.
  - destruct (checkEula_readable w g data H) as (_ & _ & _ & ? & ? & ? & _). auto.
  - destruct (checkEula_unreadable w g H) as (_ & _ & _ & ? & ? & ? & _). auto.
Qed.

Lemma checkServer_exec (w : World) (g : Globals) :
  exec (checkServer w) g =
  let path := serverPathOf w (ConfigRuntime g) in
  if os_Stat_IsNotExist w path
  then add_event (log_server_missing path)
         (set_Stats_Error status_server_missing (add_event (EvStat path) g))
  else exec (checkEula w) (add_event (EvStat path) g).
Proof.
  unfold checkServer, serverPathOf. mrun. fields.
  destruct (os_Stat_IsNotExist w _); reflexivity.
Qed.

Lemma checkServer_frame (w : World) (g : Globals) :
  let g' := exec (checkServer w) g in
  ConfigDefault g' = ConfigDefault g
  /\ ConfigRuntime g' = ConfigRuntime g
  /\ ConfigDefaultSave g' = ConfigDefaultSave g.
Proof.
  cbv zeta. rewrite checkServer_exec. cbv zeta.
  destruct (os_Stat_IsNotExist w _).
  - repeat split; reflexivity.
  - apply (checkEula_frame w (add_event _ g)).
Qed.

Lemma checkJava_exec (w : World) (g : Globals) :
  exec (checkJava w) g =
  if exec_LookPath w "java" then
    match cmd_Output w "java" ["--version"] with
    | Err _ =>
        set_Javav "unknown"
          (add_event (EvLogMshErr (NewErr ERROR_CONFIG_CHECK LVL_B "loadRuntime"
                                     "could not execute 'java -version' command"))
             (add_event (EvOutput "java" ["--version"])
                (add_event (EvLookPath "java") g)))
    | Ok out =>
        set_Javav (strings_ReplaceAll (hd EmptyString (strings_Split out LF)) CR "")
          (add_event (EvOutput "java" ["--version"])
             (add_event (EvLookPath "java") g))
    end
  else
    add_event (EvLogMshErr (NewErr ERROR_CONFIG_CHECK LVL_B "loadRuntime"
                              "java not installed"))
      (set_Stats_Error status_java_missing (add_event (EvLookPath "java") g)).
Proof.
  unfold checkJava. mrun.
  destruct (exec_LookPath w "java"); [|reflexivity].
  destruct (cmd_Output w "java" ["--version"]); reflexivity.
Qed.

Lemma setupProxyIcon_exec (w : World) (g : Globals) :
  exec (setupProxyIcon w) g =
  let g1 := match loadIpPorts w (ConfigRuntime g) with
            | Some errMsh =>
                add_event (EvLogMshErr (AddTrace "loadRuntime" errMsh))
                  (set_Stats_Error status_proxy_failed g)
            | None => g
            end in
  let g2 := add_event (EvLogln LVL_D "msh proxy setup: %s:%d --> %s:%d") g1 in
  match loadIcon w (ConfigRuntime g) with
  | Some errMsh => add_event (EvLogMshErr (AddTrace "loadRuntime" errMsh)) g2
  | None => g2
  end.
Proof.
  unfold setupProxyIcon. mrun.
  destruct (loadIpPorts w _); destruct (loadIcon w _); reflexivity.
Qed.

(** [loadRuntime] is the overlay followed by the five steps, and returns
    [nil] *)
Lemma loadRuntime_exec (w : World) (g : Globals) :
  exec (loadRuntime w) g =
  exec (setupProxyIcon w)
    (exec (checkJava w) (exec (checkServer w) (exec reconcileMshID (afterOverlay w g)))).
Proof.
  unfold loadRuntime.
  repeat (rewrite exec_bind; cbn beta).
  rewrite exec_mret, !exec_modify, exec_Logln.
  unfold afterOverlay, runtimeOf. reflexivity.
Qed.

Lemma loadRuntime_returns_nil (w : World) (g : Globals) :
  fst (loadRuntime w g) = None.
Proof.
  unfold loadRuntime. rewrite !fst_bind. reflexivity.
Qed.

(** ** Strings *)

Lemma string_app_cons (a : ascii) (s t : string) :
  (String a s ++ t)%string = String a (s ++ t).
Proof. reflexivity. Qed.

Lemma string_app_nil (t : string) : (EmptyString ++ t)%string = t.
Proof. reflexivity. Qed.

Lemma HasPrefix_nil (s : string) : strings_HasPrefix s EmptyString = true.
Proof. destruct s; reflexivity. Qed.

Lemma HasPrefix_app (old rest : string) : strings_HasPrefix (old ++ rest) old = true.
Proof.
  induction old as [|a old IH]; [destruct rest; reflexivity|].
  rewrite string_app_cons. cbn [strings_HasPrefix].
  rewrite Ascii.eqb_refl. exact IH.
Qed.

Lemma HasPrefix_app_long (p s t : string) :
  (String.length p <= String.length s)%nat ->
  strings_HasPrefix (s ++ t) p = strings_HasPrefix s p.
Proof.
  revert s. induction p as [|a p IH]; intros s Hlen.
  - rewrite !HasPrefix_nil. reflexivity.
  - destruct s as [|b s]; cbn in Hlen; [lia|].
    rewrite string_app_cons. cbn [strings_HasPrefix].
    destruct (Ascii.eqb b a); [|reflexivity].
    apply IH. lia.
Qed.

Lemma str_init_last (s : string) :
  s <> EmptyString ->
  exists l, s = (str_init s ++ String l EmptyString)%string
            /\ String.length s = S (String.length (str_init s)).
Proof.
  induction s as [|a s IH]; intros Hne; [congruence|].
  destruct s as [|b s'].
  - exists a. split; reflexivity.
  - destruct IH as (l & E & L); [congruence|].
    exists l. cbn [str_init]. split.
    + rewrite string_app_cons. f_equal. exact E.
    + cbn [String.length]. f_equal. exact L.
Qed.

Lemma string_app_assoc (a b c : string) : ((a ++ b) ++ c = a ++ b ++ c)%string.
Proof.
  induction a as [|x a IH]; [reflexivity|].
  rewrite !string_app_cons. f_equal. exact IH.
Qed.

Lemma string_app_length (a b : string) :
  String.length (a ++ b) = (String.length a + String.length b)%nat.
Proof.
  induction a as [|x a IH]; [reflexivity|].
  rewrite string_app_cons. cbn [String.length]. rewrite IH. reflexivity.
Qed.

(** the bytes of a match are dropped, whatever follows *)
Lemma replaceFrom_skip (old new u rest : string) :
  replaceFrom (String.length u) old new (u ++ rest) = replaceFrom 0 old new rest.
Proof.
  induction u as [|a u IH].
  - rewrite string_app_nil. reflexivity.
  - rewrite string_app_cons. cbn [String.length replaceFrom]. exact IH.
Qed.

Lemma replaceFrom_hit (old new rest : string) :
  old <> EmptyString ->
  replaceFrom 0 old new (old ++ rest) = (new ++ replaceFrom 0 old new rest)%string.
Proof.
  intros Hne. destruct old as [|a o]; [congruence|].
  change (String a o ++ rest)%string with (String a (o ++ rest)).
  cbn [replaceFrom].
  change (String a (o ++ rest)) with (String a o ++ rest)%string.
  rewrite HasPrefix_app.
  replace (String.length (String a o) - 1) with (String.length o)
    by (cbn [String.length]; lia).
  f_equal. apply replaceFrom_skip.
Qed.

Lemma replaceFrom_absent (old new p : string) :
  strings_Contains p old = false -> replaceFrom 0 old new p = p.
Proof.
  induction p as [|a p IH]; intros H; [reflexivity|].
  cbn [strings_Contains] in H. apply orb_false_iff in H as [H1 H2].
  cbn [replaceFrom]. rewrite H1. f_equal. apply IH. exact H2.
Qed.

(** a piece in front of an occurrence is copied and the occurrence
    replaced *)
Lemma replaceFrom_piece (old new p rest : string) :
  old <> EmptyString ->
  clean_piece old p = true ->
  replaceFrom 0 old new (p ++ old ++ rest)
  = (p ++ new ++ replaceFrom 0 old new rest)%string.
Proof.
  intros Hne. unfold clean_piece. rewrite negb_true_iff.
  destruct (str_init_last old Hne) as (l & Eold & Llen).
  induction p as [|a p IH]; intros H.
  - rewrite !string_app_nil. apply replaceFrom_hit, Hne.
  - change (String a p ++ str_init old)%string with (String a (p ++ str_init old)) in H.
    cbn [strings_Contains] in H. apply orb_false_iff in H as [H1 H2].
    change (String a p ++ old ++ rest)%string with (String a (p ++ old ++ rest)).
    cbn [replaceFrom].
    assert (Hp : strings_HasPrefix (String a (p ++ old ++ rest)) old = false).
    { rewrite <- H1.
      change (String a (p ++ old ++ rest)) with (String a p ++ (old ++ rest))%string.
      change (String a (p ++ str_init old)) with (String a p ++ str_init old)%string.
      rewrite Eold at 1.
      rewrite (string_app_assoc (str_init old)).
      rewrite <- (string_app_assoc (String a p) (str_init old)).
      apply HasPrefix_app_long.
      rewrite string_app_length. cbn [String.length]. lia. }
    rewrite Hp, string_app_cons. f_equal. apply IH. exact H2.
Qed.

Lemma ReplaceAll_pieces (old new : string) (ps : list string) :
  old <> EmptyString ->
  pieces_ok old ps = true ->
  strings_ReplaceAll (strings_Join ps old) old new = strings_Join ps new.
Proof.
  intros Hne.
  assert (E : forall s, strings_ReplaceAll s old new = replaceFrom 0 old new s).
  { intros s. unfold strings_ReplaceAll. destruct old; [congruence|reflexivity]. }
  rewrite E. clear E.
  induction ps as [|p ps IH]; intros H; [reflexivity|].
  destruct ps as [|q ps].
  - cbn in H. apply negb_true_iff in H. cbn. apply replaceFrom_absent, H.
  - cbn [pieces_ok] in H. apply andb_true_iff in H as [H1 H2].
    change (strings_Join (p :: q :: ps) old)
      with (p ++ old ++ strings_Join (q :: ps) old)%string.
    change (strings_Join (p :: q :: ps) new)
      with (p ++ new ++ strings_Join (q :: ps) new)%string.
    rewrite replaceFrom_piece by assumption.
    rewrite IH by assumption. reflexivity.
Qed.

(** lower-casing does not create or remove spaces *)
Lemma toLowerByte_space (a : ascii) :
  Ascii.eqb (toLowerByte a) " " = Ascii.eqb a " ".
Proof. destruct a as [[] [] [] [] [] [] [] []]; reflexivity. Qed.

Lemma ToLower_strip_spaces (s : string) :
  strings_ReplaceAll (strings_ToLower s) " " ""
  = strings_ToLower (strings_ReplaceAll s " " "").
Proof.
  unfold strings_ReplaceAll.
  induction s as [|a s IH]; [reflexivity|].
  cbn [strings_ToLower replaceFrom strings_HasPrefix String.length Nat.sub].
  rewrite !HasPrefix_nil, toLowerByte_space.
  destruct (Ascii.eqb a " "); rewrite ?string_app_nil; cbn [strings_ToLower];
    rewrite IH; reflexivity.
Qed.

Lemma eulaAccepted_normal (a b : string) :
  strings_ToLower (strings_ReplaceAll a " " "")
  = strings_ToLower (strings_ReplaceAll b " " "") ->
  eulaAccepted a = eulaAccepted b.
Proof.
  intros H. unfold eulaAccepted. rewrite !ToLower_strip_spaces, H. reflexivity.
Qed.

(** ** Identities *)

Lemma hex_EncodeToString_length (src : list byte) :
  String.length (hex_EncodeToString src) = (2 * List.length src)%nat.
Proof. induction src as [|v src IH]; [reflexivity|]. cbn. rewrite IH. lia. Qed.

Lemma hexDigit_high (v : byte) : is_lower_hex (hexDigit (N.shiftr (Byte.to_N v) 4)) = true.
Proof. destruct v; reflexivity. Qed.

Lemma hexDigit_low (v : byte) : is_lower_hex (hexDigit (N.land (Byte.to_N v) 15)) = true.
Proof. destruct v; reflexivity. Qed.

Lemma hex_EncodeToString_digits (src : list byte) :
  forallb is_lower_hex (list_ascii_of_string (hex_EncodeToString src)) = true.
Proof.
  induction src as [|v src IH]; [reflexivity|].
  cbn [hex_EncodeToString list_ascii_of_string forallb].
  rewrite hexDigit_high, hexDigit_low. exact IH.
Qed.

Lemma sha1_Sum_length (msg : list byte) : List.length (sha1_Sum msg) = 20%nat.
Proof.
  unfold sha1_Sum.
  destruct (fold_left sha1_block _ sha1_init) as [[[[h0 h1] h2] h3] h4].
  reflexivity.
Qed.

Lemma sha1_hex_length (s : string) : String.length (sha1_hex s) = 40%nat.
Proof. unfold sha1_hex. rewrite hex_EncodeToString_length, sha1_Sum_length. reflexivity. Qed.

Lemma sha1_hex_wellformed (s : string) : mshid_wellformed (sha1_hex s) = true.
Proof.
  unfold mshid_wellformed.
  rewrite sha1_hex_length. unfold sha1_hex at 2.
  rewrite hex_EncodeToString_digits. cbn. apply orb_true_r.
Qed.

(** ** [Save], [loadDefault], [LoadConfig] *)

Lemma Save_run (w : World) (c : Configuration) (g : Globals) :
  Save w c g =
  match json_MarshalIndent w c "" "  " with
  | Err _ =>
      (Some (NewErr ERROR_CONFIG_SAVE LVL_D "Save" "could not marshal from config file"), g)
  | Ok configData =>
      let g1 := add_event (EvWriteFile configFileName configData) g in
      match ioutil_WriteFile_err w configFileName with
      | Some (_, None) =>
          (Some (NewErr ERROR_CONFIG_SAVE LVL_D "Save" "could not write to config file"), g1)
      | Some (_, Some n) =>
          (Some (NewErr ERROR_CONFIG_SAVE LVL_D "Save" "could not write to config file"),
           set_files (<[os_resolve w configFileName := substring 0 n configData]> (files g1))
             g1)
      | None =>
          (None,
           add_event (EvLogln LVL_D "saved default config to config file")
             (set_files (<[os_resolve w configFileName := configData]> (files g1)) g1))
      end
  end.
Proof.
  unfold Save, ioutil_WriteFile.
  destruct (json_MarshalIndent w c "" "  ") as [data|e]; [|reflexivity].
  mrun. destruct (ioutil_WriteFile_err w configFileName) as [[e [n|]]|]; reflexivity.
Qed.

(** [Save] leaves both configurations and the dirty flag as they are *)
Lemma Save_frame (w : World) (c : Configuration) (g : Globals) :
  let g' := exec (Save w c) g in
  ConfigDefault g' = ConfigDefault g
  /\ ConfigRuntime g' = ConfigRuntime g
  /\ ConfigDefaultSave g' = ConfigDefaultSave g.
Proof.
  cbv zeta. unfold exec. rewrite Save_run.
  destruct (json_MarshalIndent w c "" "  ") as [data|e]; [|auto].
  cbv zeta. destruct (ioutil_WriteFile_err w configFileName) as [[e [n|]]|]; auto.
Qed.

Lemma loadDefault_nil_run (w : World) (g : Globals) :
  loadDefault_nil w g =
  match machineid_ProtectedID w "msh", os_Executable_mshid w with
  | Ok _, Ok _ => (Panics, g)
  | _, _ =>
      let g1 := add_event warn_machine_id g in
      if nil_assignMshID w then
        match nil_getVersionInfo w with
        | Some errMsh =>
            (Returns None, add_event (EvLogMshErr (AddTrace "loadDefault" errMsh)) g1)
        | None => (Panics, g1)
        end
      else (Panics, g1)
  end.
Proof.
  unfold loadDefault_nil.
  destruct (machineid_ProtectedID w "msh") as [id|e].
  - destruct (os_Executable_mshid w) as [ex|e]; [reflexivity|].
    mrun. destruct (nil_assignMshID w); [|reflexivity].
    destruct (nil_getVersionInfo w); reflexivity.
  - mrun. destruct (nil_assignMshID w); [|reflexivity].
    destruct (nil_getVersionInfo w); reflexivity.
Qed.

Lemma loadDefault_run (w : World) (g : Globals) :
  loadDefault w g =
  match os_Executable_config w with
  | Err e => (Returns (Some (NewErr ERROR_CONFIG_LOAD LVL_B "loadDefault" e)), g)
  | Ok mshPath =>
      let path := filepath_Join w (filepath_Dir w mshPath) configFileName in
      let g1 := add_event (EvReadFile path) g in
      match files g !! os_resolve w path with
      | None =>
          (Returns (Some (NewErr ERROR_CONFIG_LOAD LVL_B "loadDefault"
                            (ioutil_ReadFile_err w path))), g1)
      | Some configData =>
          match json_Unmarshal w configData (ConfigDefault g) with
          | (Decoded c', Some e) =>
              (Returns (Some (NewErr ERROR_CONFIG_LOAD LVL_B "loadDefault" e)),
               set_ConfigDefault c' g1)
          | (Nil, Some e) =>
              (Returns (Some (NewErr ERROR_CONFIG_LOAD LVL_B "loadDefault" e)), g1)
          | (Decoded c', None) =>
              (Returns None,
               exec (loadVersionProtocol w)
                 (exec (loadMshID w) (set_ConfigDefault c' g1)))
          | (Nil, None) => loadDefault_nil w g1
          end
      end
  end.
Proof.
  unfold loadDefault, ioutil_ReadFile.
  destruct (os_Executable_config w) as [mshPath|e]; [|reflexivity].
  cbv zeta. unfold mbind at 1, M_bind at 1.
  unfold mbind at 1, M_bind at 1. unfold emit at 1, modify at 1.
  unfold mbind at 1, M_bind at 1. unfold gets at 1. fields.
  destruct (files g !! os_resolve w _) as [data|]; [|reflexivity].
  unfold mret at 1, M_ret at 1.
  unfold mbind at 1, M_bind at 1. unfold gets at 1. fields.
  destruct (json_Unmarshal w data (ConfigDefault g)) as [[c'|] [e|]];
    [reflexivity| |reflexivity|reflexivity].
  unfold mbind at 1, M_bind at 1. unfold modify at 1.
  unfold mbind at 1, M_bind at 1. unfold exec.
  destruct (loadMshID w _) as [u1 g2]. cbn [snd].
  unfold mbind at 1, M_bind at 1.
  destruct (loadVersionProtocol w g2) as [u2 g3]. reflexivity.
Qed.

Lemma LoadConfig_run (w : World) (g : Globals) :
  LoadConfig w g =
  let g0 := add_event (EvLogln LVL_D "checking OS support...") g in
  match opsys_OsSupported w with
  | Some errMsh => (Returns (Some (AddTrace "LoadConfig" errMsh)), g0)
  | None =>
      let g1 := add_event (EvLogln LVL_D "loading config...") g0 in
      match loadDefault w g1 with
      | (Panics, g2) => (Panics, g2)
      | (Returns (Some e), g2) => (Returns (Some (AddTrace "LoadConfig" e)), g2)
      | (Returns None, g2) =>
          let g3 := exec (loadRuntime w) g2 in
          if ConfigDefaultSave g3 then
            match Save w (ConfigDefault g3) g3 with
            | (Some e, g4) => (Returns (Some (AddTrace "LoadConfig" e)), g4)
            | (None, g4) => (Returns None, g4)
            end
          else (Returns None, g3)
      end
  end.
Proof.
  unfold LoadConfig.
  unfold mbind at 1, M_bind at 1. unfold errco_Logln at 1, emit at 1, modify at 1.
  destruct (opsys_OsSupported w) as [e|]; [reflexivity|].
  unfold mbind at 1, M_bind at 1. unfold errco_Logln at 1, emit at 1, modify at 1.
  unfold mbind at 1, M_bind at 1. cbv zeta.
  destruct (loadDefault w _) as [[[e|]|] g2]; [reflexivity| |reflexivity].
  unfold mbind at 1, M_bind at 1. unfold exec.
  pose proof (loadRuntime_returns_nil w g2) as Hnil.
  destruct (loadRuntime w g2) as [r g3]. cbn [fst] in Hnil. subst r. cbn [snd].
  unfold mbind at 1, M_bind at 1. unfold gets at 1.
  destruct (ConfigDefaultSave g3); [|reflexivity].
  unfold mbind at 1, M_bind at 1. unfold gets at 1.
  unfold mbind at 1, M_bind at 1.
  destruct (Save w (ConfigDefault g3) g3) as [[e|] g4]; reflexivity.
Qed.

(** * The claims *)

(** when the server file exists, [loadRuntime] runs the switch on eula.txt
    right after the [os.Stat] *)
Lemma loadRuntime_runs_checkEula (w : World) (g : Globals) :
  os_Stat_IsNotExist w (serverPathOf w (runtimeOf w (ConfigDefault g))) = false ->
  exists g1,
    exec (loadRuntime w) g
    = exec (setupProxyIcon w) (exec (checkJava w) (exec (checkEula w) g1))
    /\ ConfigRuntime g1 = runtimeOf w (ConfigDefault g).
Proof.
  intros H.
  assert (R : ConfigRuntime (exec reconcileMshID (afterOverlay w g))
              = runtimeOf w (ConfigDefault g)).
  { rewrite reconcileMshID_exec. unfold afterOverlay.
    destruct (negb _); [destruct (Nat.eqb _ _)|]; reflexivity. }
  eexists. split.
  - rewrite loadRuntime_exec, checkServer_exec. cbv zeta.
    rewrite R, H. reflexivity.
  - exact R.
Qed.

(** C1 (amended): in the acceptance-gate check of loadRuntime, whenever
    eula.txt cannot be read the start command is launched once, in the
    server folder; the file is not read again, and the "not accepted" status
    is recorded whatever the start command left on disk and whether or not
    it succeeded.  The contents are lower-cased, stripped and searched for
    eula=true only when the first read succeeds (C8). *)
Theorem C1_unreadable_eula_starts_server_then_not_accepted
    (w : World) (g : Globals) :
  files g !! os_resolve w (eulaPathOf w g) = None ->
  let cSplit := strings_Split (StartServer (Commands (ConfigRuntime g))) " " in
  let r := cmd_Run w (hd EmptyString cSplit) (tl cSplit)
             (Folder (Server (ConfigRuntime g))) (files g) in
  let g' := exec (checkEula w) g in
  new_events g g'
  = [EvReadFile (eulaPathOf w g);
     log_eula_unreadable (eulaPathOf w g);
     EvLogln LVL_D "starting minecraft server to generate eula.txt file...";
     EvPrint COLOR_CYAN;
     startCommandOf g;
     EvPrint COLOR_RESET]
    ++ match snd r with
       | Some e => [log_start_failed e]
       | None => []
       end
    ++ [log_eula_not_accepted (eulaPathOf w g)]
  /\ filter is_Run (new_events g g') = [startCommandOf g]
  /\ filter is_ReadFile (new_events g g') = [EvReadFile (eulaPathOf w g)]
  /\ files g' = fst r
  /\ servstats_Stats_Error g' = Some status_eula_not_accepted.
Proof.
  intros H. cbv zeta.
  destruct (checkEula_unreadable w g H) as (T & S & F & _). cbv zeta in T, S, F.
  rewrite (new_events_app _ _ _ T).
  repeat split; try assumption.
  - unfold startCommandOf, log_eula_unreadable, log_eula_not_accepted.
    destruct (snd (cmd_Run w _ _ _ (files g))); reflexivity.
  - unfold startCommandOf, log_eula_unreadable, log_eula_not_accepted.
    destruct (snd (cmd_Run w _ _ _ (files g))); reflexivity.
Qed.

(** a run of C1: no eula.txt, the start command writes one *)
Lemma C1_witness_missing_eula :
  files (ready_globals ∅) !! os_resolve plain_world (eulaPathOf plain_world (ready_globals ∅))
  = None
  /\ filter is_Run (new_events (ready_globals ∅) (exec (checkEula plain_world) (ready_globals ∅)))
     = [EvRun "java" ["-Xmx1024M"; "-Xms1024M"; "-jar"; "server.jar"; "nogui"] "/srv/mc"]
  /\ servstats_Stats_Error (exec (checkEula plain_world) (ready_globals ∅))
     = Some status_eula_not_accepted.
Proof.
  assert (H : files (ready_globals ∅)
              !! os_resolve plain_world (eulaPathOf plain_world (ready_globals ∅)) = None)
    by reflexivity.
  pose proof (C1_unreadable_eula_starts_server_then_not_accepted
                plain_world (ready_globals ∅) H) as P.
  cbv zeta in P. destruct P as (_ & R & _ & _ & S).
  split; [exact H|]. split; [exact R | exact S].
Defined.

(** C1 as stated fails: the start command leaves an eula.txt that holds
    eula=true, and the check still records "not accepted". *)
Lemma C1_counterexample_accepted_after_bootstrap :
  ~ eula_decided_after_bootstrap accepting_world (ready_globals ∅).
Proof.
  unfold eula_decided_after_bootstrap. cbv zeta. intros H.
  specialize (H eq_refl).
  vm_compute in H. apply H. reflexivity.
Qed.

(** ** Server presence *)

Ltac split_all := repeat match goal with |- _ /\ _ => split end.

(** C2 (amended): when the server folder/file path does not exist,
    loadRuntime records the "server missing" status, reads no eula.txt and
    launches no start command, still looks for java and sets up proxy and
    icon, and returns nil; the status it leaves is "server missing" unless
    java is missing or the proxy setup fails, which then replace it. *)
Theorem C2_server_missing_skips_gate_not_java (w : World) (g : Globals) :
  os_Stat_IsNotExist w (serverPathOf w (runtimeOf w (ConfigDefault g))) = true ->
  let g' := exec (loadRuntime w) g in
  fst (loadRuntime w g) = None
  /\ In (log_server_missing (serverPathOf w (runtimeOf w (ConfigDefault g))))
        (new_events g g')
  /\ filter is_ReadFile (new_events g g') = []
  /\ filter is_Run (new_events g g') = []
  /\ In (EvLookPath "java") (new_events g g')
  /\ servstats_Stats_Error g'
     = Some (match loadIpPorts w (runtimeOf w (ConfigDefault g)) with
             | Some _ => status_proxy_failed
             | None => if exec_LookPath w "java" then status_server_missing
                       else status_java_missing
             end).
Proof.
  intros H. cbv zeta.
  split; [apply loadRuntime_returns_nil|].
  rewrite loadRuntime_exec, setupProxyIcon_exec, checkJava_exec, checkServer_exec.
  cbv zeta.
  assert (R : ConfigRuntime (exec reconcileMshID (afterOverlay w g))
              = runtimeOf w (ConfigDefault g)).
  { rewrite reconcileMshID_exec. unfold afterOverlay.
    destruct (negb _); [destruct (Nat.eqb _ _)|]; reflexivity. }
  rewrite R, H.
  assert (T : exists evs, trace (exec reconcileMshID (afterOverlay w g)) = trace g ++ evs
                          /\ filter is_ReadFile evs = [] /\ filter is_Run evs = []).
  { rewrite reconcileMshID_exec. unfold afterOverlay.
    destruct (negb _); [destruct (Nat.eqb _ _)|];
      eexists; (split; [trace_norm; reflexivity | split; reflexivity]). }
  destruct T as (evs & T & F1 & F2).
  set (g1 := exec reconcileMshID (afterOverlay w g)) in *.
  set (path := serverPathOf w (runtimeOf w (ConfigDefault g))).
  destruct (exec_LookPath w "java");
    [destruct (cmd_Output w "java" ["--version"])|];
    fields; rewrite ?R;
    destruct (loadIpPorts w (runtimeOf w (ConfigDefault g)));
    destruct (loadIcon w (runtimeOf w (ConfigDefault g)));
    (erewrite new_events_app by (trace_norm; rewrite T; rewrite <- ?app_assoc; cbn [app]; reflexivity));
    fields; rewrite ?filter_app, ?F1, ?F2; split_all;
    try reflexivity;
    rewrite ?in_app_iff; cbn [In]; auto 10.
Qed.

Lemma C2_witness_server_missing :
  os_Stat_IsNotExist missing_world
    (serverPathOf missing_world (runtimeOf missing_world sample_config)) = true
  /\ fst (loadRuntime missing_world (ready_globals ∅)) = None
  /\ In (EvLookPath "java")
        (new_events (ready_globals ∅) (exec (loadRuntime missing_world) (ready_globals ∅)))
  /\ servstats_Stats_Error (exec (loadRuntime missing_world) (ready_globals ∅))
     = Some status_server_missing.
Proof.
  assert (H : os_Stat_IsNotExist missing_world
                (serverPathOf missing_world
                   (runtimeOf missing_world (ConfigDefault (ready_globals ∅)))) = true)
    by reflexivity.
  pose proof (C2_server_missing_skips_gate_not_java missing_world (ready_globals ∅) H) as P.
  cbv zeta in P. destruct P as (R & _ & _ & _ & J & S).
  split; [exact H|]. split; [exact R|]. split; [exact J | exact S].
Defined.

(** C2 as stated fails: with the server path missing, java is still looked
    up (and its version queried). *)
Lemma C2_counterexample_java_checked :
  ~ server_missing_skips_gate_and_java missing_world (ready_globals ∅).
Proof.
  unfold server_missing_skips_gate_and_java. intros H.
  specialize (H eq_refl). cbv zeta in H.
  destruct H as (_ & _ & _ & _ & J).
  vm_compute in J. discriminate J.
Qed.

(** ** Identity reconciliation *)

Lemma String_eqb_neq (a b : string) : a <> b -> String.eqb a b = false.
Proof. intros H. apply String.eqb_neq, H. Qed.

(** C5: in the identity reconciliation of loadRuntime, a runtime identity
    that differs from the default one and is exactly 40 bytes long is
    copied into the default configuration (nothing else of it changes) and
    the dirty flag is set; one that differs and is not 40 bytes long leaves
    the default configuration and the dirty flag as they were; equal
    identities change nothing.  The runtime configuration is never
    touched. *)
Theorem C5_identity_reconciliation (g : Globals) :
  let d := ID (Msh (ConfigDefault g)) in
  let r := ID (Msh (ConfigRuntime g)) in
  let g' := exec reconcileMshID g in
  (d <> r -> String.length r = 40%nat ->
     ConfigDefault g' = set_MshID r (ConfigDefault g)
     /\ ID (Msh (ConfigDefault g')) = r
     /\ ConfigDefaultSave g' = true)
  /\ (d <> r -> String.length r <> 40%nat ->
        ConfigDefault g' = ConfigDefault g
        /\ ConfigDefaultSave g' = ConfigDefaultSave g)
  /\ (d = r -> g' = g)
  /\ ConfigRuntime g' = ConfigRuntime g.
Proof.
  cbv zeta. rewrite reconcileMshID_exec. split_all.
  - intros Hne Hlen. rewrite (String_eqb_neq _ _ Hne), Hlen. cbn. auto.
  - intros Hne Hlen. rewrite (String_eqb_neq _ _ Hne).
    apply Nat.eqb_neq in Hlen. rewrite Hlen. cbn. auto.
  - intros Heq. rewrite Heq, String.eqb_refl. reflexivity.
  - destruct (negb _); [destruct (Nat.eqb _ _)|]; reflexivity.
Qed.

Lemma loadRuntime_configs (w : World) (g : Globals) :
  let g1 := exec reconcileMshID (afterOverlay w g) in
  let g' := exec (loadRuntime w) g in
  ConfigDefault g' = ConfigDefault g1
  /\ ConfigRuntime g' = runtimeOf w (ConfigDefault g)
  /\ ConfigDefaultSave g' = ConfigDefaultSave g1.
Proof.
  cbv zeta. rewrite loadRuntime_exec, setupProxyIcon_exec, checkJava_exec.
  cbv zeta.
  destruct (checkServer_frame w (exec reconcileMshID (afterOverlay w g)))
    as (D & R & S).
  assert (R0 : ConfigRuntime (exec reconcileMshID (afterOverlay w g))
               = runtimeOf w (ConfigDefault g)).
  { rewrite reconcileMshID_exec. unfold afterOverlay.
    destruct (negb _); [destruct (Nat.eqb _ _)|]; reflexivity. }
  rewrite <- D, <- S, <- R0, <- R.
  destruct (exec_LookPath w "java");
    [destruct (cmd_Output w "java" ["--version"])|];
    fields;
    destruct (loadIpPorts w _); destruct (loadIcon w _); auto.
Qed.

(** what [loadRuntime] does to the dirty flag and to the default
    configuration, whatever the checks find *)
Lemma loadRuntime_dirty (w : World) (g : Globals) :
  let g' := exec (loadRuntime w) g in
  ConfigDefaultSave g' = ConfigDefaultSave g || promotes w (ConfigDefault g)
  /\ ConfigDefault g'
     = (if promotes w (ConfigDefault g)
        then set_MshID (ID (Msh (runtimeOf w (ConfigDefault g)))) (ConfigDefault g)
        else ConfigDefault g).
Proof.
  cbv zeta. destruct (loadRuntime_configs w g) as (D & _ & S). cbv zeta in D, S.
  rewrite D, S, reconcileMshID_exec. unfold promotes, afterOverlay. fields.
  destruct (negb _); [destruct (Nat.eqb _ _)|]; fields;
    rewrite ?orb_true_r, ?orb_false_r; auto.
Qed.

(** C10: a runtime identity given on the command line that is not the
    default one and is not 40 bytes long stays in the runtime
    configuration; the default identity and the dirty flag are unchanged,
    so when loadRuntime returns the two identities differ, and Save, which
    changes neither configuration, leaves them so. *)
Theorem C10_rejected_identity_stays_in_runtime (w : World) (g : Globals) (id : string) :
  flag_id (flag_Parse w) = Some id ->
  id <> ID (Msh (ConfigDefault g)) ->
  String.length id <> 40%nat ->
  let g' := exec (loadRuntime w) g in
  ID (Msh (ConfigRuntime g')) = id
  /\ ConfigDefault g' = ConfigDefault g
  /\ ID (Msh (ConfigRuntime g')) <> ID (Msh (ConfigDefault g'))
  /\ ConfigDefaultSave g' = ConfigDefaultSave g
  /\ (forall c : Configuration,
        ConfigRuntime (exec (Save w c) g') = ConfigRuntime g'
        /\ ConfigDefault (exec (Save w c) g') = ConfigDefault g').
Proof.
  intros Hflag Hne Hlen. cbv zeta.
  destruct (loadRuntime_configs w g) as (_ & R & _). cbv zeta in R.
  destruct (loadRuntime_dirty w g) as (S & D). cbv zeta in S, D.
  assert (I : ID (Msh (runtimeOf w (ConfigDefault g))) = id).
  { unfold runtimeOf, replacePlaceholders, overlay. cbn. rewrite Hflag. reflexivity. }
  assert (P : promotes w (ConfigDefault g) = false).
  { unfold promotes. rewrite I. apply Nat.eqb_neq in Hlen. rewrite Hlen.
    apply andb_false_r. }
  rewrite P in S, D. rewrite orb_false_r in S.
  rewrite R, D, I. split_all; auto.
  - intros c. destruct (Save_frame w c (exec (loadRuntime w) g)) as (A & B & _).
    cbv zeta in A, B. rewrite A, B, R, D. auto.
Qed.

Lemma C10_witness_short_identity :
  flag_id (flag_Parse custom_id_world) = Some "my-server"
  /\ "my-server" <> ID (Msh (ConfigDefault (ready_globals ∅)))
  /\ String.length "my-server" <> 40%nat
  /\ ID (Msh (ConfigRuntime (exec (loadRuntime custom_id_world) (ready_globals ∅))))
     = "my-server"
  /\ ID (Msh (ConfigDefault (exec (loadRuntime custom_id_world) (ready_globals ∅))))
     = "".
Proof.
  assert (H1 : flag_id (flag_Parse custom_id_world) = Some "my-server") by reflexivity.
  assert (H2 : "my-server" <> ID (Msh (ConfigDefault (ready_globals ∅))))
    by discriminate.
  assert (H3 : String.length "my-server" <> 40%nat) by discriminate.
  pose proof (C10_rejected_identity_stays_in_runtime
                custom_id_world (ready_globals ∅) "my-server" H1 H2 H3) as P.
  cbv zeta in P. destruct P as (R & D & _).
  split_all; try assumption.
  rewrite D. reflexivity.
Defined.

(** ** Every template has its pieces *)

Lemma HasPrefix_split (p s : string) :
  strings_HasPrefix s p = true -> exists rest, s = (p ++ rest)%string.
Proof.
  revert s. induction p as [|a p IH]; intros s H.
  - exists s. reflexivity.
  - destruct s as [|b s]; [discriminate H|].
    cbn [strings_HasPrefix] in H.
    destruct (Ascii.eqb b a) eqn:E; [|discriminate H].
    apply Ascii.eqb_eq in E. subst b.
    destruct (IH s H) as (rest & R). exists rest.
    rewrite string_app_cons, <- R. reflexivity.
Qed.

Lemma HasPrefix_short (p s : string) :
  (String.length s < String.length p)%nat -> strings_HasPrefix s p = false.
Proof.
  revert s. induction p as [|a p IH]; intros s H; [cbn in H; lia|].
  destruct s as [|b s]; [reflexivity|].
  cbn [strings_HasPrefix]. destruct (Ascii.eqb b a); [|reflexivity].
  apply IH. cbn in H. lia.
Qed.

Lemma Contains_short (sub s : string) :
  (String.length s < String.length sub)%nat -> strings_Contains s sub = false.
Proof.
  induction s as [|a s IH]; intros H.
  - cbn [strings_Contains]. rewrite HasPrefix_short by exact H. reflexivity.
  - cbn [strings_Contains]. rewrite HasPrefix_short by exact H.
    apply IH. cbn in H. lia.
Qed.

Lemma splitFrom_skip (sep u rest : string) :
  splitFrom (String.length u) sep (u ++ rest) = splitFrom 0 sep rest.
Proof.
  induction u as [|a u IH].
  - rewrite string_app_nil. reflexivity.
  - rewrite string_app_cons. cbn [String.length splitFrom]. exact IH.
Qed.

Lemma splitFrom_hit (sep rest : string) :
  sep <> EmptyString ->
  splitFrom 0 sep (sep ++ rest) = EmptyString :: splitFrom 0 sep rest.
Proof.
  intros Hne. destruct sep as [|a o]; [congruence|].
  change (String a o ++ rest)%string with (String a (o ++ rest)).
  cbn [splitFrom].
  change (String a (o ++ rest)) with (String a o ++ rest)%string.
  rewrite HasPrefix_app.
  replace (String.length (String a o) - 1) with (String.length o)
    by (cbn [String.length]; lia).
  f_equal. apply splitFrom_skip.
Qed.

Lemma Join_cons_char (a : ascii) (p sep : string) (ps : list string) :
  strings_Join (String a p :: ps) sep = String a (strings_Join (p :: ps) sep).
Proof. destruct ps; reflexivity. Qed.

Lemma pieces_ok_cons (old p q : string) (qs : list string) :
  pieces_ok old (p :: q :: qs) = clean_piece old p && pieces_ok old (q :: qs).
Proof. reflexivity. Qed.

(** [strings.Split] cuts a string at every occurrence of the separator:
    its pieces are those of [pieces_ok], and joined by the separator they
    give the string back *)
Lemma Split_pieces (sep : string) :
  sep <> EmptyString ->
  forall (n : nat) (s : string),
    (String.length s <= n)%nat ->
    splitFrom 0 sep s <> []
    /\ pieces_ok sep (splitFrom 0 sep s) = true
    /\ strings_Join (splitFrom 0 sep s) sep = s.
Proof.
  intros Hne.
  destruct (str_init_last sep Hne) as (l & Esep & Lsep).
  induction n as [|n IH]; intros s Hlen.
  - destruct s; [|cbn in Hlen; lia].
    cbn [splitFrom pieces_ok strings_Join strings_Contains].
    split; [discriminate|]. split; [|reflexivity].
    rewrite HasPrefix_short; [reflexivity|]. rewrite Lsep. cbn. lia.
  - destruct s as [|a s]; [apply IH; cbn; lia|].
    destruct (strings_HasPrefix (String a s) sep) eqn:HP.
    + destruct (HasPrefix_split _ _ HP) as (rest & R). rewrite R.
      rewrite splitFrom_hit by exact Hne.
      assert (Lr : (String.length rest <= n)%nat).
      { apply (f_equal String.length) in R. rewrite string_app_length in R.
        cbn [String.length] in R, Hlen. lia. }
      destruct (IH rest Lr) as (N & P & J).
      split; [discriminate|].
      destruct (splitFrom 0 sep rest) as [|q qs] eqn:E; [congruence|].
      split.
      * rewrite pieces_ok_cons, P, andb_true_r. unfold clean_piece.
        rewrite string_app_nil, Contains_short; [reflexivity|lia].
      * change (strings_Join (EmptyString :: q :: qs) sep)
          with (EmptyString ++ sep ++ strings_Join (q :: qs) sep)%string.
        rewrite J. reflexivity.
    + cbn [splitFrom]. rewrite HP.
      assert (Ls : (String.length s <= n)%nat) by (cbn in Hlen; lia).
      destruct (IH s Ls) as (N & P & J).
      destruct (splitFrom 0 sep s) as [|p ps] eqn:E; [congruence|].
      split; [discriminate|]. split.
      * destruct ps as [|q qs].
        -- cbn [pieces_ok strings_Join] in *. subst p.
           cbn [strings_Contains]. rewrite HP. exact P.
        -- rewrite pieces_ok_cons in P. apply andb_true_iff in P as [P1 P2].
           rewrite pieces_ok_cons, P2, andb_true_r. unfold clean_piece in *.
           rewrite string_app_cons. cbn [strings_Contains].
           apply negb_true_iff in P1. rewrite P1, orb_false_r.
           apply negb_true_iff. rewrite <- HP, <- J.
           change (strings_Join (p :: q :: qs) sep)
             with (p ++ sep ++ strings_Join (q :: qs) sep)%string.
           rewrite Esep at 3.
           rewrite (string_app_assoc (str_init sep)).
           rewrite <- (string_app_assoc p (str_init sep)).
           rewrite <- !string_app_cons. symmetry.
           apply HasPrefix_app_long.
           rewrite string_app_length. cbn [String.length]. lia.
      * rewrite Join_cons_char, J. reflexivity.
Qed.

Lemma Split_pieces_ok (s sep : string) :
  sep <> EmptyString ->
  pieces_ok sep (strings_Split s sep) = true
  /\ strings_Join (strings_Split s sep) sep = s.
Proof.
  intros Hne.
  assert (E : strings_Split s sep = splitFrom 0 sep s).
  { unfold strings_Split. destruct sep; [congruence|reflexivity]. }
  rewrite E. destruct (Split_pieces sep Hne (String.length s) s (le_n _)) as (_ & P & J).
  auto.
Qed.

(** ** Placeholders *)

(** C9: after the command-line overlay, every occurrence of
    <Server.FileName> in the start-command template is replaced by the
    runtime file name, and then every occurrence of
    <Commands.StartServerParam> in the result by the runtime start
    parameters: a template written as [ps] joined by the first token
    becomes [ps] joined by the file name, and that string, written as [qs]
    joined by the second token, becomes [qs] joined by the parameters.
    Every template can be written so (its pieces are those of
    strings.Split). *)
Theorem C9_placeholders_replaced_everywhere (w : World) (g : Globals) :
  let c := overlay (flag_Parse w) (ConfigDefault g) in
  let g' := exec (loadRuntime w) g in
  (forall ps qs : list string,
      pieces_ok "<Server.FileName>" ps = true ->
      StartServer (Commands (ConfigDefault g)) = strings_Join ps "<Server.FileName>" ->
      pieces_ok "<Commands.StartServerParam>" qs = true ->
      strings_Join ps (FileName (Server c))
      = strings_Join qs "<Commands.StartServerParam>" ->
      StartServer (Commands (ConfigRuntime g'))
      = strings_Join qs (StartServerParam (Commands c)))
  /\ (exists ps qs : list string,
        pieces_ok "<Server.FileName>" ps = true
        /\ StartServer (Commands (ConfigDefault g)) = strings_Join ps "<Server.FileName>"
        /\ pieces_ok "<Commands.StartServerParam>" qs = true
        /\ strings_Join ps (FileName (Server c))
           = strings_Join qs "<Commands.StartServerParam>")
  /\ FileName (Server (ConfigRuntime g')) = FileName (Server c)
  /\ StartServerParam (Commands (ConfigRuntime g')) = StartServerParam (Commands c).
Proof.
  intros c g'.
  destruct (loadRuntime_configs w g) as (_ & R & _). cbv zeta in R.
  subst g'. rewrite R. unfold runtimeOf, replacePlaceholders. fold c.
  cbn [StartServer Commands Server FileName StartServerParam set_StartServer].
  split_all; try reflexivity.
  - intros ps qs Hps Htmpl Hqs Hmid.
    replace (StartServer (Commands c)) with (strings_Join ps "<Server.FileName>")
      by (rewrite <- Htmpl; reflexivity).
    rewrite (ReplaceAll_pieces "<Server.FileName>" _ ps) by (discriminate || assumption).
    rewrite Hmid.
    apply (ReplaceAll_pieces "<Commands.StartServerParam>" _ qs);
      (discriminate || assumption).
  - exists (strings_Split (StartServer (Commands (ConfigDefault g))) "<Server.FileName>").
    destruct (Split_pieces_ok (StartServer (Commands (ConfigDefault g)))
                "<Server.FileName>") as (P1 & J1); [discriminate|].
    eexists (strings_Split _ "<Commands.StartServerParam>").
    destruct (Split_pieces_ok
                (strings_Join
                   (strings_Split (StartServer (Commands (ConfigDefault g)))
                      "<Server.FileName>") (FileName (Server c)))
                "<Commands.StartServerParam>") as (P2 & J2); [discriminate|].
    split_all; [exact P1 | symmetry; exact J1 | exact P2 | symmetry; exact J2].
Qed.

Lemma C9_witness_two_occurrences :
  StartServer (Commands twice_config)
  = strings_Join ["java <Commands.StartServerParam> -jar ";
                  " nogui --log ";
                  ".log <Commands.StartServerParam>"] "<Server.FileName>"
  /\ StartServer
       (Commands
          (ConfigRuntime
             (exec (loadRuntime plain_world) (sample_globals twice_config twice_config ∅))))
     = "java -Xmx1024M -Xms1024M -jar server.jar nogui --log server.jar.log -Xmx1024M -Xms1024M".
Proof.
  split; [reflexivity|].
  pose proof (C9_placeholders_replaced_everywhere plain_world
                (sample_globals twice_config twice_config ∅)) as P.
  cbv zeta in P. destruct P as (P & _).
  rewrite (P ["java <Commands.StartServerParam> -jar ";
              " nogui --log ";
              ".log <Commands.StartServerParam>"]
             ["java "; " -jar server.jar nogui --log server.jar.log "; ""]
             eq_refl eq_refl eq_refl eq_refl).
  reflexivity.
Defined.

(** ** Shape of the identity *)

Lemma loadMshID_derived (w : World) (g : Globals) (id ex : string) :
  machineid_ProtectedID w "msh" = Ok id ->
  os_Executable_mshid w = Ok ex ->
  ID (Msh (ConfigDefault (exec (loadMshID w) g))) = sha1_hex (id ++ filepath_Dir w ex).
Proof.
  intros H1 H2. rewrite loadMshID_exec.
  unfold derives_new_id, withDerivedID. rewrite H1, H2.
  destruct (negb _) eqn:E; [reflexivity|].
  apply negb_false_iff, String.eqb_eq in E. exact E.
Qed.

(** C6 (amended): the identity derivation, when the machine id and the
    executable path are available, leaves an identity of exactly 40
    lower-case hexadecimal digits.  The identity promotion looks at the
    length only: it keeps the default identity empty or 40 bytes long, and
    keeps it empty or 40 lower-case hexadecimal digits when the runtime
    identity is so. *)
Theorem C6_identity_shape (w : World) (g : Globals) :
  (forall id ex,
      machineid_ProtectedID w "msh" = Ok id ->
      os_Executable_mshid w = Ok ex ->
      mshid_wellformed (ID (Msh (ConfigDefault (exec (loadMshID w) g)))) = true
      /\ String.length (ID (Msh (ConfigDefault (exec (loadMshID w) g)))) = 40%nat)
  /\ (mshid_length_ok (ID (Msh (ConfigDefault g))) = true ->
      mshid_length_ok (ID (Msh (ConfigDefault (exec reconcileMshID g)))) = true)
  /\ (mshid_wellformed (ID (Msh (ConfigDefault g))) = true ->
      mshid_wellformed (ID (Msh (ConfigRuntime g))) = true ->
      mshid_wellformed (ID (Msh (ConfigDefault (exec reconcileMshID g)))) = true).
Proof.
  split_all.
  - intros id ex H1 H2. rewrite (loadMshID_derived w g id ex H1 H2).
    split; [apply sha1_hex_wellformed | apply sha1_hex_length].
  - intros H. rewrite reconcileMshID_exec.
    destruct (negb _); [|exact H].
    destruct (Nat.eqb _ _) eqn:E; [|exact H].
    cbn. unfold mshid_length_ok. rewrite E. apply orb_true_r.
  - intros Hd Hr. rewrite reconcileMshID_exec.
    destruct (negb _); [|exact Hd].
    destruct (Nat.eqb _ _); [exact Hr | exact Hd].
Qed.

(** C6 as stated fails: a runtime identity of forty letters Z is promoted
    into a default configuration whose identity was empty. *)
Lemma C6_counterexample_forty_Z :
  ~ promotion_keeps_wellformed
      (sample_globals sample_config (set_MshID forty_Z sample_config) ∅).
Proof.
  unfold promotion_keeps_wellformed. intros H.
  specialize (H eq_refl). vm_compute in H. discriminate H.
Qed.

(** ** Identity derivation and the probe *)

Lemma set_MshID_same (c : Configuration) : set_MshID (ID (Msh c)) c = c.
Proof. destruct c as [s cm [i d a h st nu nm lp t]]. reflexivity. Qed.

Lemma set_VersionProtocol_same (c : Configuration) :
  set_VersionProtocol (Version (Server c)) (Protocol (Server c)) c = c.
Proof. destruct c as [[fo fi v p] cm m]. reflexivity. Qed.

Lemma loadMshID_config (w : World) (g : Globals) :
  ConfigDefault (exec (loadMshID w) g) = withDerivedID w (ConfigDefault g)
  /\ ConfigDefaultSave (exec (loadMshID w) g)
     = ConfigDefaultSave g || derives_new_id w (ConfigDefault g).
Proof.
  rewrite loadMshID_exec. unfold derives_new_id, withDerivedID.
  destruct (machineid_ProtectedID w "msh") as [id|e];
    [|fields; rewrite orb_false_r; auto].
  destruct (os_Executable_mshid w) as [ex|e];
    [|fields; rewrite orb_false_r; auto].
  destruct (negb _) eqn:E; fields.
  - rewrite orb_true_r. auto.
  - rewrite orb_false_r. split; [|reflexivity].
    apply negb_false_iff, String.eqb_eq in E.
    rewrite <- E. symmetry. apply set_MshID_same.
Qed.

Lemma loadVersionProtocol_config (w : World) (g : Globals) :
  ConfigDefault (exec (loadVersionProtocol w) g) = withProbed w (ConfigDefault g)
  /\ ConfigDefaultSave (exec (loadVersionProtocol w) g)
     = ConfigDefaultSave g || probe_changes w (ConfigDefault g).
Proof.
  rewrite loadVersionProtocol_exec. unfold probe_changes, withProbed.
  destruct (getVersionInfo w (ConfigDefault g)) as [e|[v p]];
    [fields; rewrite orb_false_r; auto|].
  destruct (_ || _) eqn:E; fields.
  - rewrite orb_true_r. auto.
  - rewrite orb_false_r. split; [|reflexivity].
    apply orb_false_iff in E as [E1 E2].
    apply negb_false_iff, String.eqb_eq in E1.
    apply negb_false_iff, Z.eqb_eq in E2.
    rewrite <- E1, <- E2. symmetry. apply set_VersionProtocol_same.
Qed.

(** C4: when the machine id or the executable path cannot be obtained, the
    identity step of loadDefault logs one warning and hands over to
    assignMshID without computing a digest; with assignMshID as the
    specification describes it, neither the default configuration nor the
    dirty flag changes, and after a loadDefault that went this way the
    stored identity is the one decoded from the config file. *)
Theorem C4_identity_untouched_when_derivation_fails (w : World) (g : Globals) :
  (exists e, machineid_ProtectedID w "msh" = Err e)
  \/ (exists e, os_Executable_mshid w = Err e) ->
  let g' := exec (loadMshID w) g in
  g' = exec assignMshID (add_event warn_machine_id g)
  /\ new_events g g' = [warn_machine_id]
  /\ ConfigDefault g' = ConfigDefault g
  /\ ConfigDefaultSave g' = ConfigDefaultSave g
  /\ (forall mshPath configData c',
        os_Executable_config w = Ok mshPath ->
        files g !! os_resolve w (filepath_Join w (filepath_Dir w mshPath) configFileName)
        = Some configData ->
        json_Unmarshal w configData (ConfigDefault g) = (Decoded c', None) ->
        ID (Msh (ConfigDefault (exec (loadDefault w) g))) = ID (Msh c')).
Proof.
  intros H. cbv zeta.
  assert (E : exec (loadMshID w) g = add_event warn_machine_id g
              /\ forall c, withDerivedID w c = c).
  { rewrite loadMshID_exec. unfold withDerivedID.
    destruct H as [[e H]|[e H]]; rewrite H.
    - auto.
    - destruct (machineid_ProtectedID w "msh"); auto. }
  destruct E as (E & W).
  rewrite E. split_all; try reflexivity.
  - apply new_events_app. reflexivity.
  - intros mshPath configData c' H1 H2 H3.
    unfold exec at 1. rewrite loadDefault_run, H1. cbv zeta. rewrite H2, H3.
    cbn [snd].
    destruct (loadVersionProtocol_config w
                (exec (loadMshID w)
                   (set_ConfigDefault c'
                      (add_event
                         (EvReadFile
                            (filepath_Join w (filepath_Dir w mshPath) configFileName))
                         g)))) as (V & _).
    rewrite V.
    destruct (loadMshID_config w
                (set_ConfigDefault c'
                   (add_event
                      (EvReadFile
                         (filepath_Join w (filepath_Dir w mshPath) configFileName))
                      g))) as (D & _).
    rewrite D, W. fields.
    unfold withProbed. destruct (getVersionInfo w c') as [e|[v p]]; reflexivity.
Qed.

Lemma C4_witness_no_machine_id :
  ((exists e, machineid_ProtectedID no_machineid_world "msh" = Err e)
   \/ (exists e, os_Executable_mshid no_machineid_world = Err e))
  /\ new_events (ready_globals ∅) (exec (loadMshID no_machineid_world) (ready_globals ∅))
     = [warn_machine_id]
  /\ ID (Msh (ConfigDefault (exec (loadMshID no_machineid_world) (ready_globals ∅)))) = "".
Proof.
  assert (H : (exists e, machineid_ProtectedID no_machineid_world "msh" = Err e)
              \/ (exists e, os_Executable_mshid no_machineid_world = Err e)).
  { left. eexists. reflexivity. }
  pose proof (C4_identity_untouched_when_derivation_fails
                no_machineid_world (ready_globals ∅) H) as P.
  cbv zeta in P. destruct P as (_ & T & D & _).
  split; [exact H|]. split; [exact T|]. rewrite D. reflexivity.
Defined.

(** ** Save and load *)

(** what a successful [loadDefault] leaves as default configuration and
    dirty flag *)
Lemma loadDefault_success (w : World) (g : Globals) (mshPath configData : string)
    (c' : Configuration) :
  os_Executable_config w = Ok mshPath ->
  files g !! os_resolve w (filepath_Join w (filepath_Dir w mshPath) configFileName)
  = Some configData ->
  json_Unmarshal w configData (ConfigDefault g) = (Decoded c', None) ->
  fst (loadDefault w g) = Returns None
  /\ ConfigDefault (exec (loadDefault w) g) = withProbed w (withDerivedID w c')
  /\ ConfigDefaultSave (exec (loadDefault w) g)
     = ConfigDefaultSave g || derives_new_id w c' || probe_changes w (withDerivedID w c').
Proof.
  intros H1 H2 H3. unfold exec. rewrite loadDefault_run, H1. cbv zeta.
  rewrite H2, H3. cbn [fst snd].
  set (g1 := set_ConfigDefault c' _).
  destruct (loadVersionProtocol_config w (exec (loadMshID w) g1)) as (V & VS).
  destruct (loadMshID_config w g1) as (D & DS).
  unfold exec in *. rewrite V, VS, D, DS. subst g1. fields. auto.
Qed.

(** when the receiver is nil after line 121, neither the default
    configuration nor the dirty flag is written, and no file *)
Lemma loadDefault_nil_frame (w : World) (g : Globals) :
  ConfigDefault (exec (loadDefault_nil w) g) = ConfigDefault g
  /\ ConfigDefaultSave (exec (loadDefault_nil w) g) = ConfigDefaultSave g
  /\ ConfigRuntime (exec (loadDefault_nil w) g) = ConfigRuntime g
  /\ servstats_Stats_Error (exec (loadDefault_nil w) g) = servstats_Stats_Error g
  /\ Javav (exec (loadDefault_nil w) g) = Javav g
  /\ files (exec (loadDefault_nil w) g) = files g.
Proof.
  unfold exec. rewrite loadDefault_nil_run.
  destruct (machineid_ProtectedID w "msh") as [id|e].
  - destruct (os_Executable_mshid w) as [ex|e]; [repeat split|].
    cbv zeta. destruct (nil_assignMshID w); [|repeat split].
    destruct (nil_getVersionInfo w); repeat split.
  - cbv zeta. destruct (nil_assignMshID w); [|repeat split].
    destruct (nil_getVersionInfo w); repeat split.
Qed.

(** a [loadDefault] that does not return nil leaves the dirty flag as it
    was *)
Lemma loadDefault_failure (w : World) (g : Globals) :
  fst (loadDefault w g) <> Returns None ->
  ConfigDefaultSave (exec (loadDefault w) g) = ConfigDefaultSave g.
Proof.
  unfold exec. rewrite loadDefault_run.
  destruct (os_Executable_config w) as [mshPath|e]; [|reflexivity].
  cbv zeta. destruct (files g !! _) as [data|]; [|reflexivity].
  destruct (json_Unmarshal w data (ConfigDefault g)) as [[c'|] [e|]];
    [reflexivity| |reflexivity|].
  - cbn [fst]. congruence.
  - intros _.
    destruct (loadDefault_nil_frame w
                (add_event
                   (EvReadFile (filepath_Join w (filepath_Dir w mshPath) configFileName))
                   g)) as (_ & S & _).
    exact S.
Qed.







(** ** The dirty flag *)

Lemma adds_no_write_refl (g : Globals) : adds_no_write g g.
Proof. exists []. split; [symmetry; apply app_nil_r | reflexivity]. Qed.

Lemma adds_no_write_same (g g' : Globals) :
  trace g' = trace g -> adds_no_write g g'.
Proof. intros H. exists []. split; [rewrite H; symmetry; apply app_nil_r | reflexivity]. Qed.

Lemma adds_no_write_trans (g1 g2 g3 : Globals) :
  adds_no_write g1 g2 -> adds_no_write g2 g3 -> adds_no_write g1 g3.
Proof.
  intros (e1 & T1 & F1) (e2 & T2 & F2). exists (e1 ++ e2). split.
  - rewrite T2, T1, app_assoc. reflexivity.
  - rewrite filter_app, F1, F2. reflexivity.
Qed.

Lemma adds_no_write_new_events (g g' : Globals) :
  adds_no_write g g' -> filter is_WriteFile (new_events g g') = [].
Proof. intros (evs & T & F). rewrite (new_events_app _ _ _ T). exact F. Qed.

Ltac no_write := eexists; split; [trace_norm; reflexivity | reflexivity].

Lemma loadMshID_no_write (w : World) (g : Globals) :
  adds_no_write g (exec (loadMshID w) g).
Proof.
  rewrite loadMshID_exec.
  destruct (machineid_ProtectedID w "msh"); [|no_write].
  destruct (os_Executable_mshid w); [|no_write].
  destruct (derives_new_id w _); [no_write | apply adds_no_write_refl].
Qed.

Lemma loadVersionProtocol_no_write (w : World) (g : Globals) :
  adds_no_write g (exec (loadVersionProtocol w) g).
Proof.
  rewrite loadVersionProtocol_exec.
  destruct (getVersionInfo w _); [no_write|].
  destruct (probe_changes w _); apply adds_no_write_same; reflexivity.
Qed.

Lemma loadDefault_nil_no_write (w : World) (g : Globals) :
  adds_no_write g (exec (loadDefault_nil w) g).
Proof.
  unfold exec. rewrite loadDefault_nil_run.
  destruct (machineid_ProtectedID w "msh") as [id|e].
  - destruct (os_Executable_mshid w) as [ex|e]; [apply adds_no_write_refl|].
    cbv zeta. destruct (nil_assignMshID w); [|no_write].
    destruct (nil_getVersionInfo w); no_write.
  - cbv zeta. destruct (nil_assignMshID w); [|no_write].
    destruct (nil_getVersionInfo w); no_write.
Qed.

Lemma loadDefault_no_write (w : World) (g : Globals) :
  adds_no_write g (exec (loadDefault w) g).
Proof.
  unfold exec. rewrite loadDefault_run.
  destruct (os_Executable_config w) as [mshPath|e]; [|apply adds_no_write_refl].
  cbv zeta. destruct (files g !! _) as [data|]; [|no_write].
  destruct (json_Unmarshal w data (ConfigDefault g)) as [[c'|] [e|]];
    [no_write| |no_write|].
  - cbn [snd].
    eapply adds_no_write_trans; [|apply loadVersionProtocol_no_write].
    eapply adds_no_write_trans; [|apply loadMshID_no_write].
    no_write.
  - eapply adds_no_write_trans; [|apply loadDefault_nil_no_write]. no_write.
Qed.

Lemma checkEula_no_write (w : World) (g : Globals) :
  adds_no_write g (exec (checkEula w) g).
Proof.
  destruct (files g !! os_resolve w (eulaPathOf w g)) as [data|] eqn:H.
  - destruct (checkEula_readable w g data H) as (T & _). cbv zeta in T.
    eexists. split; [exact T|]. destruct (eulaAccepted data); reflexivity.
  - destruct (checkEula_unreadable w g H) as (T & _). cbv zeta in T.
    eexists. split; [exact T|].
    destruct (snd (cmd_Run w _ _ _ (files g))); reflexivity.
Qed.

Lemma loadRuntime_no_write (w : World) (g : Globals) :
  adds_no_write g (exec (loadRuntime w) g).
Proof.
  rewrite loadRuntime_exec.
  eapply adds_no_write_trans with (g2 := afterOverlay w g);
    [unfold afterOverlay; no_write|].
  eapply adds_no_write_trans with (g2 := exec reconcileMshID (afterOverlay w g)).
  { rewrite reconcileMshID_exec.
    destruct (negb _); [destruct (Nat.eqb _ _); no_write | apply adds_no_write_refl]. }
  eapply adds_no_write_trans
    with (g2 := exec (checkServer w) (exec reconcileMshID (afterOverlay w g))).
  { rewrite checkServer_exec. cbv zeta.
    destruct (os_Stat_IsNotExist w _); [no_write|].
    eapply adds_no_write_trans; [|apply checkEula_no_write]. no_write. }
  eapply adds_no_write_trans
    with (g2 := exec (checkJava w)
                  (exec (checkServer w) (exec reconcileMshID (afterOverlay w g)))).
  { rewrite checkJava_exec.
    destruct (exec_LookPath w "java"); [destruct (cmd_Output w _ _)|]; no_write. }
  rewrite setupProxyIcon_exec. cbv zeta.
  destruct (loadIpPorts w _); destruct (loadIcon w _); no_write.
Qed.

Lemma LoadConfig_exec (w : World) (g : Globals) :
  let g1 := add_event (EvLogln LVL_D "loading config...")
              (add_event (EvLogln LVL_D "checking OS support...") g) in
  let g3 := exec (loadRuntime w) (exec (loadDefault w) g1) in
  exec (LoadConfig w) g =
  match opsys_OsSupported w with
  | Some _ => add_event (EvLogln LVL_D "checking OS support...") g
  | None =>
      match fst (loadDefault w g1) with
      | Panics | Returns (Some _) => exec (loadDefault w) g1
      | Returns None =>
          if ConfigDefaultSave g3 then exec (Save w (ConfigDefault g3)) g3 else g3
      end
  end.
Proof.
  cbv zeta. unfold exec. rewrite LoadConfig_run. cbv zeta.
  destruct (opsys_OsSupported w); [reflexivity|].
  unfold exec.
  destruct (loadDefault w _) as [[[e|]|] g2]; [reflexivity| |reflexivity]. cbn [fst snd].
  destruct (ConfigDefaultSave (snd (loadRuntime w g2))); [|reflexivity].
  destruct (Save w _ _) as [[e|] g4]; reflexivity.
Qed.

Lemma LoadConfig_nil_without_save (w : World) (g : Globals) :
  let g1 := add_event (EvLogln LVL_D "loading config...")
              (add_event (EvLogln LVL_D "checking OS support...") g) in
  opsys_OsSupported w = None ->
  fst (loadDefault w g1) = Returns None ->
  ConfigDefaultSave (exec (loadRuntime w) (exec (loadDefault w) g1)) = false ->
  fst (LoadConfig w g) = Returns None.
Proof.
  cbv zeta. intros HO HL HS. rewrite LoadConfig_run. cbv zeta. rewrite HO.
  unfold exec at 2 in HS.
  destruct (loadDefault w _) as [r g2]. cbn [fst snd] in *. subst r.
  rewrite HS. reflexivity.
Qed.

(** C7: the dirty flag is raised only by the identity derivation giving a
    new identity, by the probe giving a new version or protocol, and by the
    promotion of the runtime identity: a loadDefault that succeeds leaves
    the flag it found or-ed with the first two conditions, one that fails
    or panics leaves it as found, and loadRuntime leaves it or-ed with the
    third,
    whatever the server, eula, start command, java, proxy and icon checks
    answer.  LoadConfig calls Save exactly when both loads succeeded and
    the flag is then set: otherwise it ends in the state the loads left,
    and a run writes no file unless the flag is set after a successful
    load.  (When the config file holds the JSON literal null, loadDefault
    has no decoded configuration: if it returns at all, it leaves the
    default configuration and the flag as found, and only the promotion can
    raise the flag.) *)
Theorem C7_dirty_flag_and_save (w : World) (g : Globals) :
  (forall mshPath configData c',
      os_Executable_config w = Ok mshPath ->
      files g !! os_resolve w (filepath_Join w (filepath_Dir w mshPath) configFileName)
      = Some configData ->
      json_Unmarshal w configData (ConfigDefault g) = (Decoded c', None) ->
      ConfigDefaultSave (exec (loadDefault w) g)
      = ConfigDefaultSave g || derives_new_id w c'
        || probe_changes w (withDerivedID w c'))
  /\ (fst (loadDefault w g) <> Returns None ->
      ConfigDefaultSave (exec (loadDefault w) g) = ConfigDefaultSave g)
  /\ ConfigDefaultSave (exec (loadRuntime w) g)
     = ConfigDefaultSave g || promotes w (ConfigDefault g)
  /\ (let g1 := add_event (EvLogln LVL_D "loading config...")
                  (add_event (EvLogln LVL_D "checking OS support...") g) in
      let g3 := exec (loadRuntime w) (exec (loadDefault w) g1) in
      let g' := exec (LoadConfig w) g in
      (opsys_OsSupported w = None -> fst (loadDefault w g1) = Returns None ->
         ConfigDefaultSave g3 = true ->
         g' = exec (Save w (ConfigDefault g3)) g3)
      /\ (opsys_OsSupported w = None -> fst (loadDefault w g1) = Returns None ->
            ConfigDefaultSave g3 = false ->
            g' = g3 /\ fst (LoadConfig w g) = Returns None)
      /\ (filter is_WriteFile (new_events g g') <> [] ->
            opsys_OsSupported w = None
            /\ fst (loadDefault w g1) = Returns None
            /\ ConfigDefaultSave g3 = true)
      /\ (ConfigDefaultSave g = false -> ConfigDefaultSave g' = true ->
            (exists c',
               ConfigDefault (exec (loadDefault w) g1) = withProbed w (withDerivedID w c')
               /\ (derives_new_id w c' = true
                   \/ probe_changes w (withDerivedID w c') = true
                   \/ promotes w (withProbed w (withDerivedID w c')) = true))
            \/ (ConfigDefault (exec (loadDefault w) g1) = ConfigDefault g
                /\ ConfigDefaultSave (exec (loadDefault w) g1) = false
                /\ promotes w (ConfigDefault g) = true))).
Proof.
  split_all.
  - intros mshPath configData c' H1 H2 H3.
    apply (loadDefault_success w g mshPath configData c' H1 H2 H3).
  - apply loadDefault_failure.
  - apply (loadRuntime_dirty w g).
  - intros g1 g3 g'.
    pose proof (LoadConfig_exec w g) as LE. cbv zeta in LE.
    fold g1 in LE. fold g3 in LE. fold g' in LE.
    assert (N1 : adds_no_write g g1) by (subst g1; no_write).
    pose proof (loadDefault_no_write w g1) as N2.
    pose proof (loadRuntime_no_write w (exec (loadDefault w) g1)) as N3.
    fold g3 in N3.
    split_all.
    + intros HO HL HS. rewrite LE, HO, HL, HS. reflexivity.
    + intros HO HL HS. split.
      * rewrite LE, HO, HL, HS. reflexivity.
      * apply LoadConfig_nil_without_save; assumption.
    + intros HW.
      destruct (opsys_OsSupported w) as [e|] eqn:HO.
      { exfalso. apply HW, adds_no_write_new_events. rewrite LE. no_write. }
      destruct (fst (loadDefault w g1)) as [[e|]|] eqn:HL.
      1,3: exfalso; apply HW, adds_no_write_new_events; rewrite LE;
        eapply adds_no_write_trans; eassumption.
      destruct (ConfigDefaultSave g3) eqn:HS; [auto|].
      exfalso. apply HW, adds_no_write_new_events. rewrite LE.
      eapply adds_no_write_trans; [eassumption|].
      eapply adds_no_write_trans; eassumption.
    + intros H0 HT.
      assert (F1 : ConfigDefaultSave g1 = false) by exact H0.
      destruct (opsys_OsSupported w) as [e|] eqn:HO.
      { rewrite LE in HT. cbn in HT. congruence. }
      destruct (fst (loadDefault w g1)) as [[e|]|] eqn:HL.
      1,3: rewrite LE in HT; rewrite loadDefault_failure in HT by congruence;
        congruence.
      assert (HS : ConfigDefaultSave g3 = true).
      { destruct (ConfigDefaultSave g3) eqn:HS; [reflexivity|].
        rewrite LE in HT. congruence. }
      pose proof (loadDefault_run w g1) as LR.
      destruct (os_Executable_config w) as [mshPath|e] eqn:HE.
      2:{ rewrite LR in HL. discriminate HL. }
      cbv zeta in LR.
      destruct (files g1 !! os_resolve w
                  (filepath_Join w (filepath_Dir w mshPath) configFileName))
        as [data|] eqn:HF.
      2:{ rewrite LR in HL. discriminate HL. }
      destruct (json_Unmarshal w data (ConfigDefault g1)) as [[c'|] [e|]] eqn:HU.
      { rewrite LR in HL. discriminate HL. }
      2:{ rewrite LR in HL. discriminate HL. }
      * left.
        destruct (loadDefault_success w g1 mshPath data c' HE HF HU) as (_ & L2 & L3).
        exists c'. split; [exact L2|].
        rewrite F1 in L3. cbn [orb] in L3.
        destruct (loadRuntime_dirty w (exec (loadDefault w) g1)) as (RS & _).
        cbv zeta in RS. fold g3 in RS. rewrite L2, L3, HS in RS. symmetry in RS.
        apply orb_true_iff in RS as [RS|RS]; [|auto].
        apply orb_true_iff in RS as [RS|RS]; auto.
      * right.
        destruct (loadDefault_nil_frame w
                    (add_event
                       (EvReadFile
                          (filepath_Join w (filepath_Dir w mshPath) configFileName))
                       g1)) as (K1 & K2 & _).
        assert (L2 : ConfigDefault (exec (loadDefault w) g1) = ConfigDefault g).
        { unfold exec at 1. rewrite LR. exact K1. }
        assert (L3 : ConfigDefaultSave (exec (loadDefault w) g1) = false).
        { unfold exec at 1. rewrite LR, <- H0. exact K2. }
        split; [exact L2|]. split; [exact L3|].
        destruct (loadRuntime_dirty w (exec (loadDefault w) g1)) as (RS & _).
        cbv zeta in RS. fold g3 in RS. rewrite L2, L3, HS in RS.
        symmetry. exact RS.
Qed.

(** ** Runs on concrete inputs *)

Example ToLower_mixed_case : strings_ToLower "EULA = True" = "eula = true".
Proof. reflexivity. Qed.

Example ReplaceAll_every_occurrence :
  strings_ReplaceAll "a<x>b<x><x>c" "<x>" "12" = "a12b1212c".
Proof. reflexivity. Qed.

Example ReplaceAll_no_overlap : strings_ReplaceAll "aaaaa" "aa" "b" = "bba".
Proof. reflexivity. Qed.

Example Split_on_spaces :
  strings_Split "java -jar  server.jar" " " = ["java"; "-jar"; ""; "server.jar"].
Proof. reflexivity. Qed.

Example Split_of_empty : strings_Split "" " " = [""].
Proof. reflexivity. Qed.

Example eulaAccepted_real_file :
  eulaAccepted ("#By changing the setting below to TRUE you agree" ++ LF ++ "eula=TRUE" ++ LF)
  = true.
Proof. reflexivity. Qed.

(** only the space character is stripped *)
Example eulaAccepted_tab : eulaAccepted ("eula" ++ String "009"%char "=true") = false.
Proof. reflexivity. Qed.

(** FIPS 180 test vectors *)
Example sha1_hex_abc : sha1_hex "abc" = "a9993e364706816aba3e25717850c26c9cd0d89d".
Proof. vm_compute. reflexivity. Qed.

Example sha1_hex_empty : sha1_hex "" = "da39a3ee5e6b4b0d3255bfef95601890afd80709".
Proof. vm_compute. reflexivity. Qed.

Example sha1_hex_two_blocks :
  sha1_hex "abcdbcdecdefdefgefghfghighijhijkijkljklmklmnlmnomnopnopq"
  = "84983e441c3bd26ebaae4aa1f95129e5e54670f1".
Proof. vm_compute. reflexivity. Qed.

(** the identity of the sample machine, and a whole bootstrap on it: the
    identity is derived, the start command writes eula.txt, the status is
    "not accepted", and the configuration is saved *)
Example sample_id_derived : sha1_hex ("3b1f5a" ++ "/opt/msh") = sample_id.
Proof. vm_compute. reflexivity. Qed.

Example LoadConfig_first_start :
  let g := exec (LoadConfig accepting_world) (Globals_init disk_config) in
  ID (Msh (ConfigDefault g)) = sample_id
  /\ ConfigDefaultSave g = true
  /\ StartServer (Commands (ConfigRuntime g))
     = "java -Xmx1024M -Xms1024M -jar server.jar nogui"
  /\ Javav g = "openjdk 16.0.1 2021-04-20"
  /\ servstats_Stats_Error g = Some status_eula_not_accepted
  /\ files g !! "/srv/mc/eula.txt" = Some "eula=true"
  /\ files g !! "/opt/msh/msh-config.json" = Some (sample_document sample_id)
  /\ fst (LoadConfig accepting_world (Globals_init disk_config)) = Returns None.
Proof. vm_compute. repeat split. Qed.

(** promotion of a 40-byte identity given on the command line *)
Example reconcile_promotes_forty_Z :
  let g := exec reconcileMshID
             (sample_globals sample_config (set_MshID forty_Z sample_config) ∅) in
  ID (Msh (ConfigDefault g)) = forty_Z /\ ConfigDefaultSave g = true.
Proof. vm_compute. split; reflexivity. Qed.

(** * Further properties of [config.go] *)

(** ** The steps of [loadRuntime], field by field *)

Lemma checkEula_exec (w : World) (g : Globals) :
  exec (checkEula w) g =
  let path := eulaPathOf w g in
  let g1 := add_event (EvReadFile path) g in
  match files g !! os_resolve w path with
  | Some data =>
      if eulaAccepted data
      then add_event (EvLogln LVL_B "eula.txt exist and is set to true...") g1
      else add_event (log_eula_not_accepted path)
             (set_Stats_Error status_eula_not_accepted g1)
  | None =>
      let cSplit := strings_Split (StartServer (Commands (ConfigRuntime g))) " " in
      let r := cmd_Run w (hd EmptyString cSplit) (tl cSplit)
                 (Folder (Server (ConfigRuntime g))) (files g) in
      let g2 :=
        add_event (EvPrint COLOR_RESET)
          (set_files (fst r)
             (add_event (startCommandOf g)
                (add_event (EvPrint COLOR_CYAN)
                   (add_event
                      (EvLogln LVL_D
                         "starting minecraft server to generate eula.txt file...")
                      (add_event (log_eula_unreadable path) g1))))) in
      let g3 := match snd r with
                | Some e => add_event (log_start_failed e)
                              (set_Stats_Error status_start_failed g2)
                | None => g2
                end in
      add_event (log_eula_not_accepted path)
        (set_Stats_Error status_eula_not_accepted g3)
  end.
Proof.
  unfold eulaPathOf, startCommandOf.
  unfold checkEula, ioutil_ReadFile, exec_Run, eulaNotAccepted. mrun. fields.
  destruct (files g !! os_resolve w _) as [data|]; fields.
  - destruct (eulaAccepted data); reflexivity.
  - destruct (cmd_Run w _ _ _ (files g)) as [fs' [e|]]; reflexivity.
Qed.

Lemma reconcileMshID_frame (g : Globals) :
  let g' := exec reconcileMshID g in
  ConfigRuntime g' = ConfigRuntime g
  /\ servstats_Stats_Error g' = servstats_Stats_Error g
  /\ files g' = files g
  /\ Javav g' = Javav g
  /\ errco_DebugLvl g' = errco_DebugLvl g
  /\ adds_filtered is_Run [] g g'
  /\ adds_filtered is_JavaCheck [] g g'.
Proof.
  cbv zeta. rewrite reconcileMshID_exec.
  destruct (negb _); [destruct (Nat.eqb _ _)|]; split_all; try reflexivity;
    (eexists; split; [trace_norm; reflexivity | reflexivity])
    || (exists []; split; [symmetry; apply app_nil_r | reflexivity]).
Qed.

(** the state [loadRuntime] is in before its checks *)
Lemma beforeChecks (w : World) (g : Globals) :
  let g1 := exec reconcileMshID (afterOverlay w g) in
  ConfigRuntime g1 = runtimeOf w (ConfigDefault g)
  /\ servstats_Stats_Error g1 = servstats_Stats_Error g
  /\ files g1 = files g
  /\ Javav g1 = Javav g
  /\ errco_DebugLvl g1 = Debug (Msh (runtimeOf w (ConfigDefault g)))
  /\ adds_filtered is_Run [] g g1
  /\ adds_filtered is_JavaCheck [] g g1.
Proof.
  cbv zeta.
  destruct (reconcileMshID_frame (afterOverlay w g)) as (R & S & F & J & D & T & TJ).
  cbv zeta in *. rewrite R, S, F, J, D. split_all; try reflexivity.
  - destruct T as (evs & T & FT).
    exists (EvLogln LVL_A "setting log level to: %d" :: evs). split.
    + rewrite T. unfold afterOverlay. trace_norm. reflexivity.
    + cbn. exact FT.
  - destruct TJ as (evs & T' & FT).
    exists (EvLogln LVL_A "setting log level to: %d" :: evs). split.
    + rewrite T'. unfold afterOverlay. trace_norm. reflexivity.
    + cbn. exact FT.
Qed.

(** the server and eula checks (lines 226-273) *)
Lemma checkServer_fields (w : World) (g : Globals) :
  let missing := os_Stat_IsNotExist w (serverPathOf w (ConfigRuntime g)) in
  let unreadable := match files g !! os_resolve w (eulaPathOf w g) with
                    | Some _ => false
                    | None => true
                    end in
  let cSplit := strings_Split (StartServer (Commands (ConfigRuntime g))) " " in
  let r := cmd_Run w (hd EmptyString cSplit) (tl cSplit)
             (Folder (Server (ConfigRuntime g))) (files g) in
  let g' := exec (checkServer w) g in
  servstats_Stats_Error g'
  = (if missing then Some status_server_missing
     else match files g !! os_resolve w (eulaPathOf w g) with
          | Some data => if eulaAccepted data then servstats_Stats_Error g
                         else Some status_eula_not_accepted
          | None => Some status_eula_not_accepted
          end)
  /\ files g' = (if negb missing && unreadable then fst r else files g)
  /\ Javav g' = Javav g
  /\ errco_DebugLvl g' = errco_DebugLvl g
  /\ adds_filtered is_Run
       (if negb missing && unreadable then [startCommandOf g] else []) g g'
  /\ adds_filtered is_JavaCheck [] g g'.
Proof.
  cbv zeta. rewrite checkServer_exec. cbv zeta.
  destruct (os_Stat_IsNotExist w _); cbn [negb andb].
  - split_all; try reflexivity;
      (eexists; split; [trace_norm; reflexivity | reflexivity]).
  - rewrite checkEula_exec. cbv zeta.
    change (eulaPathOf w (add_event (EvStat (serverPathOf w (ConfigRuntime g))) g))
      with (eulaPathOf w g).
    fields.
    change (startCommandOf (add_event (EvStat (serverPathOf w (ConfigRuntime g))) g))
      with (startCommandOf g).
    destruct (files g !! os_resolve w (eulaPathOf w g)) as [data|].
    + destruct (eulaAccepted data); split_all; try reflexivity;
        (eexists; split; [trace_norm; reflexivity | reflexivity]).
    + destruct (cmd_Run w _ _ _ (files g)) as [fs' [e|]]; cbn [fst snd];
        split_all; try reflexivity;
        (eexists; split; [trace_norm; reflexivity | reflexivity]).
Qed.

(** the java check and the proxy and icon setup (lines 275-301) *)
Lemma afterChecks (w : World) (g : Globals) :
  let g' := exec (setupProxyIcon w) (exec (checkJava w) g) in
  servstats_Stats_Error g'
  = match loadIpPorts w (ConfigRuntime g) with
    | Some _ => Some status_proxy_failed
    | None => if exec_LookPath w "java" then servstats_Stats_Error g
              else Some status_java_missing
    end
  /\ files g' = files g
  /\ errco_DebugLvl g' = errco_DebugLvl g
  /\ Javav g'
     = (if exec_LookPath w "java" then
          match cmd_Output w "java" ["--version"] with
          | Err _ => "unknown"
          | Ok out =>
              strings_ReplaceAll (hd EmptyString (strings_Split out LF)) CR ""
          end
        else Javav g)
  /\ adds_filtered is_Run [] g g'
  /\ adds_filtered is_JavaCheck
       (EvLookPath "java"
        :: if exec_LookPath w "java" then [EvOutput "java" ["--version"]] else [])
       g g'.
Proof.
  cbv zeta. rewrite setupProxyIcon_exec, checkJava_exec. cbv zeta.
  destruct (exec_LookPath w "java");
    [destruct (cmd_Output w "java" ["--version"])|];
    fields;
    destruct (loadIpPorts w (ConfigRuntime g));
    destruct (loadIcon w (ConfigRuntime g));
    split_all; try reflexivity;
    (eexists; split; [trace_norm; reflexivity | reflexivity]).
Qed.

Lemma adds_filtered_trans (P : Event -> bool) (l1 l2 : list Event)
    (g1 g2 g3 : Globals) :
  adds_filtered P l1 g1 g2 -> adds_filtered P l2 g2 g3 ->
  adds_filtered P (l1 ++ l2) g1 g3.
Proof.
  intros (e1 & T1 & F1) (e2 & T2 & F2). exists (e1 ++ e2). split.
  - rewrite T2, T1, app_assoc. reflexivity.
  - rewrite filter_app, F1, F2. reflexivity.
Qed.

Lemma adds_filtered_new_events (P : Event -> bool) (l : list Event)
    (g g' : Globals) :
  adds_filtered P l g g' -> filter P (new_events g g') = l.
Proof. intros (evs & T & F). rewrite (new_events_app _ _ _ T). exact F. Qed.

(** ** What [loadRuntime] leaves behind *)

(** X1: the status loadRuntime leaves in servstats.Stats.Error is the one
    of the last check that failed: a failed proxy setup hides a missing
    java, a missing java hides the server and eula status, and with none of
    them failing the status is the one found.  The status written when the
    start command cannot be launched is overwritten by the fallthrough
    before loadRuntime returns, so it is never the one left. *)
Theorem X1_status_is_last_failed_check (w : World) (g : Globals) :
  let c := runtimeOf w (ConfigDefault g) in
  let g' := exec (loadRuntime w) g in
  servstats_Stats_Error g'
  = match loadIpPorts w c with
    | Some _ => Some status_proxy_failed
    | None =>
        if exec_LookPath w "java" then
          if os_Stat_IsNotExist w (serverPathOf w c)
          then Some status_server_missing
          else match files g !! os_resolve w (filepath_Join w (Folder (Server c)) "eula.txt") with
               | Some data => if eulaAccepted data then servstats_Stats_Error g
                              else Some status_eula_not_accepted
               | None => Some status_eula_not_accepted
               end
        else Some status_java_missing
    end
  /\ (servstats_Stats_Error g <> Some status_start_failed ->
      servstats_Stats_Error g' <> Some status_start_failed).
Proof.
  intros c g'.
  assert (E : servstats_Stats_Error g'
              = match loadIpPorts w c with
                | Some _ => Some status_proxy_failed
                | None =>
                    if exec_LookPath w "java" then
                      if os_Stat_IsNotExist w (serverPathOf w c)
                      then Some status_server_missing
                      else match files g !! os_resolve w
                                   (filepath_Join w (Folder (Server c)) "eula.txt") with
                           | Some data =>
                               if eulaAccepted data then servstats_Stats_Error g
                               else Some status_eula_not_accepted
                           | None => Some status_eula_not_accepted
                           end
                    else Some status_java_missing
                end).
  { subst g'. rewrite loadRuntime_exec.
    set (g1 := exec reconcileMshID (afterOverlay w g)).
    destruct (beforeChecks w g) as (R & S & F & _). cbv zeta in R, S, F. fold g1 in R, S, F.
    destruct (afterChecks w (exec (checkServer w) g1)) as (A & _). cbv zeta in A.
    destruct (checkServer_frame w g1) as (_ & CR & _). cbv zeta in CR.
    destruct (checkServer_fields w g1) as (CS & _). cbv zeta in CS.
    rewrite A, CR, R, CS. unfold eulaPathOf. rewrite R, F, S. reflexivity. }
  split; [exact E|].
  intros H. rewrite E.
  destruct (loadIpPorts w c); [discriminate|].
  destruct (exec_LookPath w "java"); [|discriminate].
  destruct (os_Stat_IsNotExist w _); [discriminate|].
  destruct (files g !! _) as [data|]; [|discriminate].
  destruct (eulaAccepted data); [exact H | discriminate].
Qed.

(** X2: loadRuntime launches the start command exactly when the server
    file exists and eula.txt cannot be read, and then once, with the
    command split from the runtime start command and the server folder as
    working directory; the disk after loadRuntime is what that command
    left, and is untouched when it does not run. *)
Theorem X2_start_command_runs_iff_eula_unreadable (w : World) (g : Globals) :
  let g' := exec (loadRuntime w) g in
  filter is_Run (new_events g g')
  = (if launches w g then [startCommandOf (afterOverlay w g)] else [])
  /\ files g' = (if launches w g then fst (launchOf w g) else files g).
Proof.
  cbv zeta. rewrite loadRuntime_exec.
  set (g1 := exec reconcileMshID (afterOverlay w g)).
  destruct (beforeChecks w g) as (R & _ & F & _ & _ & T1 & _).
  cbv zeta in R, F, T1. fold g1 in R, F, T1.
  destruct (checkServer_fields w g1) as (_ & CF & _ & _ & T2 & _). cbv zeta in CF, T2.
  destruct (afterChecks w (exec (checkServer w) g1)) as (_ & AF & _ & _ & T3 & _).
  cbv zeta in AF, T3.
  assert (L : negb (os_Stat_IsNotExist w (serverPathOf w (ConfigRuntime g1)))
              && match files g1 !! os_resolve w (eulaPathOf w g1) with
                 | Some _ => false
                 | None => true
                 end = launches w g).
  { unfold launches, eulaPathOf. rewrite R, F. reflexivity. }
  rewrite L in CF, T2.
  assert (C : startCommandOf g1 = startCommandOf (afterOverlay w g)).
  { unfold startCommandOf. rewrite R. reflexivity. }
  rewrite C in T2.
  split.
  - apply adds_filtered_new_events.
    pose proof (adds_filtered_trans _ _ _ _ _ _ T1
                  (adds_filtered_trans _ _ _ _ _ _ T2 T3)) as T.
    cbn [app] in T. rewrite app_nil_r in T. exact T.
  - rewrite AF, CF. unfold launchOf. rewrite R, F. reflexivity.
Qed.

(** ** More on strings *)

Lemma string_app_nil_r (s : string) : (s ++ EmptyString)%string = s.
Proof.
  induction s as [|a s IH]; [reflexivity|].
  rewrite string_app_cons, IH. reflexivity.
Qed.

Lemma HasPrefix_app_mono (s x p : string) :
  strings_HasPrefix s p = true -> strings_HasPrefix (s ++ x) p = true.
Proof.
  revert s. induction p as [|a p IH]; intros s H; [apply HasPrefix_nil|].
  destruct s as [|b s]; [discriminate H|].
  rewrite string_app_cons. cbn [strings_HasPrefix] in *.
  destruct (Ascii.eqb b a); [apply IH, H | discriminate H].
Qed.

(** an occurrence stays one when text is added after or before *)
Lemma Contains_app_l (s x sub : string) :
  strings_Contains s sub = true -> strings_Contains (s ++ x) sub = true.
Proof.
  induction s as [|a s IH]; intros H.
  - cbn [strings_Contains] in H. rewrite orb_false_r in H.
    rewrite string_app_nil.
    destruct sub; [|discriminate H].
    destruct x; reflexivity.
  - rewrite string_app_cons.
    cbn [strings_Contains] in *. apply orb_true_iff in H as [H|H].
    + rewrite <- string_app_cons, (HasPrefix_app_mono _ _ _ H). reflexivity.
    + rewrite (IH H). apply orb_true_r.
Qed.

Lemma Contains_app_r (x s sub : string) :
  strings_Contains s sub = true -> strings_Contains (x ++ s) sub = true.
Proof.
  intros H. induction x as [|a x IH]; [exact H|].
  rewrite string_app_cons. cbn [strings_Contains]. rewrite IH. apply orb_true_r.
Qed.

Lemma Contains_app_absent_l (s x sub : string) :
  strings_Contains (s ++ x) sub = false -> strings_Contains s sub = false.
Proof.
  intros H. destruct (strings_Contains s sub) eqn:E; [|reflexivity].
  rewrite (Contains_app_l _ x _ E) in H. discriminate H.
Qed.

(** no piece of [pieces_ok] holds the separator *)
Lemma pieces_ok_absent (sep : string) (ps : list string) :
  pieces_ok sep ps = true ->
  Forall (fun p => strings_Contains p sep = false) ps.
Proof.
  induction ps as [|p ps IH]; intros H; [constructor|].
  destruct ps as [|q qs].
  - cbn in H. apply negb_true_iff in H. repeat constructor. exact H.
  - rewrite pieces_ok_cons in H. apply andb_true_iff in H as [H1 H2].
    constructor; [|apply IH, H2].
    unfold clean_piece in H1. apply negb_true_iff in H1.
    apply (Contains_app_absent_l _ _ _ H1).
Qed.

Lemma splitFrom_absent (sep p : string) :
  strings_Contains p sep = false -> splitFrom 0 sep p = [p].
Proof.
  induction p as [|a p IH]; intros H; [reflexivity|].
  cbn [strings_Contains] in H. apply orb_false_iff in H as [H1 H2].
  cbn [splitFrom]. rewrite H1, (IH H2). reflexivity.
Qed.

(** the piece in front of the first separator *)
Lemma splitFrom_first (sep p rest : string) :
  sep <> EmptyString ->
  clean_piece sep p = true ->
  splitFrom 0 sep (p ++ sep ++ rest) = p :: splitFrom 0 sep rest.
Proof.
  intros Hne. unfold clean_piece. rewrite negb_true_iff.
  destruct (str_init_last sep Hne) as (l & Esep & Llen).
  induction p as [|a p IH]; intros H.
  - rewrite !string_app_nil. apply splitFrom_hit, Hne.
  - change (String a p ++ str_init sep)%string with (String a (p ++ str_init sep)) in H.
    cbn [strings_Contains] in H. apply orb_false_iff in H as [H1 H2].
    change (String a p ++ sep ++ rest)%string with (String a (p ++ sep ++ rest)).
    cbn [splitFrom].
    assert (Hp : strings_HasPrefix (String a (p ++ sep ++ rest)) sep = false).
    { rewrite <- H1.
      change (String a (p ++ sep ++ rest)) with (String a p ++ (sep ++ rest))%string.
      change (String a (p ++ str_init sep)) with (String a p ++ str_init sep)%string.
      rewrite Esep at 1.
      rewrite (string_app_assoc (str_init sep)).
      rewrite <- (string_app_assoc (String a p) (str_init sep)).
      apply HasPrefix_app_long.
      rewrite string_app_length. cbn [String.length]. lia. }
    rewrite Hp, (IH H2). reflexivity.
Qed.

(** removing one byte value: [strings.ReplaceAll s c ""] for a pattern
    of one byte *)
Lemma strip_cons (c a : ascii) (s : string) :
  replaceFrom 0 (String c EmptyString) EmptyString (String a s)
  = if Ascii.eqb a c then replaceFrom 0 (String c EmptyString) EmptyString s
    else String a (replaceFrom 0 (String c EmptyString) EmptyString s).
Proof.
  cbn [replaceFrom strings_HasPrefix String.length Nat.sub].
  rewrite HasPrefix_nil. destruct (Ascii.eqb a c); [apply string_app_nil|reflexivity].
Qed.

Lemma Contains_char_cons (d a : ascii) (s : string) :
  strings_Contains (String a s) (String d EmptyString)
  = Ascii.eqb a d || strings_Contains s (String d EmptyString).
Proof.
  cbn [strings_Contains strings_HasPrefix]. rewrite HasPrefix_nil.
  destruct (Ascii.eqb a d); reflexivity.
Qed.

Lemma strip_Contains (c d : ascii) (s : string) :
  strings_Contains (replaceFrom 0 (String c EmptyString) EmptyString s)
    (String d EmptyString)
  = if Ascii.eqb d c then false else strings_Contains s (String d EmptyString).
Proof.
  induction s as [|a s IH].
  - destruct (Ascii.eqb d c); reflexivity.
  - rewrite strip_cons, Contains_char_cons.
    destruct (Ascii.eqb_spec a c) as [Eac|Nac].
    + rewrite IH. subst a.
      destruct (Ascii.eqb_spec d c) as [Edc|Ndc]; [reflexivity|].
      rewrite (proj2 (Ascii.eqb_neq c d)) by congruence. reflexivity.
    + rewrite Contains_char_cons, IH.
      destruct (Ascii.eqb_spec d c) as [Edc|Ndc]; [|reflexivity].
      subst d. rewrite (proj2 (Ascii.eqb_neq a c) Nac). reflexivity.
Qed.

Lemma strip_app (c : ascii) (a b : string) :
  replaceFrom 0 (String c EmptyString) EmptyString (a ++ b)
  = (replaceFrom 0 (String c EmptyString) EmptyString a
     ++ replaceFrom 0 (String c EmptyString) EmptyString b)%string.
Proof.
  induction a as [|x a IH]; [reflexivity|].
  rewrite string_app_cons, !strip_cons.
  destruct (Ascii.eqb x c); [exact IH|].
  rewrite string_app_cons, IH. reflexivity.
Qed.

Lemma strip_length (c : ascii) (s : string) :
  (String.length (replaceFrom 0 (String c EmptyString) EmptyString s)
   <= String.length s)%nat.
Proof.
  induction s as [|a s IH]; [reflexivity|].
  rewrite strip_cons. destruct (Ascii.eqb a c); cbn [String.length]; lia.
Qed.

Lemma ToLower_app (a b : string) :
  strings_ToLower (a ++ b) = (strings_ToLower a ++ strings_ToLower b)%string.
Proof.
  induction a as [|x a IH]; [reflexivity|].
  rewrite string_app_cons. cbn [strings_ToLower].
  rewrite string_app_cons, IH. reflexivity.
Qed.

Lemma ToLower_length (s : string) :
  String.length (strings_ToLower s) = String.length s.
Proof. induction s as [|a s IH]; [reflexivity|]. cbn. rewrite IH. reflexivity. Qed.

Lemma Contains_char_app (d : ascii) (a b : string) :
  strings_Contains (a ++ b) (String d EmptyString)
  = strings_Contains a (String d EmptyString)
    || strings_Contains b (String d EmptyString).
Proof.
  induction a as [|x a IH].
  - rewrite string_app_nil. reflexivity.
  - rewrite string_app_cons, !Contains_char_cons, IH. apply orb_assoc.
Qed.

Lemma Split_hd_absent (s sep : string) :
  sep <> EmptyString ->
  strings_Contains (hd EmptyString (strings_Split s sep)) sep = false.
Proof.
  intros Hne. destruct (Split_pieces_ok s sep Hne) as (P & _).
  apply pieces_ok_absent in P.
  destruct (strings_Split s sep) as [|p ps].
  - cbn [hd strings_Contains]. rewrite HasPrefix_short; [reflexivity|].
    destruct sep; [congruence | cbn; lia].
  - inversion P; subst. assumption.
Qed.

(** ** The java version *)

Lemma loadRuntime_Javav (w : World) (g : Globals) :
  Javav (exec (loadRuntime w) g)
  = (if exec_LookPath w "java" then
       match cmd_Output w "java" ["--version"] with
       | Err _ => "unknown"
       | Ok out => strings_ReplaceAll (hd EmptyString (strings_Split out LF)) CR ""
       end
     else Javav g).
Proof.
  rewrite loadRuntime_exec.
  set (g1 := exec reconcileMshID (afterOverlay w g)).
  destruct (beforeChecks w g) as (_ & _ & _ & J & _). cbv zeta in J. fold g1 in J.
  destruct (checkServer_fields w g1) as (_ & _ & CJ & _). cbv zeta in CJ.
  destruct (afterChecks w (exec (checkServer w) g1)) as (_ & _ & _ & AJ & _).
  cbv zeta in AJ. rewrite AJ, CJ, J. reflexivity.
Qed.

(** X3: when java is found and answers java --version, the version
    loadRuntime stores in Javav holds neither a line feed nor a carriage
    return, and it is the first line of the output: for an output that
    starts with a line free of both, and stops there or goes on after a
    line feed or a carriage return and line feed, Javav is that line. *)
Theorem X3_java_version_is_first_line (w : World) (g : Globals) (out : string) :
  exec_LookPath w "java" = true ->
  cmd_Output w "java" ["--version"] = Ok out ->
  let v := Javav (exec (loadRuntime w) g) in
  strings_Contains v LF = false
  /\ strings_Contains v CR = false
  /\ (forall line rest : string,
        strings_Contains line LF = false ->
        strings_Contains line CR = false ->
        out = line \/ out = (line ++ LF ++ rest)%string
        \/ out = (line ++ CR ++ LF ++ rest)%string ->
        v = line).
Proof.
  intros HL HO. cbv zeta. rewrite loadRuntime_Javav, HL, HO.
  assert (NL : LF <> EmptyString) by discriminate.
  change (strings_ReplaceAll (hd EmptyString (strings_Split out LF)) CR "")
    with (replaceFrom 0 CR "" (hd EmptyString (strings_Split out LF))).
  assert (S : strings_Split out LF = splitFrom 0 LF out) by reflexivity.
  split_all.
  - unfold CR, LF. rewrite strip_Contains. cbn [Ascii.eqb Bool.eqb].
    apply (Split_hd_absent out LF NL).
  - unfold CR. rewrite strip_Contains, Ascii.eqb_refl. reflexivity.
  - intros line rest H1 H2 [E|[E|E]]; subst out; rewrite S.
    + rewrite (splitFrom_absent _ _ H1). cbn [hd].
      apply replaceFrom_absent, H2.
    + rewrite splitFrom_first; [| exact NL |].
      * cbn [hd]. apply replaceFrom_absent, H2.
      * unfold clean_piece. change (str_init LF) with EmptyString.
        rewrite string_app_nil_r, H1. reflexivity.
    + rewrite <- (string_app_assoc line CR).
      rewrite splitFrom_first; [| exact NL |].
      * cbn [hd]. unfold CR in *.
        rewrite strip_app, (replaceFrom_absent _ _ line H2).
        apply string_app_nil_r.
      * unfold clean_piece. change (str_init LF) with EmptyString.
        rewrite string_app_nil_r. unfold LF at 1. rewrite Contains_char_app.
        fold LF. rewrite H1. reflexivity.
Qed.

Lemma X3_witness_openjdk :
  exec_LookPath plain_world "java" = true
  /\ cmd_Output plain_world "java" ["--version"]
     = Ok ("openjdk 16.0.1 2021-04-20" ++ CR ++ LF ++ "OpenJDK Runtime")%string
  /\ Javav (exec (loadRuntime plain_world) (ready_globals ∅))
     = "openjdk 16.0.1 2021-04-20".
Proof.
  assert (H1 : exec_LookPath plain_world "java" = true) by reflexivity.
  assert (H2 : cmd_Output plain_world "java" ["--version"]
               = Ok ("openjdk 16.0.1 2021-04-20" ++ CR ++ LF ++ "OpenJDK Runtime")%string)
    by reflexivity.
  pose proof (X3_java_version_is_first_line plain_world (ready_globals ∅) _ H1 H2) as P.
  cbv zeta in P. destruct P as (_ & _ & P).
  split; [exact H1|]. split; [exact H2|].
  apply (P "openjdk 16.0.1 2021-04-20" "OpenJDK Runtime"); [reflexivity..|].
  right. right. reflexivity.
Defined.

(** ** The start command *)

(** X4: the command loadRuntime launches is the runtime start command cut
    at its spaces: the cut always gives a first piece (cSplit[0] cannot be
    out of range, an empty start command gives the empty name), the name
    and the arguments joined by single spaces give the start command back,
    and none of them holds a space. *)
Theorem X4_start_command_is_split_at_spaces (g : Globals) :
  let tmpl := StartServer (Commands (ConfigRuntime g)) in
  exists (name : string) (args : list string),
    strings_Split tmpl " " = name :: args
    /\ startCommandOf g = EvRun name args (Folder (Server (ConfigRuntime g)))
    /\ strings_Join (name :: args) " " = tmpl
    /\ Forall (fun p => strings_Contains p " " = false) (name :: args).
Proof.
  cbv zeta.
  assert (Hne : " " <> EmptyString) by discriminate.
  destruct (Split_pieces " " Hne _ (StartServer (Commands (ConfigRuntime g))) (le_n _))
    as (N & P & J).
  assert (S : strings_Split (StartServer (Commands (ConfigRuntime g))) " "
              = splitFrom 0 " " (StartServer (Commands (ConfigRuntime g))))
    by reflexivity.
  unfold startCommandOf. rewrite S.
  destruct (splitFrom 0 " " (StartServer (Commands (ConfigRuntime g)))) as [|name args];
    [congruence|].
  exists name, args. split_all; try reflexivity.
  - exact J.
  - apply pieces_ok_absent, P.
Qed.

(** ** The eula text *)

(** a byte that does not occur in [sub] cuts a text in two: [sub] occurs
    in the whole exactly when it occurs on one side *)
Lemma HasPrefix_cut (c : ascii) (sub x y : string) :
  strings_Contains sub (String c EmptyString) = false ->
  strings_HasPrefix (x ++ String c y) sub = strings_HasPrefix x sub.
Proof.
  revert x. induction sub as [|t sub IH]; intros x H; [rewrite !HasPrefix_nil; reflexivity|].
  rewrite Contains_char_cons in H. apply orb_false_iff in H as [H1 H2].
  destruct x as [|a x].
  - rewrite string_app_nil. cbn [strings_HasPrefix].
    rewrite Ascii.eqb_sym, H1. reflexivity.
  - rewrite string_app_cons. cbn [strings_HasPrefix].
    rewrite (IH x H2). reflexivity.
Qed.

Lemma Contains_cut (c : ascii) (sub x y : string) :
  strings_Contains sub (String c EmptyString) = false ->
  strings_Contains (x ++ String c y) sub
  = strings_Contains x sub || strings_Contains y sub.
Proof.
  intros H. induction x as [|a x IH].
  - rewrite string_app_nil. cbn [strings_Contains].
    rewrite <- (string_app_nil (String c y)), (HasPrefix_cut c sub EmptyString y H).
    rewrite orb_false_r. reflexivity.
  - rewrite string_app_cons. cbn [strings_Contains].
    rewrite <- string_app_cons, (HasPrefix_cut c sub (String a x) y H), IH.
    apply orb_assoc.
Qed.

(** the text of eula.txt around a byte that is neither a space nor, once
    lower-cased, a byte of eula=true *)
Lemma eulaAccepted_cut (sep : ascii) (a b : string) :
  sep <> " "%char ->
  strings_Contains "eula=true" (String (toLowerByte sep) EmptyString) = false ->
  eulaAccepted (a ++ String sep b) = eulaAccepted a || eulaAccepted b.
Proof.
  intros Hs Ht. unfold eulaAccepted, strings_ReplaceAll.
  rewrite ToLower_app. cbn [strings_ToLower].
  rewrite strip_app, strip_cons, toLowerByte_space.
  rewrite (proj2 (Ascii.eqb_neq sep " ") Hs).
  apply Contains_cut, Ht.
Qed.

(** C8 (amended): a readable eula.txt is accepted exactly when its text,
    lower-cased and with its space characters removed, holds eula=true, so
    the test sees neither case nor spaces; "EULA = True" is accepted,
    "eula=false" gives the "not accepted" status; in neither case is a
    process launched.  Only the space character is removed: any other byte
    that is not a letter of the word, such as a tab, a line feed or a
    carriage return, stays in the text, and the word must then stand
    unbroken before or after it. *)
Theorem C8_readable_eula_matched_without_case_and_spaces
    (w : World) (g : Globals) (data : string) :
  files g !! os_resolve w (eulaPathOf w g) = Some data ->
  let g' := exec (checkEula w) g in
  filter is_Run (new_events g g') = []
  /\ servstats_Stats_Error g'
     = (if eulaAccepted data then servstats_Stats_Error g
        else Some status_eula_not_accepted)
  /\ (forall other : string,
        strings_ToLower (strings_ReplaceAll other " " "")
        = strings_ToLower (strings_ReplaceAll data " " "") ->
        eulaAccepted other = eulaAccepted data)
  /\ eulaAccepted "EULA = True" = true
  /\ eulaAccepted "eula=false" = false
  /\ (forall (sep : ascii) (a b : string),
        sep <> " "%char ->
        strings_Contains "eula=true" (String (toLowerByte sep) EmptyString) = false ->
        eulaAccepted (a ++ String sep b) = eulaAccepted a || eulaAccepted b)
  /\ (forall a b : string,
        eulaAccepted (a ++ TAB ++ b) = eulaAccepted a || eulaAccepted b
        /\ eulaAccepted (a ++ LF ++ b) = eulaAccepted a || eulaAccepted b
        /\ eulaAccepted (a ++ CR ++ b) = eulaAccepted a || eulaAccepted b).
Proof.
  intros H. cbv zeta.
  destruct (checkEula_readable w g data H) as (T & S & _). cbv zeta in T, S.
  rewrite (new_events_app _ _ _ T).
  split_all; try reflexivity.
  - destruct (eulaAccepted data); reflexivity.
  - exact S.
  - intros other E. apply eulaAccepted_normal, E.
  - intros sep a b. apply eulaAccepted_cut.
  - intros a b. unfold TAB, LF, CR. rewrite !string_app_cons, !string_app_nil.
    split_all; apply eulaAccepted_cut; (discriminate || reflexivity).
Qed.

Lemma C8_witness_mixed_case :
  files (ready_globals (disk_eula "EULA = True"))
    !! os_resolve plain_world (eulaPathOf plain_world (ready_globals (disk_eula "EULA = True")))
  = Some "EULA = True"
  /\ filter is_Run
       (new_events (ready_globals (disk_eula "EULA = True"))
          (exec (checkEula plain_world) (ready_globals (disk_eula "EULA = True")))) = []
  /\ servstats_Stats_Error
       (exec (checkEula plain_world) (ready_globals (disk_eula "EULA = True"))) = None
  /\ eulaAccepted ("EULA" ++ TAB ++ "= True")
     = eulaAccepted "EULA" || eulaAccepted "= True".
Proof.
  assert (H : files (ready_globals (disk_eula "EULA = True"))
              !! os_resolve plain_world
                   (eulaPathOf plain_world (ready_globals (disk_eula "EULA = True")))
              = Some "EULA = True") by reflexivity.
  pose proof (C8_readable_eula_matched_without_case_and_spaces
                plain_world (ready_globals (disk_eula "EULA = True")) "EULA = True" H) as P.
  cbv zeta in P. destruct P as (R & S & _ & _ & _ & _ & K).
  destruct (K "EULA" "= True") as (K1 & _).
  split; [exact H|]. split; [exact R|]. split; [exact S | exact K1].
Defined.

(** C8 as stated fails: an eula.txt that holds eula=true with tabs around
    the equals sign holds the word once its white space is removed, and the
    check records "not accepted". *)
Lemma C8_counterexample_tabs_not_stripped :
  ~ eula_matched_whitespace_stripped plain_world
      (ready_globals (disk_eula eula_with_tabs)).
Proof.
  unfold eula_matched_whitespace_stripped. intros H.
  apply (H eula_with_tabs); [reflexivity | reflexivity |].
  vm_compute. reflexivity.
Qed.

(** X5: the acceptance test of line 262 is a search: a text that passes
    still passes with any text before and after it (a comment line holding
    the word is enough), and a text of fewer than nine bytes never
    passes. *)
Theorem X5_eula_word_anywhere (before data after : string) :
  (eulaAccepted data = true ->
   eulaAccepted (before ++ data ++ after) = true)
  /\ ((String.length data < 9)%nat -> eulaAccepted data = false).
Proof.
  unfold eulaAccepted.
  assert (E : forall s, strings_ReplaceAll (strings_ToLower s) " " ""
                        = replaceFrom 0 " " "" (strings_ToLower s)) by reflexivity.
  split.
  - intros H. rewrite E in *.
    rewrite !ToLower_app, !strip_app.
    apply Contains_app_r, Contains_app_l, H.
  - intros H. rewrite E. apply Contains_short.
    pose proof (strip_length " " (strings_ToLower data)) as L.
    rewrite ToLower_length in L. cbn [String.length]. lia.
Qed.

Lemma X5_witness_comment_line :
  eulaAccepted "eula=true" = true
  /\ eulaAccepted ("eula=false" ++ LF ++ "#set eula=true to accept" ++ LF) = true
  /\ eulaAccepted "eula=tru" = false.
Proof.
  assert (H : eulaAccepted "eula=true" = true) by reflexivity.
  split; [exact H|]. split.
  - apply (proj1 (X5_eula_word_anywhere ("eula=false" ++ LF ++ "#set ")
                    "eula=true" (" to accept" ++ LF)) H).
  - apply (proj2 (X5_eula_word_anywhere "" "eula=tru" "")). cbn. lia.
Defined.

(** ** Failures of [loadDefault], [Save] and [LoadConfig] *)

Lemma loadDefault_failed (w : World) (g : Globals) (e : Error) :
  fst (loadDefault w g) = Returns (Some e) ->
  let g' := exec (loadDefault w) g in
  Cod e = ERROR_CONFIG_LOAD /\ Lvl e = LVL_B /\ Ori e = "loadDefault"
  /\ filter (fun ev => negb (is_ReadFile ev)) (new_events g g') = []
  /\ ConfigDefaultSave g' = ConfigDefaultSave g
  /\ ConfigRuntime g' = ConfigRuntime g
  /\ servstats_Stats_Error g' = servstats_Stats_Error g
  /\ files g' = files g
  /\ Javav g' = Javav g.
Proof.
  cbv zeta. unfold exec. rewrite loadDefault_run.
  destruct (os_Executable_config w) as [mshPath|msg].
  2:{ cbn [fst snd]. intros H. injection H as <-. cbn [Cod Lvl Ori].
      rewrite (new_events_app g g []) by (symmetry; apply app_nil_r).
      split_all; reflexivity. }
  cbv zeta. destruct (files g !! os_resolve w _) as [data|].
  2:{ cbn [fst snd]. intros H. injection H as <-. cbn [Cod Lvl Ori].
      erewrite new_events_app by (trace_norm; reflexivity).
      split_all; reflexivity. }
  destruct (json_Unmarshal w data (ConfigDefault g)) as [[c'|] [msg|]].
  - cbn [fst snd]. intros H. injection H as <-. cbn [Cod Lvl Ori].
    erewrite new_events_app by (trace_norm; reflexivity).
    split_all; reflexivity.
  - cbn [fst snd]. intros H. discriminate H.
  - cbn [fst snd]. intros H. injection H as <-. cbn [Cod Lvl Ori].
    erewrite new_events_app by (trace_norm; reflexivity).
    split_all; reflexivity.
  - rewrite loadDefault_nil_run.
    destruct (machineid_ProtectedID w "msh") as [id|m].
    + destruct (os_Executable_mshid w) as [ex|m]; [discriminate|].
      cbv zeta. destruct (nil_assignMshID w); [|discriminate].
      destruct (nil_getVersionInfo w); discriminate.
    + cbv zeta. destruct (nil_assignMshID w); [|discriminate].
      destruct (nil_getVersionInfo w); discriminate.
Qed.

(** a panic of [loadDefault] comes from a nil receiver, after the read *)
Lemma loadDefault_panicked (w : World) (g : Globals) :
  fst (loadDefault w g) = Panics ->
  let g' := exec (loadDefault w) g in
  (exists mshPath configData,
      os_Executable_config w = Ok mshPath
      /\ files g !! os_resolve w (filepath_Join w (filepath_Dir w mshPath) configFileName)
         = Some configData
      /\ json_Unmarshal w configData (ConfigDefault g) = (Nil, None))
  /\ ConfigDefault g' = ConfigDefault g
  /\ ConfigDefaultSave g' = ConfigDefaultSave g
  /\ ConfigRuntime g' = ConfigRuntime g
  /\ servstats_Stats_Error g' = servstats_Stats_Error g
  /\ Javav g' = Javav g
  /\ files g' = files g.
Proof.
  cbv zeta. unfold exec. rewrite loadDefault_run.
  destruct (os_Executable_config w) as [mshPath|msg]; [|discriminate].
  cbv zeta. destruct (files g !! os_resolve w _) as [data|] eqn:HF; [|discriminate].
  destruct (json_Unmarshal w data (ConfigDefault g)) as [[c'|] [msg|]] eqn:HU;
    [discriminate|discriminate|discriminate|].
  intros _. split; [eauto|].
  apply (loadDefault_nil_frame w
           (add_event
              (EvReadFile (filepath_Join w (filepath_Dir w mshPath) configFileName)) g)).
Qed.

Lemma Save_failed (w : World) (c : Configuration) (g : Globals) (e : Error) :
  fst (Save w c g) = Some e ->
  Cod e = ERROR_CONFIG_SAVE /\ Lvl e = LVL_D /\ Ori e = "Save"
  /\ (forall k : string, k <> os_resolve w configFileName ->
        files (exec (Save w c) g) !! k = files g !! k)
  /\ (files (exec (Save w c) g) = files g
      \/ exists configData msg n,
           json_MarshalIndent w c "" "  " = Ok configData
           /\ ioutil_WriteFile_err w configFileName = Some (msg, Some n)
           /\ files (exec (Save w c) g)
              = <[os_resolve w configFileName := substring 0 n configData]> (files g)).
Proof.
  unfold exec. rewrite Save_run.
  destruct (json_MarshalIndent w c "" "  ") as [data|msg].
  2:{ cbn [fst snd]. intros H. injection H as <-. auto 6. }
  cbv zeta. destruct (ioutil_WriteFile_err w configFileName) as [[msg [n|]]|];
    cbn [fst snd]; intros H; [| |discriminate H].
  - injection H as <-. split_all; try reflexivity.
    + intros k Hk. fields. apply lookup_insert_ne. congruence.
    + right. exists data, msg, n. auto.
  - injection H as <-. auto 6.
Qed.

Lemma LoadConfig_fst (w : World) (g : Globals) :
  let g1 := add_event (EvLogln LVL_D "loading config...")
              (add_event (EvLogln LVL_D "checking OS support...") g) in
  let g3 := exec (loadRuntime w) (exec (loadDefault w) g1) in
  fst (LoadConfig w g) =
  match opsys_OsSupported w with
  | Some e => Returns (Some (AddTrace "LoadConfig" e))
  | None =>
      match fst (loadDefault w g1) with
      | Panics => Panics
      | Returns (Some e) => Returns (Some (AddTrace "LoadConfig" e))
      | Returns None =>
          if ConfigDefaultSave g3
          then match fst (Save w (ConfigDefault g3) g3) with
               | Some e => Returns (Some (AddTrace "LoadConfig" e))
               | None => Returns None
               end
          else Returns None
      end
  end.
Proof.
  cbv zeta. rewrite LoadConfig_run. cbv zeta.
  destruct (opsys_OsSupported w); [reflexivity|].
  unfold exec.
  destruct (loadDefault w _) as [[[e|]|] g2]; [reflexivity| |reflexivity]. cbn [fst snd].
  destruct (ConfigDefaultSave (snd (loadRuntime w g2))); [|reflexivity].
  destruct (Save w _ _) as [[e|] g4]; reflexivity.
Qed.

(** X6: loadDefault returns an error exactly when the executable path is
    not resolved, the config file beside it is not read, or the decoder
    reports an error.  The error is an ERROR_CONFIG_LOAD of level LVL_B and
    origin loadDefault, and nothing of the setup has run: no log entry, the
    dirty flag, the runtime configuration, the status and the disk are as
    before; when the path or the read fails the default configuration is
    untouched too (no fallback values are put in).  A file the decoder
    reads into the struct makes loadDefault return nil.  A file that holds
    the JSON literal null is no error for the decoder but leaves the
    receiver nil: with machine id and executable path at hand loadDefault
    then panics at line 143, having done nothing but the read; whenever it
    panics, both configurations, the dirty flag and the disk are as
    before. *)
Theorem X6_loadDefault_fails_without_side_effects (w : World) (g : Globals) :
  let g' := exec (loadDefault w) g in
  ((exists e, fst (loadDefault w g) = Returns (Some e)) <->
   (exists msg, os_Executable_config w = Err msg)
   \/ (exists mshPath,
         os_Executable_config w = Ok mshPath
         /\ files g !! os_resolve w (filepath_Join w (filepath_Dir w mshPath) configFileName)
            = None)
   \/ (exists mshPath configData r msg,
         os_Executable_config w = Ok mshPath
         /\ files g !! os_resolve w (filepath_Join w (filepath_Dir w mshPath) configFileName)
            = Some configData
         /\ json_Unmarshal w configData (ConfigDefault g) = (r, Some msg)))
  /\ (forall e, fst (loadDefault w g) = Returns (Some e) ->
        Cod e = ERROR_CONFIG_LOAD /\ Lvl e = LVL_B /\ Ori e = "loadDefault"
        /\ filter (fun ev => negb (is_ReadFile ev)) (new_events g g') = []
        /\ ConfigDefaultSave g' = ConfigDefaultSave g
        /\ ConfigRuntime g' = ConfigRuntime g
        /\ servstats_Stats_Error g' = servstats_Stats_Error g
        /\ files g' = files g)
  /\ (forall msg, os_Executable_config w = Err msg -> g' = g)
  /\ (forall mshPath,
        os_Executable_config w = Ok mshPath ->
        files g !! os_resolve w (filepath_Join w (filepath_Dir w mshPath) configFileName)
        = None ->
        ConfigDefault g' = ConfigDefault g
        /\ fst (loadDefault w g)
           = Returns (Some (NewErr ERROR_CONFIG_LOAD LVL_B "loadDefault"
                              (ioutil_ReadFile_err w
                                 (filepath_Join w (filepath_Dir w mshPath) configFileName)))))
  /\ (forall mshPath configData c',
        os_Executable_config w = Ok mshPath ->
        files g !! os_resolve w (filepath_Join w (filepath_Dir w mshPath) configFileName)
        = Some configData ->
        json_Unmarshal w configData (ConfigDefault g) = (Decoded c', None) ->
        fst (loadDefault w g) = Returns None)
  /\ (forall mshPath configData id ex,
        os_Executable_config w = Ok mshPath ->
        files g !! os_resolve w (filepath_Join w (filepath_Dir w mshPath) configFileName)
        = Some configData ->
        json_Unmarshal w configData (ConfigDefault g) = (Nil, None) ->
        machineid_ProtectedID w "msh" = Ok id ->
        os_Executable_mshid w = Ok ex ->
        fst (loadDefault w g) = Panics
        /\ g' = add_event
                  (EvReadFile (filepath_Join w (filepath_Dir w mshPath) configFileName)) g)
  /\ (fst (loadDefault w g) = Panics ->
      ConfigDefault g' = ConfigDefault g
      /\ ConfigRuntime g' = ConfigRuntime g
      /\ ConfigDefaultSave g' = ConfigDefaultSave g
      /\ files g' = files g).
Proof.
  cbv zeta. split_all.
  - rewrite loadDefault_run.
    destruct (os_Executable_config w) as [mshPath|msg].
    2:{ split; [eauto|]. intros _. eauto. }
    cbv zeta. destruct (files g !! os_resolve w _) as [data|] eqn:HF.
    2:{ split; [|eauto]. intros _. right. left. eauto. }
    destruct (json_Unmarshal w data (ConfigDefault g)) as [[c'|] [msg|]] eqn:HU.
    + split; [|eauto]. intros _. right. right. exists mshPath, data. eauto.
    + split; [intros (e & H); discriminate H|].
      intros [(m & H)|[(p & H1 & H2)|(p & d & r & m & H1 & H2 & H3)]].
      * discriminate H.
      * injection H1 as <-. rewrite HF in H2. discriminate H2.
      * injection H1 as <-. rewrite HF in H2. injection H2 as <-.
        rewrite HU in H3. discriminate H3.
    + split; [|eauto]. intros _. right. right. exists mshPath, data. eauto.
    + split.
      * intros (e & H). exfalso. revert H. rewrite loadDefault_nil_run.
        destruct (machineid_ProtectedID w "msh") as [id|m].
        -- destruct (os_Executable_mshid w) as [ex|m]; [discriminate|].
           cbv zeta. destruct (nil_assignMshID w); [|discriminate].
           destruct (nil_getVersionInfo w); discriminate.
        -- cbv zeta. destruct (nil_assignMshID w); [|discriminate].
           destruct (nil_getVersionInfo w); discriminate.
      * intros [(m & H)|[(p & H1 & H2)|(p & d & r & m & H1 & H2 & H3)]].
        -- discriminate H.
        -- injection H1 as <-. rewrite HF in H2. discriminate H2.
        -- injection H1 as <-. rewrite HF in H2. injection H2 as <-.
           rewrite HU in H3. discriminate H3.
  - intros e H. destruct (loadDefault_failed w g e H) as (? & ? & ? & ? & ? & ? & ? & ? & _).
    auto 10.
  - intros msg H. unfold exec. rewrite loadDefault_run, H. reflexivity.
  - intros mshPath H1 H2. unfold exec. rewrite loadDefault_run, H1. cbv zeta.
    rewrite H2. split; reflexivity.
  - intros mshPath configData c' H1 H2 H3.
    apply (loadDefault_success w g mshPath configData c' H1 H2 H3).
  - intros mshPath configData id ex H1 H2 H3 H4 H5.
    unfold exec. rewrite loadDefault_run, H1. cbv zeta.
    rewrite H2, H3, loadDefault_nil_run, H4, H5. split; reflexivity.
  - intros H. destruct (loadDefault_panicked w g H) as (_ & ? & ? & ? & _ & _ & ?).
    auto.
Qed.

(** two runs of X6: no config file, and a config file that holds null *)
Lemma X6_witness_missing_config_file :
  fst (loadDefault plain_world (Globals_init ∅))
  = Returns (Some (NewErr ERROR_CONFIG_LOAD LVL_B "loadDefault"
                     "open /opt/msh/msh-config.json: no such file or directory"))
  /\ ConfigDefault (exec (loadDefault plain_world) (Globals_init ∅)) = Configuration_zero
  /\ json_Unmarshal plain_world "null" (ConfigDefault (Globals_init disk_null))
     = (Nil, None)
  /\ fst (loadDefault plain_world (Globals_init disk_null)) = Panics.
Proof.
  pose proof (X6_loadDefault_fails_without_side_effects plain_world (Globals_init ∅)) as P.
  cbv zeta in P. destruct P as (_ & _ & _ & P & _).
  destruct (P "/opt/msh/msh" eq_refl eq_refl) as (C & E).
  pose proof (X6_loadDefault_fails_without_side_effects plain_world
                (Globals_init disk_null)) as Q.
  cbv zeta in Q. destruct Q as (_ & _ & _ & _ & _ & Q & _).
  destruct (Q "/opt/msh/msh" "null" "3b1f5a" "/opt/msh/msh"
              eq_refl eq_refl eq_refl eq_refl eq_refl) as (N & _).
  split; [exact E|]. split; [exact C|]. split; [reflexivity | exact N].
Defined.

(** X7: Save changes neither configuration, nor the status, nor the dirty
    flag (which therefore stays set after a save), and on disk only the
    config file.  It succeeds exactly when the encoding and the write
    succeed, and then the file holds the encoding.  When it fails it
    returns an ERROR_CONFIG_SAVE error of level LVL_D; the disk is then as
    before if the encoding failed or the file could not be opened, and
    otherwise the config file holds the part of the encoding that was
    written, if any: what it held before is lost. *)
Theorem X7_Save_writes_only_the_config_file
    (w : World) (c : Configuration) (g : Globals) :
  let g' := exec (Save w c) g in
  ConfigDefault g' = ConfigDefault g
  /\ ConfigRuntime g' = ConfigRuntime g
  /\ ConfigDefaultSave g' = ConfigDefaultSave g
  /\ servstats_Stats_Error g' = servstats_Stats_Error g
  /\ (forall k : string, k <> os_resolve w configFileName ->
        files g' !! k = files g !! k)
  /\ (fst (Save w c g) = None <->
      exists configData,
        json_MarshalIndent w c "" "  " = Ok configData
        /\ ioutil_WriteFile_err w configFileName = None)
  /\ (forall configData,
        fst (Save w c g) = None ->
        json_MarshalIndent w c "" "  " = Ok configData ->
        files g' !! os_resolve w configFileName = Some configData)
  /\ (forall e, fst (Save w c g) = Some e ->
        Cod e = ERROR_CONFIG_SAVE /\ Lvl e = LVL_D /\ Ori e = "Save")
  /\ (forall msg, json_MarshalIndent w c "" "  " = Err msg -> g' = g)
  /\ (forall configData msg,
        json_MarshalIndent w c "" "  " = Ok configData ->
        ioutil_WriteFile_err w configFileName = Some (msg, None) ->
        files g' = files g)
  /\ (forall configData msg n,
        json_MarshalIndent w c "" "  " = Ok configData ->
        ioutil_WriteFile_err w configFileName = Some (msg, Some n) ->
        files g' !! os_resolve w configFileName = Some (substring 0 n configData)).
Proof.
  cbv zeta. unfold exec. rewrite Save_run.
  destruct (json_MarshalIndent w c "" "  ") as [data|msg];
    [cbv zeta; destruct (ioutil_WriteFile_err w configFileName) as [[msg [n|]]|]|];
    cbn [fst snd]; split_all; try reflexivity; try (intros; congruence);
    try (split; [congruence | intros (? & ? & ?); congruence]).
  all: first
    [ intros k H; fields; apply lookup_insert_ne; congruence
    | split; [|reflexivity]; intros _; exists data; auto
    | intros d _ H; injection H as <-; fields; apply lookup_insert_eq
    | intros e H; injection H as <-; auto
    | intros d m k H1 H2; injection H1 as <-; injection H2 as _ <-;
      fields; apply lookup_insert_eq ].
Qed.

(** a run of X7 on a full disk: the config file that held the sample
    document is left with the first ten bytes of the new encoding *)
Lemma X7_witness_disk_full :
  json_MarshalIndent disk_full_world (set_MshID sample_id sample_config) "" "  "
  = Ok (sample_document sample_id)
  /\ ioutil_WriteFile_err disk_full_world configFileName
     = Some ("write msh-config.json: no space left on device", Some 10%nat)
  /\ files (Globals_init disk_config) !! "/opt/msh/msh-config.json" = Some sample_json
  /\ files (exec (Save disk_full_world (set_MshID sample_id sample_config))
              (Globals_init disk_config))
     !! "/opt/msh/msh-config.json" = Some "{ sample_c".
Proof.
  assert (H1 : json_MarshalIndent disk_full_world (set_MshID sample_id sample_config)
                 "" "  " = Ok (sample_document sample_id)) by reflexivity.
  assert (H2 : ioutil_WriteFile_err disk_full_world configFileName
               = Some ("write msh-config.json: no space left on device", Some 10%nat))
    by reflexivity.
  pose proof (X7_Save_writes_only_the_config_file disk_full_world
                (set_MshID sample_id sample_config) (Globals_init disk_config)) as P.
  cbv zeta in P. destruct P as (_ & _ & _ & _ & _ & _ & _ & _ & _ & _ & P).
  split; [exact H1|]. split; [exact H2|]. split; [reflexivity|].
  exact (P _ _ _ H1 H2).
Defined.

(** X8: LoadConfig stops at the first failure and passes it on with
    LoadConfig added to its trace: an unsupported OS ends it after one log
    line; a failed loadDefault ends it in the state loadDefault left, so
    that loadRuntime has not run (runtime configuration, status and java
    version untouched); a failed Save is returned with both configurations
    as loadRuntime left them and every file but the config file as it was.
    A panic of loadDefault ends LoadConfig there, with no file written.  It
    returns nil only if the OS is supported and loadDefault returned
    nil. *)
Theorem X8_LoadConfig_stops_at_first_failure (w : World) (g : Globals) :
  let g0 := add_event (EvLogln LVL_D "checking OS support...") g in
  let g1 := add_event (EvLogln LVL_D "loading config...") g0 in
  let g3 := exec (loadRuntime w) (exec (loadDefault w) g1) in
  let g' := exec (LoadConfig w) g in
  (forall e, opsys_OsSupported w = Some e ->
     LoadConfig w g = (Returns (Some (AddTrace "LoadConfig" e)), g0))
  /\ (forall e, opsys_OsSupported w = None -> fst (loadDefault w g1) = Returns (Some e) ->
        fst (LoadConfig w g) = Returns (Some (AddTrace "LoadConfig" e))
        /\ g' = exec (loadDefault w) g1
        /\ ConfigRuntime g' = ConfigRuntime g
        /\ servstats_Stats_Error g' = servstats_Stats_Error g
        /\ Javav g' = Javav g)
  /\ (opsys_OsSupported w = None -> fst (loadDefault w g1) = Panics ->
        fst (LoadConfig w g) = Panics
        /\ g' = exec (loadDefault w) g1
        /\ ConfigDefault g' = ConfigDefault g
        /\ ConfigRuntime g' = ConfigRuntime g
        /\ files g' = files g
        /\ filter is_WriteFile (new_events g g') = [])
  /\ (forall e, opsys_OsSupported w = None -> fst (loadDefault w g1) = Returns None ->
        ConfigDefaultSave g3 = true ->
        fst (Save w (ConfigDefault g3) g3) = Some e ->
        fst (LoadConfig w g) = Returns (Some (AddTrace "LoadConfig" e))
        /\ ConfigDefault g' = ConfigDefault g3
        /\ ConfigRuntime g' = ConfigRuntime g3
        /\ (forall k : string, k <> os_resolve w configFileName ->
              files g' !! k = files g3 !! k))
  /\ (fst (LoadConfig w g) = Returns None ->
      opsys_OsSupported w = None /\ fst (loadDefault w g1) = Returns None).
Proof.
  intros g0 g1 g3 g'.
  pose proof (LoadConfig_fst w g) as LF. cbv zeta in LF. fold g0 g1 in LF. fold g3 in LF.
  pose proof (LoadConfig_exec w g) as LE. cbv zeta in LE.
  fold g0 g1 in LE. fold g3 in LE. fold g' in LE.
  split_all.
  - intros e H. rewrite (surjective_pairing (LoadConfig w g)).
    fold (exec (LoadConfig w) g). fold g'. rewrite LF, LE, H. reflexivity.
  - intros e HO HL. rewrite LF, LE, HO, HL.
    destruct (loadDefault_failed w g1 e HL) as (_ & _ & _ & _ & _ & R & S & _ & J).
    cbv zeta in R, S, J. rewrite R, S, J. split_all; reflexivity.
  - intros HO HL. rewrite LF, LE, HO, HL.
    destruct (loadDefault_panicked w g1 HL) as (_ & D & _ & R & _ & _ & F).
    cbv zeta in D, R, F. rewrite D, R, F. split_all; try reflexivity.
    apply adds_no_write_new_events.
    eapply adds_no_write_trans; [|apply loadDefault_no_write].
    subst g1 g0. no_write.
  - intros e HO HL HS HV. rewrite LF, LE, HO, HL, HS, HV.
    destruct (Save_frame w (ConfigDefault g3) g3) as (D & R & _). cbv zeta in D, R.
    destruct (Save_failed w (ConfigDefault g3) g3 e HV) as (_ & _ & _ & F & _).
    rewrite D, R. split_all; try reflexivity. exact F.
  - intros H. rewrite LF in H.
    destruct (opsys_OsSupported w); [discriminate H|]. split; [reflexivity|].
    destruct (fst (loadDefault w g1)) as [[e|]|]; [discriminate H|reflexivity|discriminate H].
Qed.

(** two runs of X8: no config file, and a config file that holds null *)
Lemma X8_witness_no_config_file :
  opsys_OsSupported plain_world = None
  /\ fst (LoadConfig plain_world (Globals_init ∅))
     = Returns (Some (NewErr ERROR_CONFIG_LOAD LVL_B "LoadConfig: loadDefault"
                        "open /opt/msh/msh-config.json: no such file or directory"))
  /\ ConfigRuntime (exec (LoadConfig plain_world) (Globals_init ∅)) = Configuration_zero
  /\ fst (LoadConfig plain_world (Globals_init disk_null)) = Panics.
Proof.
  pose proof (X8_LoadConfig_stops_at_first_failure plain_world (Globals_init ∅)) as P.
  cbv zeta in P. destruct P as (_ & P & _).
  destruct (P _ eq_refl eq_refl) as (F & _ & R & _).
  pose proof (X8_LoadConfig_stops_at_first_failure plain_world (Globals_init disk_null)) as Q.
  cbv zeta in Q. destruct Q as (_ & _ & Q & _).
  destruct (Q eq_refl eq_refl) as (N & _).
  split; [reflexivity|]. split; [exact F|]. split; [exact R | exact N].
Defined.

(** ** The two configurations after [loadRuntime] *)

Lemma set_MshID_twice (a b : string) (c : Configuration) :
  set_MshID a (set_MshID b c) = set_MshID a c.
Proof. reflexivity. Qed.

Lemma runtimeOf_ID (w : World) (c : Configuration) :
  ID (Msh (runtimeOf w c)) = default (ID (Msh c)) (flag_id (flag_Parse w)).
Proof. reflexivity. Qed.

(** X9: loadRuntime changes the default configuration at most in its
    identity: every other field, and with them the start-command template
    with its placeholders, is as before.  When it returns, the two
    identities agree unless the runtime one is not 40 bytes long.  Without
    an id flag the default configuration and the dirty flag are not
    changed at all. *)
Theorem X9_default_changes_only_in_identity (w : World) (g : Globals) :
  let g' := exec (loadRuntime w) g in
  set_MshID (ID (Msh (ConfigDefault g))) (ConfigDefault g') = ConfigDefault g
  /\ StartServer (Commands (ConfigDefault g'))
     = StartServer (Commands (ConfigDefault g))
  /\ (ID (Msh (ConfigRuntime g')) = ID (Msh (ConfigDefault g'))
      \/ String.length (ID (Msh (ConfigRuntime g'))) <> 40%nat)
  /\ (flag_id (flag_Parse w) = None ->
      ConfigDefault g' = ConfigDefault g
      /\ ConfigDefaultSave g' = ConfigDefaultSave g).
Proof.
  cbv zeta.
  destruct (loadRuntime_configs w g) as (_ & R & _). cbv zeta in R.
  destruct (loadRuntime_dirty w g) as (S & D). cbv zeta in S, D.
  rewrite R, D, S. unfold promotes.
  destruct (String.eqb_spec (ID (Msh (ConfigDefault g)))
              (ID (Msh (runtimeOf w (ConfigDefault g))))) as [E|N];
    cbn [negb andb].
  - rewrite orb_false_r. split_all; auto using set_MshID_same.
  - destruct (Nat.eqb_spec (String.length (ID (Msh (runtimeOf w (ConfigDefault g))))) 40)
      as [L|L].
    + split_all; auto.
      * rewrite set_MshID_twice. apply set_MshID_same.
      * intros H. exfalso. apply N. rewrite runtimeOf_ID, H. reflexivity.
    + rewrite orb_false_r. split_all; auto using set_MshID_same.
Qed.

(** X10: overlay precedence.  After loadRuntime every field of the
    runtime configuration that has a flag holds the value of the flag when
    it is given and the value of the default configuration when it is not,
    whatever the checks found; and errco.DebugLvl is the runtime debug
    level. *)
Theorem X10_flags_override_defaults (w : World) (g : Globals) :
  let f := flag_Parse w in
  let d := ConfigDefault g in
  let g' := exec (loadRuntime w) g in
  let r := ConfigRuntime g' in
  Folder (Server r) = default (Folder (Server d)) (flag_folder f)
  /\ FileName (Server r) = default (FileName (Server d)) (flag_file f)
  /\ Version (Server r) = default (Version (Server d)) (flag_version f)
  /\ Protocol (Server r) = default (Protocol (Server d)) (flag_protocol f)
  /\ StartServerParam (Commands r)
     = default (StartServerParam (Commands d)) (flag_msparam f)
  /\ StopServerAllowKill (Commands r)
     = default (StopServerAllowKill (Commands d)) (flag_allowkill f)
  /\ ID (Msh r) = default (ID (Msh d)) (flag_id f)
  /\ Debug (Msh r) = default (Debug (Msh d)) (flag_d f)
  /\ AllowSuspend (Msh r) = default (AllowSuspend (Msh d)) (flag_allowsuspend f)
  /\ InfoHibernation (Msh r) = default (InfoHibernation (Msh d)) (flag_infohibe f)
  /\ InfoStarting (Msh r) = default (InfoStarting (Msh d)) (flag_infostar f)
  /\ NotifyUpdate (Msh r) = default (NotifyUpdate (Msh d)) (flag_notifyupd f)
  /\ NotifyMessage (Msh r) = default (NotifyMessage (Msh d)) (flag_notifymes f)
  /\ ListenPort (Msh r) = default (ListenPort (Msh d)) (flag_port f)
  /\ TimeBeforeStoppingEmptyServer (Msh r)
     = default (TimeBeforeStoppingEmptyServer (Msh d)) (flag_timeout f)
  /\ errco_DebugLvl g' = Debug (Msh r).
Proof.
  cbv zeta.
  destruct (loadRuntime_configs w g) as (_ & R & _). cbv zeta in R. rewrite R.
  split_all; try reflexivity.
  rewrite loadRuntime_exec.
  set (g1 := exec reconcileMshID (afterOverlay w g)).
  destruct (beforeChecks w g) as (_ & _ & _ & _ & D & _). cbv zeta in D. fold g1 in D.
  destruct (checkServer_fields w g1) as (_ & _ & _ & CD & _). cbv zeta in CD.
  destruct (afterChecks w (exec (checkServer w) g1)) as (_ & _ & AD & _).
  cbv zeta in AD. rewrite AD, CD, D. reflexivity.
Qed.

(** X11: java is looked up once in every loadRuntime, whatever the server
    and eula checks found; java --version is run once when the lookup
    succeeds and never when it fails, in which case Javav keeps its value;
    when the query fails Javav is the word unknown. *)
Theorem X11_java_looked_up_once (w : World) (g : Globals) :
  let g' := exec (loadRuntime w) g in
  filter is_JavaCheck (new_events g g')
  = EvLookPath "java"
    :: (if exec_LookPath w "java" then [EvOutput "java" ["--version"]] else [])
  /\ (exec_LookPath w "java" = false -> Javav g' = Javav g)
  /\ (forall msg, exec_LookPath w "java" = true ->
        cmd_Output w "java" ["--version"] = Err msg -> Javav g' = "unknown").
Proof.
  cbv zeta. split_all.
  - rewrite loadRuntime_exec.
    set (g1 := exec reconcileMshID (afterOverlay w g)).
    destruct (beforeChecks w g) as (_ & _ & _ & _ & _ & _ & T1).
    cbv zeta in T1. fold g1 in T1.
    destruct (checkServer_fields w g1) as (_ & _ & _ & _ & _ & T2). cbv zeta in T2.
    destruct (afterChecks w (exec (checkServer w) g1)) as (_ & _ & _ & _ & _ & T3).
    cbv zeta in T3.
    apply adds_filtered_new_events.
    apply (adds_filtered_trans _ _ _ _ _ _ T1 (adds_filtered_trans _ _ _ _ _ _ T2 T3)).
  - intros H. rewrite loadRuntime_Javav, H. reflexivity.
  - intros msg H1 H2. rewrite loadRuntime_Javav, H1, H2. reflexivity.
Qed.

(** ** Bootstraps that do and do not settle *)

Lemma withDerivedID_same (w : World) (c : Configuration) :
  derives_new_id w c = false -> withDerivedID w c = c.
Proof.
  unfold withDerivedID, derives_new_id.
  destruct (machineid_ProtectedID w "msh"); [|reflexivity].
  destruct (os_Executable_mshid w); [|reflexivity].
  intros N. apply negb_false_iff, String.eqb_eq in N.
  rewrite <- N. apply set_MshID_same.
Qed.

Lemma withProbed_same (w : World) (c : Configuration) :
  probe_changes w c = false -> withProbed w c = c.
Proof.
  unfold withProbed, probe_changes.
  destruct (getVersionInfo w c) as [e|[v p]]; [reflexivity|].
  intros N. apply orb_false_iff in N as [E1 E2].
  apply negb_false_iff, String.eqb_eq in E1.
  apply negb_false_iff, Z.eqb_eq in E2.
  rewrite <- E1, <- E2. apply set_VersionProtocol_same.
Qed.

Lemma withProbed_ID (w : World) (c : Configuration) :
  ID (Msh (withProbed w c)) = ID (Msh c).
Proof. unfold withProbed. destruct (getVersionInfo w c) as [e|[v p]]; reflexivity. Qed.

(** X12: a config file that already holds what loadDefault would set is
    not written again: when the decoded configuration has the derived
    identity (or none can be derived) and the probed version and protocol
    (or the probe fails), and no id flag is given, LoadConfig returns nil
    with the decoded configuration as default, the dirty flag down, and no
    file written. *)
Theorem X12_settled_config_is_not_rewritten (w : World) (g : Globals)
    (mshPath configData : string) (c : Configuration) :
  opsys_OsSupported w = None ->
  os_Executable_config w = Ok mshPath ->
  files g !! os_resolve w (filepath_Join w (filepath_Dir w mshPath) configFileName)
  = Some configData ->
  json_Unmarshal w configData (ConfigDefault g) = (Decoded c, None) ->
  derives_new_id w c = false ->
  probe_changes w c = false ->
  flag_id (flag_Parse w) = None ->
  ConfigDefaultSave g = false ->
  let g' := exec (LoadConfig w) g in
  fst (LoadConfig w g) = Returns None
  /\ ConfigDefault g' = c
  /\ ConfigRuntime g' = runtimeOf w c
  /\ ConfigDefaultSave g' = false
  /\ filter is_WriteFile (new_events g g') = [].
Proof.
  intros HO HE HF HU HD HP HI HS. cbv zeta.
  set (g1 := add_event (EvLogln LVL_D "loading config...")
               (add_event (EvLogln LVL_D "checking OS support...") g)).
  destruct (loadDefault_success w g1 mshPath configData c HE HF HU) as (L1 & L2 & L3).
  rewrite (withDerivedID_same w c HD), (withProbed_same w c HP) in L2.
  rewrite (withDerivedID_same w c HD), HD, HP in L3.
  change (ConfigDefaultSave g1) with (ConfigDefaultSave g) in L3. rewrite HS in L3.
  cbn [orb] in L3.
  destruct (loadRuntime_configs w (exec (loadDefault w) g1)) as (_ & R & _).
  destruct (loadRuntime_dirty w (exec (loadDefault w) g1)) as (S & D).
  cbv zeta in R, S, D. rewrite L2 in R, S, D. rewrite L3 in S.
  assert (P : promotes w c = false).
  { unfold promotes. rewrite runtimeOf_ID, HI. cbn [default].
    rewrite String.eqb_refl. reflexivity. }
  rewrite P in S, D. cbn [orb] in S.
  pose proof (LoadConfig_exec w g) as LE. cbv zeta in LE. fold g1 in LE.
  rewrite HO, L1, S in LE.
  pose proof (LoadConfig_fst w g) as LF. cbv zeta in LF. fold g1 in LF.
  rewrite HO, L1, S in LF.
  rewrite LE. split_all; try assumption.
  apply adds_no_write_new_events.
  eapply adds_no_write_trans; [|apply loadRuntime_no_write].
  eapply adds_no_write_trans; [|apply loadDefault_no_write].
  subst g1. no_write.
Qed.

Lemma X12_witness_second_start :
  files (Globals_init stable_disk)
    !! os_resolve plain_world
         (filepath_Join plain_world (filepath_Dir plain_world "/opt/msh/msh") configFileName)
  = Some (sample_document sample_id)
  /\ derives_new_id plain_world (set_MshID sample_id sample_config) = false
  /\ fst (LoadConfig plain_world (Globals_init stable_disk)) = Returns None
  /\ ConfigDefaultSave (exec (LoadConfig plain_world) (Globals_init stable_disk)) = false
  /\ filter is_WriteFile
       (new_events (Globals_init stable_disk)
          (exec (LoadConfig plain_world) (Globals_init stable_disk))) = [].
Proof.
  assert (HF : files (Globals_init stable_disk)
               !! os_resolve plain_world
                    (filepath_Join plain_world
                       (filepath_Dir plain_world "/opt/msh/msh") configFileName)
               = Some (sample_document sample_id)) by reflexivity.
  assert (HU : json_Unmarshal plain_world (sample_document sample_id)
                 (ConfigDefault (Globals_init stable_disk))
               = (Decoded (set_MshID sample_id sample_config), None)) by reflexivity.
  assert (HD : derives_new_id plain_world (set_MshID sample_id sample_config) = false)
    by (vm_compute; reflexivity).
  pose proof (X12_settled_config_is_not_rewritten plain_world (Globals_init stable_disk)
                "/opt/msh/msh" (sample_document sample_id)
                (set_MshID sample_id sample_config)
                eq_refl eq_refl HF HU HD eq_refl eq_refl eq_refl) as P.
  cbv zeta in P. destruct P as (R & _ & _ & S & W).
  split_all; assumption.
Defined.

(** X13: an id flag of 40 bytes that is not the identity derived from the
    machine keeps the config file from settling: whatever the file holds,
    loadDefault puts the derived identity in the default configuration,
    loadRuntime replaces it by the flag, the dirty flag is raised and
    LoadConfig ends in Save, at every start. *)
Theorem X13_forced_identity_is_saved_at_every_start (w : World) (g : Globals)
    (mshPath configData id ex u : string) (c' : Configuration) :
  opsys_OsSupported w = None ->
  os_Executable_config w = Ok mshPath ->
  files g !! os_resolve w (filepath_Join w (filepath_Dir w mshPath) configFileName)
  = Some configData ->
  json_Unmarshal w configData (ConfigDefault g) = (Decoded c', None) ->
  machineid_ProtectedID w "msh" = Ok id ->
  os_Executable_mshid w = Ok ex ->
  flag_id (flag_Parse w) = Some u ->
  String.length u = 40%nat ->
  u <> sha1_hex (id ++ filepath_Dir w ex) ->
  let g1 := add_event (EvLogln LVL_D "loading config...")
              (add_event (EvLogln LVL_D "checking OS support...") g) in
  let g3 := exec (loadRuntime w) (exec (loadDefault w) g1) in
  let g' := exec (LoadConfig w) g in
  ID (Msh (ConfigDefault (exec (loadDefault w) g1))) = sha1_hex (id ++ filepath_Dir w ex)
  /\ ID (Msh (ConfigDefault g')) = u
  /\ ConfigDefaultSave g' = true
  /\ g' = exec (Save w (ConfigDefault g3)) g3.
Proof.
  intros HO HE HF HU HM HX HI HL HN g1 g3 g'.
  destruct (loadDefault_success w g1 mshPath configData c' HE HF HU) as (L1 & L2 & _).
  assert (I : ID (Msh (ConfigDefault (exec (loadDefault w) g1)))
              = sha1_hex (id ++ filepath_Dir w ex)).
  { rewrite L2, withProbed_ID. unfold withDerivedID. rewrite HM, HX. reflexivity. }
  destruct (loadRuntime_dirty w (exec (loadDefault w) g1)) as (S & D).
  cbv zeta in S, D. fold g3 in S, D.
  assert (P : promotes w (ConfigDefault (exec (loadDefault w) g1)) = true).
  { unfold promotes. rewrite runtimeOf_ID, HI, I.
    change (default (sha1_hex (id ++ filepath_Dir w ex)) (Some u)) with u.
    rewrite HL, (proj2 (String.eqb_neq _ _)) by congruence. reflexivity. }
  rewrite P in S, D. rewrite orb_true_r in S.
  rewrite runtimeOf_ID, HI in D.
  change (default (ID (Msh (ConfigDefault (exec (loadDefault w) g1)))) (Some u)) with u in D.
  pose proof (LoadConfig_exec w g) as LE. cbv zeta in LE.
  fold g1 in LE. fold g3 in LE. fold g' in LE.
  rewrite HO, L1, S in LE.
  destruct (Save_frame w (ConfigDefault g3) g3) as (SD & _ & SS). cbv zeta in SD, SS.
  split_all.
  - exact I.
  - rewrite LE, SD, D. reflexivity.
  - rewrite LE, SS. exact S.
  - exact LE.
Qed.

Lemma X13_witness_forced_forty_Z :
  flag_id (flag_Parse forced_id_world) = Some forty_Z
  /\ forty_Z <> sha1_hex ("3b1f5a" ++ filepath_Dir forced_id_world "/opt/msh/msh")
  /\ ID (Msh (ConfigDefault (exec (LoadConfig forced_id_world) (Globals_init stable_disk))))
     = forty_Z
  /\ ConfigDefaultSave (exec (LoadConfig forced_id_world) (Globals_init stable_disk)) = true.
Proof.
  assert (HF : files (Globals_init stable_disk)
               !! os_resolve forced_id_world
                    (filepath_Join forced_id_world
                       (filepath_Dir forced_id_world "/opt/msh/msh") configFileName)
               = Some (sample_document sample_id)) by reflexivity.
  assert (HU : json_Unmarshal forced_id_world (sample_document sample_id)
                 (ConfigDefault (Globals_init stable_disk))
               = (Decoded (set_MshID sample_id sample_config), None)) by reflexivity.
  assert (HN : forty_Z <> sha1_hex ("3b1f5a" ++ filepath_Dir forced_id_world "/opt/msh/msh")).
  { vm_compute. discriminate. }
  pose proof (X13_forced_identity_is_saved_at_every_start forced_id_world
                (Globals_init stable_disk) "/opt/msh/msh" (sample_document sample_id)
                "3b1f5a" "/opt/msh/msh" forty_Z (set_MshID sample_id sample_config)
                eq_refl eq_refl HF HU eq_refl eq_refl eq_refl eq_refl HN) as P.
  cbv zeta in P. destruct P as (_ & I & S & _).
  split_all; try assumption. reflexivity.
Defined.
